(** * calendar-agent: the free-slot finder of [calendar_utils.py]

    A shallow embedding of [find_free_slots] (calendar_utils.py, lines
    152-288) and of the helper [get_event_time] (lines 7-14), followed by
    the properties of the specification that concern them.

    Conventions of the embedding.
    - A Python [datetime] is a record of its seven calendar fields and its
      [tzinfo]; comparison, [min], [max], [replace] and subtraction follow
      CPython's [datetime] module.
    - [datetime.fromisoformat] and [datetime.strptime(_, "%Y-%m-%d")] belong
      to the Python standard library, not to the repository: they are
      parameters of the development ([None] stands for [ValueError]).  The
      only facts assumed about them are the invariants every Python
      [datetime] object satisfies (section hypotheses, stated where used).
    - An exception that escapes the function is a value [Raise _] of the
      result type; the source catches [ValueError] around the parsers only.
    - [int(delta.total_seconds() / 60)] is computed as CPython computes it:
      two divisions in binary64 arithmetic, each rounded to the nearest
      value with 53 significant bits (ties to even), then a truncation
      toward zero.  The result is the whole number of minutes of [delta]
      for every interval on whole seconds and for every interval shorter
      than 2^26 minutes (lemmas [timedelta_minutes_whole_seconds] and
      [timedelta_minutes_floor]); for a longer interval with a fraction of
      a second it can be one more. *)

From Stdlib Require Import ZArith Lia Bool List Ascii String Sorted.
From Stdlib Require DecimalString.
From stdpp Require Import base option list strings gmap.

Local Open Scope string_scope.
Local Open Scope list_scope.
Local Open Scope Z_scope.

(** ** Exceptions *)

Inductive exn : Set :=
| ValueError.

Inductive result (A : Type) : Type :=
| Ok (a : A)
| Raise (e : exn).

Arguments Ok {A} a.
Arguments Raise {A} e.

Definition rbind {A B : Type} (r : result A) (k : A -> result B) : result B :=
  match r with
  | Ok a => k a
  | Raise e => Raise e
  end.

Definition rmap {A B : Type} (f : A -> B) (r : result A) : result B :=
  rbind r (fun a => Ok (f a)).

Notation "'do' x <- r ; k" := (rbind r (fun x => k))
  (at level 10, x pattern, r at level 100, k at level 200).

(** ** Python strings *)

(** [s.replace("Z", "+00:00")]: every occurrence is replaced. *)
Fixpoint replace_Z (s : string) : string :=
  match s with
  | EmptyString => EmptyString
  | String c rest =>
      if Ascii.eqb c "Z"%char then String.append "+00:00" (replace_Z rest)
      else String c (replace_Z rest)
  end.

(** ["T" in s] *)
Fixpoint contains_T (s : string) : bool :=
  match s with
  | EmptyString => false
  | String c rest => Ascii.eqb c "T"%char || contains_T rest
  end.

(** Truthiness of a [str]: the empty string is falsy. *)
Definition str_truthy (s : string) : bool :=
  match s with
  | EmptyString => false
  | String _ _ => true
  end.

(** ** Python datetime *)

Record datetime : Set := mk_datetime {
  year : Z;
  month : Z;
  day : Z;
  hour : Z;
  minute : Z;
  second : Z;
  microsecond : Z;
  tzinfo : option Z  (* utcoffset in minutes; [None] for a naive value *)
}.

(** [_is_leap], [_days_before_year], [_days_in_month], [_days_before_month]
    and [_ymd2ord] of CPython's [_pydatetime]. *)
Definition is_leap (y : Z) : bool :=
  (y mod 4 =? 0) && (negb (y mod 100 =? 0) || (y mod 400 =? 0)).

Definition days_before_year (y : Z) : Z :=
  let p := y - 1 in p * 365 + p / 4 - p / 100 + p / 400.

Definition days_in_month (y m : Z) : Z :=
  if m =? 2 then (if is_leap y then 29 else 28)
  else if (m =? 4) || (m =? 6) || (m =? 9) || (m =? 11) then 30
  else 31.

Definition days_before_month (y m : Z) : Z :=
  let base :=
    if m =? 1 then 0 else if m =? 2 then 31 else if m =? 3 then 59
    else if m =? 4 then 90 else if m =? 5 then 120 else if m =? 6 then 151
    else if m =? 7 then 181 else if m =? 8 then 212 else if m =? 9 then 243
    else if m =? 10 then 273 else if m =? 11 then 304 else 334 in
  base + (if (2 <? m) && is_leap y then 1 else 0).

Definition ymd2ord (y m d : Z) : Z :=
  days_before_year y + days_before_month y m + d.

Definition toordinal (d : datetime) : Z := ymd2ord (year d) (month d) (day d).

(** The invariant of a constructed [datetime] (checked by its constructor):
    MINYEAR = 1, MAXYEAR = 9999. *)
Definition dt_valid (d : datetime) : bool :=
  (1 <=? year d) && (year d <=? 9999)
  && (1 <=? month d) && (month d <=? 12)
  && (1 <=? day d) && (day d <=? days_in_month (year d) (month d))
  && (0 <=? hour d) && (hour d <=? 23)
  && (0 <=? minute d) && (minute d <=? 59)
  && (0 <=? second d) && (second d <=? 59)
  && (0 <=? microsecond d) && (microsecond d <=? 999999).

(** Comparison of two naive values: CPython compares the tuples
    (year, month, day, hour, minute, second, microsecond). *)
Fixpoint lex_lt (a b : list Z) : bool :=
  match a, b with
  | x :: a', y :: b' => (x <? y) || ((x =? y) && lex_lt a' b')
  | [], _ :: _ => true
  | _, [] => false
  end.

Definition dt_fields (d : datetime) : list Z :=
  [year d; month d; day d; hour d; minute d; second d; microsecond d].

Definition dt_lt (a b : datetime) : bool := lex_lt (dt_fields a) (dt_fields b).

(** [min(a, b)] returns [a] unless [b < a]; [max(a, b)] returns [a] unless
    [b > a]. *)
Definition dt_min (a b : datetime) : datetime := if dt_lt b a then b else a.
Definition dt_max (a b : datetime) : datetime := if dt_lt a b then b else a.

(** [d.replace(tzinfo=None)] *)
Definition replace_tzinfo_None (d : datetime) : datetime :=
  mk_datetime (year d) (month d) (day d) (hour d) (minute d) (second d)
    (microsecond d) None.

(** [d.replace(hour=h, minute=0, second=0)]: the constructor rejects an
    hour outside 0..23 with [ValueError]; the date, the microsecond and the
    tzinfo are kept. *)
Definition replace_hour (d : datetime) (h : Z) : result datetime :=
  if (0 <=? h) && (h <=? 23)
  then Ok (mk_datetime (year d) (month d) (day d) h 0 0 (microsecond d) (tzinfo d))
  else Raise ValueError.

(** [b - a] for naive values, as a number of microseconds
    (a [timedelta] normalised to one unit). *)
Definition seconds_of (d : datetime) : Z :=
  toordinal d * 86400 + hour d * 3600 + minute d * 60 + second d.

Definition to_microseconds (d : datetime) : Z :=
  seconds_of d * 1000000 + microsecond d.

Definition dt_sub (b a : datetime) : Z := to_microseconds b - to_microseconds a.

(** *** Floating point

    A finite binary64 value is [mantissa * 2 ^ exponent].  The exponent
    range of the format is not represented: a [timedelta] is a whole number
    of microseconds below 2^67, so every quotient formed below is either
    zero or a normal number. *)
Record float : Set := mk_float { mantissa : Z; exponent : Z }.

(** The fraction [a / (b * 2 ^ e)] as a pair of integers. *)
Definition scale (a b e : Z) : Z * Z :=
  if 0 <? e then (a, b * 2 ^ e) else (a * 2 ^ (- e), b).

Definition quotient_at (a b e : Z) : Z := fst (scale a b e) / snd (scale a b e).

(** [n / d] rounded to the nearest integer, ties to the even one. *)
Definition round_half_even (n d : Z) : Z :=
  let q := n / d in
  let r := n mod d in
  if 2 * r <? d then q
  else if d <? 2 * r then q + 1
  else if Z.even q then q else q + 1.

(** The quotient of two integers [0 <= a] and [0 < b] rounded to 53
    significant bits: the exponent [e] is the one for which
    [a / (b * 2 ^ e)] lies in [2^52, 2^53). *)
Definition round_quotient (a b : Z) : float :=
  let e0 := Z.log2 a - Z.log2 b - 53 in
  let e := if quotient_at a b e0 <? 2 ^ 53 then e0 else e0 + 1 in
  mk_float (round_half_even (fst (scale a b e)) (snd (scale a b e))) e.

Definition float_opp (x : float) : float := mk_float (- mantissa x) (exponent x).

(** [a / b] for two [int] with [0 < b]: CPython rounds the exact quotient
    once. *)
Definition true_divide (a b : Z) : float :=
  if a <? 0 then float_opp (round_quotient (- a) b) else round_quotient a b.

(** [float(n)] for [|n| < 2^53]. *)
Definition float_of_int (n : Z) : float := mk_float n 0.

(** [x / y] for two [float] with [0 < y]. *)
Definition float_div (x y : float) : float :=
  let e := exponent x - exponent y in
  if 0 <? e then true_divide (mantissa x * 2 ^ e) (mantissa y)
  else true_divide (mantissa x) (mantissa y * 2 ^ (- e)).

(** [int(x)]: truncation toward zero. *)
Definition int_of_float (x : float) : Z :=
  if 0 <? exponent x then mantissa x * 2 ^ exponent x
  else Z.quot (mantissa x) (2 ^ (- exponent x)).

(** [delta.total_seconds()] for a [timedelta] of [us] microseconds:
    [(self.days * 86400 + self.seconds) * 10**6 + self.microseconds) / 10**6]. *)
Definition total_seconds (us : Z) : float := true_divide us 1000000.

(** [int(delta.total_seconds() / 60)] *)
Definition timedelta_minutes (us : Z) : Z :=
  int_of_float (float_div (total_seconds us) (float_of_int 60)).

(** [int((b - a).total_seconds() / 60)] *)
Definition minutes_between (a b : datetime) : Z := timedelta_minutes (dt_sub b a).

(** [d.strftime("%Y-%m-%dT%H:%M:%SZ")].  [%Y] is the year on four digits,
    as the library documents it (before Python 3.13 the C library of some
    platforms leaves a year below 1000 unpadded); the microsecond and the
    tzinfo are not written. *)
Definition digit (n : Z) : ascii := ascii_of_nat (Z.to_nat (48 + n mod 10)).

Definition pad2 (n : Z) : string :=
  String (digit (n / 10)) (String (digit n) EmptyString).

Definition pad4 (n : Z) : string :=
  String (digit (n / 1000)) (String (digit (n / 100)) (pad2 n)).

Definition strftime (d : datetime) : string :=
  (pad4 (year d) ++ "-" ++ pad2 (month d) ++ "-" ++ pad2 (day d) ++ "T"
   ++ pad2 (hour d) ++ ":" ++ pad2 (minute d) ++ ":" ++ pad2 (second d) ++ "Z")%string.

(** ** Events and slots *)

(** The part of a calendar event [find_free_slots] reads: the keys
    ["start"] and ["end"], each holding a dict with string values under
    ["dateTime"] and ["date"]. *)
Abbreviation time_dict := (gmap string string).
Abbreviation event := (gmap string (gmap string string)).

(** The datetime values of one appended slot, before [strftime]. *)
Record gap : Set := mk_gap {
  gap_start : datetime;
  gap_end : datetime;
  duration : Z
}.

(** The dict appended to [free_slots] (keys "start", "end" and
    "duration_minutes"). *)
Record FreeSlot : Set := mk_FreeSlot {
  slot_start : string;
  slot_end : string;
  duration_minutes : Z
}.

Definition slot_of_gap (g : gap) : FreeSlot :=
  mk_FreeSlot (strftime (gap_start g)) (strftime (gap_end g)) (duration g).

(** [o or dflt] for the result [o] of [dict.get]. *)
Definition or_else (o : option string) (dflt : string) : string :=
  match o with
  | Some s => if str_truthy s then s else dflt
  | None => dflt
  end.

(** calendar_utils.py, lines 7-14. *)
Definition get_event_time (event_datetime : option time_dict) : string :=
  match event_datetime with
  | None => ""
  | Some m =>
      if decide (m = ∅) then ""
      else or_else (m !! "dateTime") (or_else (m !! "date") "")
  end.

(** Lines 201-204 and 214-217. *)
Definition strip_tz (d : datetime) : datetime :=
  match tzinfo d with
  | Some _ => replace_tzinfo_None d
  | None => d
  end.

(** Line 211: [list.sort] is stable and compares keys with [<]. *)
Fixpoint insert_by_start (p : datetime * datetime) (l : list (datetime * datetime))
  : list (datetime * datetime) :=
  match l with
  | [] => [p]
  | q :: l' => if dt_lt (fst q) (fst p) then q :: insert_by_start p l' else p :: l
  end.

Definition sort_by_start (l : list (datetime * datetime)) : list (datetime * datetime) :=
  foldr insert_by_start [] l.

(** Lines 232-245 and 266-277: the adjustment to working hours.  [None] is
    the branch that gives the candidate up ([continue] in the loop,
    [return free_slots] after it). *)
Definition adjust_start (gs : datetime) (wsh weh : Z) : result (option datetime) :=
  if hour gs <? wsh then rmap Some (replace_hour gs wsh)
  else if weh <=? hour gs then Ok None
  else Ok (Some gs).

Definition adjust_end (ge : datetime) (wsh weh : Z) : result (option datetime) :=
  if weh <=? hour ge then rmap Some (replace_hour ge weh)
  else if hour ge <? wsh then Ok None
  else Ok (Some ge).

Definition clip_working_hours (gs ge : datetime) (wsh weh : Z)
  : result (option (datetime * datetime)) :=
  do gs' <- adjust_start gs wsh weh;
  match gs' with
  | None => Ok None
  | Some gs1 =>
      do ge' <- adjust_end ge wsh weh;
      match ge' with
      | None => Ok None
      | Some ge1 => Ok (Some (gs1, ge1))
      end
  end.

Definition candidate (working_hours_only : bool) (wsh weh : Z) (gs ge : datetime)
  : result (option (datetime * datetime)) :=
  if working_hours_only then clip_working_hours gs ge wsh weh
  else Ok (Some (gs, ge)).

(** Lines 248-255 and 279-286. *)
Definition emit (gs ge : datetime) (min_duration_minutes : Z) : list gap :=
  if dt_lt gs ge then
    let d := minutes_between gs ge in
    if min_duration_minutes <=? d then [mk_gap gs ge d] else []
  else [].

(** The state of the loop of lines 223-258. *)
Record sweep_state : Set := mk_state {
  free_slots : list gap;
  current_time : datetime
}.

Section Sweep.
Variable range_end : datetime.
Variable min_duration_minutes : Z.
Variable working_hours_only : bool.
Variables working_start_hour working_end_hour : Z.

(** One iteration of the loop, lines 224-258. *)
Definition sweep_step (st : sweep_state) (busy : datetime * datetime)
  : result sweep_state :=
  let '(busy_start, busy_end) := busy in
  if dt_lt (current_time st) busy_start then
    do c <- candidate working_hours_only working_start_hour working_end_hour
              (current_time st) (dt_min busy_start range_end);
    match c with
    | None => Ok st
    | Some (gs, ge) =>
        Ok (mk_state (free_slots st ++ emit gs ge min_duration_minutes)
              (dt_max (current_time st) busy_end))
    end
  else Ok (mk_state (free_slots st) (dt_max (current_time st) busy_end)).

Fixpoint sweep (busy_periods : list (datetime * datetime)) (st : sweep_state)
  : result sweep_state :=
  match busy_periods with
  | [] => Ok st
  | busy :: rest => do st' <- sweep_step st busy; sweep rest st'
  end.

(** Lines 261-288. *)
Definition last_gap (st : sweep_state) : result (list gap) :=
  if dt_lt (current_time st) range_end then
    do c <- candidate working_hours_only working_start_hour working_end_hour
              (current_time st) range_end;
    match c with
    | None => Ok (free_slots st)
    | Some (gs, ge) => Ok (free_slots st ++ emit gs ge min_duration_minutes)
    end
  else Ok (free_slots st).
End Sweep.

Section FindFreeSlots.
(** [datetime.fromisoformat] and [datetime.strptime(_, "%Y-%m-%d")];
    [None] is [ValueError]. *)
Variable fromisoformat : string -> option datetime.
Variable strptime_ymd : string -> option datetime.

(** Lines 185-208: one event of the loop; [None] is [continue]. *)
Definition busy_period (ev : event) : option (datetime * datetime) :=
  let start_str := get_event_time (ev !! "start") in
  let end_str := get_event_time (ev !! "end") in
  if negb (str_truthy start_str) || negb (str_truthy end_str) then None
  else
    let parsed :=
      if negb (contains_T start_str) then
        match strptime_ymd start_str with
        | Some start_dt =>
            match strptime_ymd end_str with
            | Some end_dt => Some (start_dt, end_dt)
            | None => None
            end
        | None => None
        end
      else
        match fromisoformat (replace_Z start_str) with
        | Some start_dt =>
            match fromisoformat (replace_Z end_str) with
            | Some end_dt => Some (start_dt, end_dt)
            | None => None
            end
        | None => None
        end in
    match parsed with
    | Some (start_dt, end_dt) => Some (strip_tz start_dt, strip_tz end_dt)
    | None => None
    end.

Definition busy_periods (events : list event) : list (datetime * datetime) :=
  omap busy_period events.

(** The slots as datetime values: lines 175-288 without the final
    [strftime]. *)
Definition free_gaps (events : list event) (time_min time_max : string)
    (min_duration_minutes : Z) (working_hours_only : bool)
    (working_start_hour working_end_hour : Z) : result (list gap) :=
  match fromisoformat (replace_Z time_min) with
  | None => Ok []
  | Some range_start =>
      match fromisoformat (replace_Z time_max) with
      | None => Ok []
      | Some range_end =>
          let busy := sort_by_start (busy_periods events) in
          let range_start := strip_tz range_start in
          let range_end := strip_tz range_end in
          do st <- sweep range_end min_duration_minutes working_hours_only
                     working_start_hour working_end_hour busy
                     (mk_state [] range_start);
          last_gap range_end min_duration_minutes working_hours_only
            working_start_hour working_end_hour st
      end
  end.

Definition find_free_slots (events : list event) (time_min time_max : string)
    (min_duration_minutes : Z) (working_hours_only : bool)
    (working_start_hour working_end_hour : Z) : result (list FreeSlot) :=
  rmap (map slot_of_gap)
    (free_gaps events time_min time_max min_duration_minutes
       working_hours_only working_start_hour working_end_hour).
End FindFreeSlots.

(** ** A reference instance of the two parsers

    The two formats the Calendar API produces: RFC 3339 with second
    precision and a numeric offset, [YYYY-MM-DDTHH:MM:SS(+|-)HH:MM] (which
    is what ["...Z"] becomes under [replace_Z]), the same without offset, and
    the all-day form [YYYY-MM-DD].  On these inputs the functions return what
    Python's return; every other text is refused.  They instantiate the
    parsers in the examples. *)
Module Rfc3339.

Definition digit_value (c : ascii) : option Z :=
  let n := Z.of_nat (nat_of_ascii c) in
  if (48 <=? n) && (n <=? 57) then Some (n - 48) else None.

Fixpoint number_from (acc : Z) (s : string) : option Z :=
  match s with
  | EmptyString => Some acc
  | String c rest =>
      match digit_value c with
      | Some v => number_from (acc * 10 + v) rest
      | None => None
      end
  end.

(** The [len] digits of [s] from position [start]. *)
Definition field (s : string) (start len : nat) : option Z :=
  let t := substring start len s in
  if Nat.eqb (String.length t) len then number_from 0 t else None.

Definition sep (s : string) (i : nat) (c : ascii) : bool :=
  match get i s with
  | Some c' => Ascii.eqb c c'
  | None => false
  end.

Definition checked (d : datetime) : option datetime :=
  if dt_valid d then Some d else None.

Definition parse_date (s : string) : option (Z * Z * Z) :=
  if sep s 4 "-" && sep s 7 "-" then
    y ← field s 0 4; m ← field s 5 2; d ← field s 8 2; Some (y, m, d)
  else None.

Definition parse_offset (s : string) : option (option Z) :=
  match s with
  | EmptyString => Some None
  | String sign rest =>
      if Nat.eqb (String.length rest) 5 && sep rest 2 ":" then
        h ← field rest 0 2; m ← field rest 3 2;
        if (h <=? 23) && (m <=? 59) then
          if Ascii.eqb sign "+" then Some (Some (h * 60 + m))
          else if Ascii.eqb sign "-" then Some (Some (- (h * 60 + m)))
          else None
        else None
      else None
  end.

Definition strptime_ymd (s : string) : option datetime :=
  if Nat.eqb (String.length s) 10 then
    '(y, m, d) ← parse_date s;
    checked (mk_datetime y m d 0 0 0 0 None)
  else None.

Definition fromisoformat (s : string) : option datetime :=
  if Nat.eqb (String.length s) 10 then strptime_ymd s
  else if sep s 10 "T" && sep s 13 ":" && sep s 16 ":" then
    '(y, m, d) ← parse_date s;
    hh ← field s 11 2; mi ← field s 14 2; ss ← field s 17 2;
    tz ← parse_offset (substring 19 (String.length s - 19) s);
    checked (mk_datetime y m d hh mi ss 0 tz)
  else None.

Definition find_free_slots := find_free_slots fromisoformat strptime_ymd.
Definition free_gaps := free_gaps fromisoformat strptime_ymd.

End Rfc3339.

(** A timed event and an all-day event, as the Calendar API returns them. *)
Definition timed_event (start_ end_ : string) : event :=
  {[ "start" := {[ "dateTime" := start_ ]}; "end" := {[ "dateTime" := end_ ]} ]}.

Definition all_day_event (start_ end_ : string) : event :=
  {[ "start" := {[ "date" := start_ ]}; "end" := {[ "date" := end_ ]} ]}.

(** ** Notions of the specification *)

(** Chronological order of two texts written by [strftime]: the instants
    they denote, to the second.  [strftime] determines that instant
    (lemma [strftime_inj] below). *)
Definition chrono_le (s1 s2 : string) : Prop :=
  exists d1 d2,
    dt_valid d1 = true /\ dt_valid d2 = true
    /\ strftime d1 = s1 /\ strftime d2 = s2
    /\ seconds_of d1 <= seconds_of d2.

(** Section 4.4 of the specification: [r] is the length [us] (in
    microseconds) "rounded to the nearest integer" number of minutes,
    whatever the treatment of ties. *)
Definition nearest_minute (us r : Z) : Prop :=
  2 * Z.abs (us - r * 60000000) <= 60000000.

(** Section 4.1: a record "missing either boundary, or with unparseable
    timestamps". *)
Definition boundary_missing (o : option time_dict) : Prop :=
  match o with
  | None => True
  | Some m =>
      (m !! "dateTime" = None \/ m !! "dateTime" = Some "")
      /\ (m !! "date" = None \/ m !! "date" = Some "")
  end.

Section Malformed.
Variable fromisoformat : string -> option datetime.
Variable strptime_ymd : string -> option datetime.

(** Neither an instant nor a whole day. *)
Definition unparseable (s : string) : Prop :=
  fromisoformat (replace_Z s) = None /\ strptime_ymd s = None.

Definition malformed (ev : event) : Prop :=
  boundary_missing (ev !! "start") \/ boundary_missing (ev !! "end")
  \/ unparseable (get_event_time (ev !! "start"))
  \/ unparseable (get_event_time (ev !! "end")).
End Malformed.

(** The open interval of a slot meets the open interval of a busy period. *)
Definition overlaps (g : gap) (busy : datetime * datetime) : bool :=
  dt_lt (gap_start g) (snd busy) && dt_lt (fst busy) (gap_end g).

(** ** Invariants used in the proofs *)

(** A calendar date of the proleptic Gregorian calendar. *)
Definition date_ok (y m d : Z) : Prop :=
  1 <= m <= 12 /\ 1 <= d <= days_in_month y m.

(** The slots of a loop state that last at least [m] minutes. *)
Definition long_enough (m : Z) (g : gap) : bool := m <=? duration g.

Definition restrict (m : Z) (st : sweep_state) : sweep_state :=
  mk_state (List.filter (long_enough m) (free_slots st)) (current_time st).

(** The instant, to the second, at or after which every slot found from
    the cursor [c] on starts. *)
Definition start_floor (working_hours_only : bool) (working_start_hour : Z)
    (c : datetime) : Z :=
  if working_hours_only
  then Z.max (seconds_of c) (toordinal c * 86400 + working_start_hour * 3600)
  else seconds_of c.

Definition starts_le (a b : gap) : Prop :=
  seconds_of (gap_start a) <= seconds_of (gap_start b).

(** The invariant of the loop for the order of the slots. *)
Definition sweep_sorted (working_hours_only : bool) (working_start_hour : Z)
    (st : sweep_state) : Prop :=
  dt_valid (current_time st) = true
  /\ Forall (fun g => dt_valid (gap_start g) = true
                      /\ seconds_of (gap_start g)
                         <= start_floor working_hours_only working_start_hour
                              (current_time st))
       (free_slots st)
  /\ StronglySorted starts_le (free_slots st).

Definition busy_valid (b : datetime * datetime) : Prop :=
  dt_valid (fst b) = true /\ dt_valid (snd b) = true.

(** A slot between the bounds [rs] and [re], with its start before its end. *)
Definition slot_ok (rs re : datetime) (g : gap) : Prop :=
  dt_valid (gap_start g) = true /\ dt_valid (gap_end g) = true
  /\ dt_lt (gap_start g) (gap_end g) = true
  /\ to_microseconds rs <= to_microseconds (gap_start g)
  /\ to_microseconds (gap_end g) <= to_microseconds re.

Definition sweep_within (rs re : datetime) (st : sweep_state) : Prop :=
  dt_valid (current_time st) = true
  /\ to_microseconds rs <= to_microseconds (current_time st)
  /\ Forall (slot_ok rs re) (free_slots st).

(** Busy periods in the order of their starts. *)
Definition start_le (a b : datetime * datetime) : Prop :=
  to_microseconds (fst a) <= to_microseconds (fst b).



(** * The other functions of [calendar_utils.py] *)

(** ** Durations of events *)

(** Truthiness of a dict (or [None]): the empty dict is falsy. *)
Definition dict_truthy (o : option time_dict) : bool :=
  match o with
  | None => false
  | Some m => negb (bool_decide (m = ∅))
  end.

(** [b - a] for two values of [datetime], in microseconds: the difference
    of the fields when both are naive, of the instants (fields minus
    utcoffset) when both are aware; [None] is the [TypeError] of a pair of
    a naive and an aware value. *)
Definition dt_sub_aware (b a : datetime) : option Z :=
  match tzinfo b, tzinfo a with
  | None, None => Some (dt_sub b a)
  | Some ob, Some oa =>
      Some ((to_microseconds b - ob * 60000000)
            - (to_microseconds a - oa * 60000000))
  | _, _ => None
  end.

(** [delta.days] of a normalised [timedelta]. *)
Definition timedelta_days (delta : Z) : Z := delta / 86400000000.

Section Duration.
Variable fromisoformat : string -> option datetime.
Variable strptime_ymd : string -> option datetime.

(** calendar_utils.py, lines 46-74.  [None] is Python's [None]; both
    [ValueError] and [TypeError] are caught (line 73). *)
Definition get_event_duration_minutes (start end_ : option time_dict)
  : option Z :=
  if negb (dict_truthy start) || negb (dict_truthy end_) then None
  else
    let start_time := get_event_time start in
    let end_time := get_event_time end_ in
    if negb (str_truthy start_time) || negb (str_truthy end_time) then None
    else if contains_T start_time then
      match fromisoformat (replace_Z start_time) with
      | Some start_dt =>
          match fromisoformat (replace_Z end_time) with
          | Some end_dt =>
              match dt_sub_aware end_dt start_dt with
              | Some delta => Some (timedelta_minutes delta)
              | None => None
              end
          | None => None
          end
      | None => None
      end
    else
      match strptime_ymd start_time with
      | Some start_date =>
          match strptime_ymd end_time with
          | Some end_date =>
              match dt_sub_aware end_date start_date with
              | Some delta =>
                  if 0 <=? timedelta_days delta
                  then Some (timedelta_minutes delta)
                  else None
              | None => None
              end
          | None => None
          end
      | None => None
      end.
End Duration.

(** ** Texts for display *)

(** [%B] in the C locale. *)
Definition month_name (m : Z) : string :=
  if m =? 1 then "January" else if m =? 2 then "February"
  else if m =? 3 then "March" else if m =? 4 then "April"
  else if m =? 5 then "May" else if m =? 6 then "June"
  else if m =? 7 then "July" else if m =? 8 then "August"
  else if m =? 9 then "September" else if m =? 10 then "October"
  else if m =? 11 then "November" else "December".

(** [%I]: the hour on the 12-hour clock. *)
Definition hour12 (h : Z) : Z := if h mod 12 =? 0 then 12 else h mod 12.

(** [%p] in the C locale. *)
Definition am_pm (h : Z) : string := if h <? 12 then "AM" else "PM".

(** [d.strftime("%B %d, %Y at %I:%M %p")] *)
Definition strftime_at (d : datetime) : string :=
  (month_name (month d) ++ " " ++ pad2 (day d) ++ ", " ++ pad4 (year d)
   ++ " at " ++ pad2 (hour12 (hour d)) ++ ":" ++ pad2 (minute d) ++ " "
   ++ am_pm (hour d))%string.

(** [d.strftime("%B %d, %Y (all day)")] *)
Definition strftime_all_day (d : datetime) : string :=
  (month_name (month d) ++ " " ++ pad2 (day d) ++ ", " ++ pad4 (year d)
   ++ " (all day)")%string.

(** [key in m and m[key]]: the text under [key] when it is not empty. *)
Definition truthy_entry (m : time_dict) (key : string) : option string :=
  match m !! key with
  | Some s => if str_truthy s then Some s else None
  | None => None
  end.

Section Display.
Variable fromisoformat : string -> option datetime.
Variable strptime_ymd : string -> option datetime.

(** calendar_utils.py, lines 17-43. *)
Definition format_event_time (event_datetime : option time_dict) : string :=
  if negb (dict_truthy event_datetime) then "No time specified"
  else
    match event_datetime with
    | None => "No time specified"
    | Some m =>
        match truthy_entry m "dateTime" with
        | Some dt_str =>
            if contains_T dt_str then
              match fromisoformat (replace_Z dt_str) with
              | Some dt => strftime_at dt
              | None => dt_str
              end
            else dt_str
        | None =>
            match truthy_entry m "date" with
            | Some date_str =>
                match strptime_ymd date_str with
                | Some dt => strftime_all_day dt
                | None => date_str
                end
            | None => "No time specified"
            end
        end
    end.
End Display.

(** ** Attendees *)

(** An attendee of the Calendar API: a dict with string values under
    ["email"], ["displayName"] and ["responseStatus"]. *)
Abbreviation attendee := (gmap string string).

(** [m.get(key, dflt)] *)
Definition get_or (m : gmap string string) (key dflt : string) : string :=
  match m !! key with
  | Some s => s
  | None => dflt
  end.

(** The body of the loop of lines 83-91. *)
Definition format_attendee (a : attendee) : string :=
  let email := get_or a "email" "" in
  let name := get_or a "displayName" "" in
  let status := get_or a "responseStatus" "" in
  if str_truthy name
  then (name ++ " <" ++ email ++ "> (" ++ status ++ ")")%string
  else (email ++ " (" ++ status ++ ")")%string.

(** calendar_utils.py, lines 77-93; [sep.join(l)] is [String.concat sep l]. *)
Definition format_attendees (attendees : option (list attendee)) : string :=
  match attendees with
  | None | Some [] => "No attendees"
  | Some l => String.concat ", " (map format_attendee l)
  end.

(** calendar_utils.py, lines 96-98. *)
Definition parse_attendee_name (a : attendee) : string :=
  match truthy_entry a "displayName" with
  | Some name => name
  | None => get_or a "email" "Unknown"
  end.

(** ** All-day events *)

(** calendar_utils.py, lines 101-104; [event.get("start", {})]. *)
Definition is_all_day_event (ev : event) : bool :=
  let start := match ev !! "start" with Some m => m | None => ∅ end in
  bool_decide (is_Some (start !! "date"))
  && negb (bool_decide (is_Some (start !! "dateTime"))).

(** The last character of a text. *)
Fixpoint last_char (s : string) : option ascii :=
  match s with
  | EmptyString => None
  | String c EmptyString => Some c
  | String _ rest => last_char rest
  end.


(** ** Whole events *)

(** An event resource of the Calendar API, for the keys the repository
    reads; [None] is an absent key. *)
Record calendar_event : Type := mk_calendar_event {
  ev_id : option string;
  ev_summary : option string;
  ev_description : option string;
  ev_location : option string;
  ev_status : option string;
  ev_html_link : option string;
  ev_start : option time_dict;
  ev_end : option time_dict;
  ev_attendees : option (list attendee)
}.

(** The same event as [find_free_slots] and [is_all_day_event] read it. *)
Definition times_of (ev : calendar_event) : event :=
  match ev_start ev, ev_end ev with
  | Some s, Some e => {[ "start" := s; "end" := e ]}
  | Some s, None => {[ "start" := s ]}
  | None, Some e => {[ "end" := e ]}
  | None, None => ∅
  end.

(** The line feed of ["\n".join(parts)]. *)
Definition line_feed : string := String (ascii_of_nat 10) EmptyString.

(** Lines 125-129: a description longer than 2000 characters is cut. *)
Definition clip_description (description : string) : string :=
  if (2000 <? String.length description)%nat
  then (substring 0 2000 description ++ "...")%string
  else description.

Section SummaryText.
Variable fromisoformat : string -> option datetime.
Variable strptime_ymd : string -> option datetime.

(** calendar_utils.py, lines 107-134. *)
Definition get_event_summary_text (ev : calendar_event) : string :=
  let summary := default "Untitled Event" (ev_summary ev) in
  let description := default "" (ev_description ev) in
  let location := default "" (ev_location ev) in
  let start := default ∅ (ev_start ev) in
  let end_ := default ∅ (ev_end ev) in
  let attendees := default [] (ev_attendees ev) in
  let parts :=
    [("Title: " ++ summary)%string;
     ("Time: " ++ format_event_time fromisoformat strptime_ymd (Some start)
      ++ " to " ++ format_event_time fromisoformat strptime_ymd (Some end_))%string]
    ++ (if str_truthy location then [("Location: " ++ location)%string] else [])
    ++ (if str_truthy description
        then [("Description: " ++ clip_description description)%string]
        else [])
    ++ (match attendees with
        | [] => []
        | _ :: _ => [("Attendees: " ++ format_attendees (Some attendees))%string]
        end) in
  String.concat line_feed parts.
End SummaryText.

(** calendar_server.py, lines 241-252: the fields of [EventSummary]. *)
Record EventSummary : Type := mk_EventSummary {
  es_id : string;
  es_calendar_id : string;
  es_summary : string;
  es_start : string;
  es_end : string;
  es_location : option string;
  es_attendee_count : nat;
  es_is_all_day : bool;
  es_status : option string;
  es_html_link : option string
}.

(** calendar_server.py, lines 317-339. *)
Definition event_to_summary (ev : calendar_event) (calendar_id : string)
  : EventSummary :=
  let start := default ∅ (ev_start ev) in
  let end_ := default ∅ (ev_end ev) in
  let attendees := default [] (ev_attendees ev) in
  let start_str := or_else (start !! "dateTime") (or_else (start !! "date") "") in
  let end_str := or_else (end_ !! "dateTime") (or_else (end_ !! "date") "") in
  let is_all_day :=
    bool_decide (is_Some (start !! "date"))
    && negb (bool_decide (is_Some (start !! "dateTime"))) in
  mk_EventSummary
    (default "" (ev_id ev)) calendar_id
    (default "Untitled Event" (ev_summary ev))
    start_str end_str (ev_location ev)
    (match attendees with [] => 0%nat | _ :: _ => length attendees end)
    is_all_day (ev_status ev) (ev_html_link ev).


(** The event [ev] without its ["description"] key. *)
Definition without_description (ev : calendar_event) : calendar_event :=
  mk_calendar_event (ev_id ev) (ev_summary ev) None (ev_location ev)
    (ev_status ev) (ev_html_link ev) (ev_start ev) (ev_end ev)
    (ev_attendees ev).


(** * The free-time service ([llm_service.py], [calendar_server.py]) *)

(** ** Exceptions of the service layer (exceptions.py) *)

(** An exception with its message [str(e)]; [OtherError] is any exception
    that is not a [ProxyError] or an [LLMError]. *)
Inductive service_exn : Set :=
| ProxyAuthError (msg : string)
| ProxyForbiddenError (msg : string)
| ProxyError (msg : string)
| LLMError (msg : string)
| OtherError (msg : string).

Inductive outcome (A : Type) : Type :=
| Done (a : A)
| Failed (e : service_exn).

Arguments Done {A} a.
Arguments Failed {A} e.

(** calendar_server.py, lines 306-314. *)
Definition format_proxy_error (e : service_exn) : string :=
  match e with
  | ProxyAuthError msg => ("Authentication error: " ++ msg)%string
  | ProxyForbiddenError msg => ("Operation blocked: " ++ msg)%string
  | ProxyError msg => ("Proxy error: " ++ msg)%string
  | LLMError msg | OtherError msg => msg
  end.

(** ** Suggestions from free slots (llm_service.py, lines 338-406) *)

(** [str(n)] for an [int]. *)
Definition str_of_int (n : Z) : string :=
  DecimalString.NilZero.string_of_int (Z.to_int n).

(** A value of the [preferences] dict: a [bool] or an [int]. *)
Inductive pref_value : Set :=
| PBool (b : bool)
| PInt (n : Z).

Definition pref_truthy (o : option pref_value) : bool :=
  match o with
  | Some (PBool b) => b
  | Some (PInt n) => negb (n =? 0)
  | None => false
  end.

Definition str_of_pref (v : pref_value) : string :=
  match v with
  | PBool true => "True"
  | PBool false => "False"
  | PInt n => str_of_int n
  end.

Definition FIND_FREE_TIME_SYSTEM_PROMPT : string :=
  String.concat line_feed
    ["You are a scheduling assistant helping find optimal meeting times.";
     "Given a list of free time slots and the user's requirements, suggest the best times for scheduling.";
     "Consider factors like:";
     "- Duration needed";
     "- Preference for morning vs afternoon";
     "- Buffer time between meetings";
     "- Avoiding back-to-back meetings when possible";
     "";
     "Provide your recommendations with brief reasoning."].

(** The two shapes of the returned dict: without suggestion (keys
    "suggestions", empty, and "reasoning") and with one (keys
    "available_slots", "suggestions" and "duration_requested"). *)
Inductive free_time_answer : Set :=
| NoSuggestion (reasoning : string)
| Suggestion (available_slots : list FreeSlot) (suggestions : string)
    (duration_requested : Z).

(** Lines 361-364. *)
Definition valid_slots (free_slots : list FreeSlot) (duration : Z)
  : list FreeSlot :=
  List.filter (fun slot => duration <=? duration_minutes slot) free_slots.

(** Lines 373-376. *)
Definition slot_line (slot : FreeSlot) : string :=
  ("- " ++ slot_start slot ++ " to " ++ slot_end slot ++ " ("
   ++ str_of_int (duration_minutes slot) ++ " minutes free)")%string.

(** Lines 378-387. *)
Definition pref_text (preferences : option (gmap string pref_value)) : string :=
  match preferences with
  | None => ""
  | Some p =>
      if bool_decide (p = ∅) then ""
      else
        let pref_parts :=
          (if pref_truthy (p !! "prefer_morning")
           then ["Prefer morning meetings"] else [])
          ++ (if pref_truthy (p !! "prefer_afternoon")
              then ["Prefer afternoon meetings"] else [])
          ++ (if pref_truthy (p !! "buffer_minutes")
              then match p !! "buffer_minutes" with
                   | Some v => [("Need " ++ str_of_pref v ++ " minute buffer")%string]
                   | None => []
                   end
              else []) in
        match pref_parts with
        | [] => ""
        | _ :: _ =>
            (line_feed ++ "Preferences: " ++ String.concat ", " pref_parts)%string
        end
  end.

(** Lines 389-394. *)
Definition free_time_prompt (slots : list FreeSlot) (duration : Z)
    (preferences : option (gmap string pref_value)) : string :=
  ("Available free time slots:" ++ line_feed
   ++ String.concat line_feed (map slot_line (take 10 slots)) ++ line_feed
   ++ line_feed
   ++ "Required duration: " ++ str_of_int duration ++ " minutes"
   ++ pref_text preferences ++ line_feed
   ++ line_feed
   ++ "Please recommend the best 2-3 time slots for scheduling, with brief reasoning for each.")%string.

Section FindFreeTime.
(** [provider.generate(system_prompt, user_content, max_tokens)]: the
    text of the model, or the exception it raises. *)
Variable generate : string -> string -> Z -> outcome string.

(** [LLMService.find_free_time], llm_service.py, lines 338-406. *)
Definition find_free_time (free_slots : list FreeSlot) (duration : Z)
    (preferences : option (gmap string pref_value))
  : outcome free_time_answer :=
  match free_slots with
  | [] =>
      Done (NoSuggestion "No free time slots available in the specified range.")
  | _ :: _ =>
      match valid_slots free_slots duration with
      | [] =>
          Done (NoSuggestion
                  ("No slots available with at least " ++ str_of_int duration
                   ++ " minutes free.")%string)
      | (_ :: _) as valid =>
          match generate FIND_FREE_TIME_SYSTEM_PROMPT
                  (free_time_prompt valid duration preferences) 512 with
          | Done response => Done (Suggestion (take 5 valid) response duration)
          | Failed e => Failed e
          end
      end
  end.
End FindFreeTime.

(** ** The endpoint [/find-free-time] (calendar_server.py, lines 674-721) *)

(** calendar_server.py, lines 137-146. *)
Record FindFreeTimeRequest : Set := mk_FindFreeTimeRequest {
  req_calendar_id : string;
  req_time_min : string;
  req_time_max : string;
  req_duration_minutes : Z;
  req_working_hours_only : bool;
  req_buffer_minutes : Z;
  req_prefer_morning : bool;
  req_prefer_afternoon : bool
}.

(** calendar_server.py, lines 277-281. *)
Record LLMResponse : Set := mk_LLMResponse {
  resp_success : bool;
  resp_data : option free_time_answer;
  resp_error : option string
}.

(** Lines 705-711. *)
Definition request_preferences (request : FindFreeTimeRequest)
  : gmap string pref_value :=
  let p0 : gmap string pref_value := ∅ in
  let p1 := if req_prefer_morning request
            then <["prefer_morning" := PBool true]> p0 else p0 in
  let p2 := if req_prefer_afternoon request
            then <["prefer_afternoon" := PBool true]> p1 else p1 in
  if req_buffer_minutes request =? 0 then p2
  else <["buffer_minutes" := PInt (req_buffer_minutes request)]> p2.

Section Endpoint.
Variable fromisoformat : string -> option datetime.
Variable strptime_ymd : string -> option datetime.
(** [get_calendar_client()] followed by [client.list_events(calendar_id,
    time_min, time_max, single_events=True, order_by="startTime")] and
    [result.get("items", [])]: the events or the exception raised. *)
Variable list_events : string -> string -> string -> outcome (list event).
Variable generate : string -> string -> Z -> outcome string.

(** The message of the [ValueError] of [datetime.replace]. *)
Definition exn_message (e : exn) : string :=
  match e with
  | ValueError => "hour must be in 0..23"
  end.

Definition find_free_time_endpoint (request : FindFreeTimeRequest)
  : LLMResponse :=
  match list_events (req_calendar_id request) (req_time_min request)
          (req_time_max request) with
  | Failed e => mk_LLMResponse false None (Some (format_proxy_error e))
  | Done events =>
      match find_free_slots fromisoformat strptime_ymd events
              (req_time_min request) (req_time_max request)
              (req_duration_minutes request) (req_working_hours_only request)
              9 17 with
      | Raise e => mk_LLMResponse false None (Some (exn_message e))
      | Ok free_slots =>
          let preferences := request_preferences request in
          match find_free_time generate free_slots
                  (req_duration_minutes request)
                  (if bool_decide (preferences = ∅) then None
                   else Some preferences) with
          | Done suggestions => mk_LLMResponse true (Some suggestions) None
          | Failed e => mk_LLMResponse false None (Some (format_proxy_error e))
          end
      end
  end.
End Endpoint.


(** * Bulk operations ([calendar_server.py], lines 184-204, 284-298, 841-941) *)

Inductive BulkOperationType : Set :=
| UPDATE
| DELETE
| PATCH.

(** [op.operation.value] *)
Definition operation_value (t : BulkOperationType) : string :=
  match t with
  | UPDATE => "update"
  | DELETE => "delete"
  | PATCH => "patch"
  end.

Record BulkOperation : Type := mk_BulkOperation {
  op_operation : BulkOperationType;
  op_event_id : string;
  op_calendar_id : string;
  op_updates : option (gmap string string);
  op_send_updates : option string
}.

Record BulkOperationResult : Set := mk_BulkOperationResult {
  res_event_id : string;
  res_operation : string;
  res_success : bool;
  res_error : option string
}.

Record BulkActionsResponse : Set := mk_BulkActionsResponse {
  bulk_success : bool;
  bulk_results : list BulkOperationResult;
  bulk_success_count : Z;
  bulk_error_count : Z;
  bulk_error : option string
}.

(** [not op.updates]: no dict or an empty one. *)
Definition no_updates (op : BulkOperation) : bool :=
  match op_updates op with
  | None => true
  | Some m => bool_decide (m = ∅)
  end.

(** The local variables of the loop of lines 856-926. *)
Record bulk_state : Set := mk_bulk_state {
  results : list BulkOperationResult;
  success_count : Z;
  error_count : Z
}.

Section BulkActions.
(** The calendar behind the proxy, and the three calls of the client on
    it: each returns the new calendar and the exception raised, if any. *)
Variable calendar : Type.
Variable delete_event :
  calendar -> string -> string -> option string -> calendar * option service_exn.
Variable update_event :
  calendar -> string -> string -> gmap string string -> option string ->
  calendar * option service_exn.
Variable patch_event :
  calendar -> string -> string -> gmap string string -> option string ->
  calendar * option service_exn.

(** The end of an iteration after a call of the client: lines 864-869
    (and 888-893, 912-917) or the handler of lines 919-926. *)
Definition record_call (op : BulkOperation) (st : bulk_state)
    (raised : option service_exn) : bulk_state :=
  match raised with
  | None =>
      mk_bulk_state
        (results st
         ++ [mk_BulkOperationResult (op_event_id op)
               (operation_value (op_operation op)) true None])
        (success_count st + 1) (error_count st)
  | Some e =>
      mk_bulk_state
        (results st
         ++ [mk_BulkOperationResult (op_event_id op)
               (operation_value (op_operation op)) false
               (Some (format_proxy_error e))])
        (success_count st) (error_count st + 1)
  end.

(** Lines 873-880 and 897-904. *)
Definition record_no_data (op : BulkOperation) (st : bulk_state) : bulk_state :=
  mk_bulk_state
    (results st
     ++ [mk_BulkOperationResult (op_event_id op)
           (operation_value (op_operation op)) false
           (Some "No update data provided")])
    (success_count st) (error_count st + 1).

(** One iteration of the loop. *)
Definition bulk_step (c : calendar) (st : bulk_state) (op : BulkOperation)
  : calendar * bulk_state :=
  match op_operation op with
  | DELETE =>
      let '(c', raised) :=
        delete_event c (op_calendar_id op) (op_event_id op) (op_send_updates op) in
      (c', record_call op st raised)
  | UPDATE =>
      match op_updates op with
      | Some data =>
          if bool_decide (data = ∅) then (c, record_no_data op st)
          else
            let '(c', raised) :=
              update_event c (op_calendar_id op) (op_event_id op) data
                (op_send_updates op) in
            (c', record_call op st raised)
      | None => (c, record_no_data op st)
      end
  | PATCH =>
      match op_updates op with
      | Some data =>
          if bool_decide (data = ∅) then (c, record_no_data op st)
          else
            let '(c', raised) :=
              patch_event c (op_calendar_id op) (op_event_id op) data
                (op_send_updates op) in
            (c', record_call op st raised)
      | None => (c, record_no_data op st)
      end
  end.

Fixpoint bulk_loop (c : calendar) (st : bulk_state)
    (operations : list BulkOperation) : calendar * bulk_state :=
  match operations with
  | [] => (c, st)
  | op :: rest =>
      let '(c', st') := bulk_step c st op in bulk_loop c' st' rest
  end.

(** [bulk_actions], lines 842-941; [client] is the exception raised by
    [get_calendar_client()], if any. *)
Definition bulk_actions (client : option service_exn) (c : calendar)
    (operations : list BulkOperation) : calendar * BulkActionsResponse :=
  match client with
  | Some e =>
      (c, mk_BulkActionsResponse false [] 0 0 (Some (format_proxy_error e)))
  | None =>
      let '(c', st) := bulk_loop c (mk_bulk_state [] 0 0) operations in
      (c', mk_BulkActionsResponse true (results st) (success_count st)
             (error_count st) None)
  end.
End BulkActions.

(** The operations that reach the client: deletions, and updates and
    patches that carry data. *)
Definition reaches_client (op : BulkOperation) : bool :=
  match op_operation op with
  | DELETE => true
  | UPDATE | PATCH => negb (no_updates op)
  end.

(** The number of successful results. *)
Definition count_success (l : list BulkOperationResult) : Z :=
  Z.of_nat (length (List.filter res_success l)).


(** * Stand-ins for the collaborators, for the examples *)

(** A provider that always answers the same text. *)
Definition answer_always (text : string) : string -> string -> Z -> outcome string :=
  fun _ _ _ => Done text.

(** A proxy that returns the same events for every calendar and range. *)
Definition events_always (events : list event)
  : string -> string -> string -> outcome (list event) :=
  fun _ _ _ => Done events.

(** A calendar that is the list of the event ids it received a call for;
    deletions are refused by the proxy, updates and patches are accepted. *)
Definition log_delete (c : list string) (calendar_id event_id : string)
    (send_updates : option string) : list string * option service_exn :=
  (c ++ [event_id], Some (ProxyForbiddenError "confirmation required")).

Definition log_write (c : list string) (calendar_id event_id : string)
    (data : gmap string string) (send_updates : option string)
  : list string * option service_exn :=
  (c ++ [event_id], None).


(** * Further notions for the finder *)

(** A busy period as [find_free_slots] builds it (valid, naive) whose end
    is not before its start. *)
Definition busy_proper (b : datetime * datetime) : Prop :=
  busy_valid b /\ tzinfo (fst b) = None /\ tzinfo (snd b) = None
  /\ to_microseconds (fst b) <= to_microseconds (snd b).

(** Two lists of busy periods that differ by the order of periods with
    the same start. *)
Inductive tie_equiv
  : list (datetime * datetime) -> list (datetime * datetime) -> Prop :=
| tie_refl l : tie_equiv l l
| tie_swap l1 x y l2 :
    fst x = fst y -> tie_equiv (l1 ++ x :: y :: l2) (l1 ++ y :: x :: l2)
| tie_trans l1 l2 l3 : tie_equiv l1 l2 -> tie_equiv l2 l3 -> tie_equiv l1 l3.

(** The invariant of the loop when a busy period [b] covers the window
    that starts at [rs]: nothing is appended, and the cursor is at or
    after the end [re] of the window once [b] has been seen. *)
Definition sweep_blocked (rs re : datetime) (b : datetime * datetime)
    (done : list (datetime * datetime)) (st : sweep_state) : Prop :=
  free_slots st = []
  /\ dt_valid (current_time st) = true
  /\ to_microseconds rs <= to_microseconds (current_time st)
  /\ (In b done -> to_microseconds re <= to_microseconds (current_time st)).


(** The slot [a] ends no later than the slot [b] starts. *)
Definition ends_before (a b : gap) : Prop :=
  to_microseconds (gap_end a) <= to_microseconds (gap_start b).

(** The invariant of the loop for slots that do not overlap: every slot
    found so far ends at or before the cursor. *)
Definition sweep_apart (st : sweep_state) : Prop :=
  dt_valid (current_time st) = true
  /\ Forall (fun g => to_microseconds (gap_end g)
                      <= to_microseconds (current_time st)) (free_slots st)
  /\ StronglySorted ends_before (free_slots st).





(** * Properties *)

Arguments dt_lt : simpl never.
Arguments dt_min : simpl never.
Arguments dt_max : simpl never.
Arguments dt_valid : simpl never.
Arguments minutes_between : simpl never.
Arguments strftime : simpl never.
Arguments emit : simpl never.

(** ** The result type *)

Lemma rmap_Ok {A B : Type} (f : A -> B) (r : result A) (b : B) :
  rmap f r = Ok b <-> exists a, r = Ok a /\ b = f a.
Proof.
  destruct r as [a | e]; simpl; split.
  - intros [= <-]. eauto.
  - intros (a' & [= <-] & ->). reflexivity.
  - discriminate.
  - intros (a' & [=] & _).
Qed.

(** ** Floating point *)

Lemma scale_nonpos a b e : e <= 0 -> scale a b e = (a * 2 ^ (- e), b).
Proof. intros H. unfold scale. destruct (Z.ltb_spec 0 e); [lia | reflexivity]. Qed.

Lemma round_half_even_bounds n d :
  0 < d -> n / d <= round_half_even n d <= n / d + 1.
Proof.
  intros Hd. unfold round_half_even.
  destruct (2 * (n mod d) <? d); [lia|].
  destruct (d <? 2 * (n mod d)); [lia|].
  destruct (Z.even (n / d)); lia.
Qed.

Lemma round_half_even_exact n d q :
  0 < d -> n = q * d -> round_half_even n d = q.
Proof.
  intros Hd ->. unfold round_half_even.
  rewrite Z.mod_mul, Z.div_mul by lia.
  destruct (Z.ltb_spec (2 * 0) d); [reflexivity | lia].
Qed.

Lemma round_quotient_exponent a b j :
  0 <= a -> 0 < b -> 0 <= j <= 52 -> a < b * 2 ^ (52 - j) ->
  exponent (round_quotient a b) <= - j.
Proof.
  intros Ha Hb Hj Hlt. unfold round_quotient. cbn [exponent].
  assert (L : Z.log2 a <= Z.log2 b + (52 - j)).
  { destruct (Z.eq_dec a 0) as [-> | Hn].
    - change (Z.log2 0) with 0. pose proof (Z.log2_nonneg b). lia.
    - rewrite Z.add_comm, <- Z.log2_mul_pow2 by lia.
      apply Z.log2_le_mono. lia. }
  destruct (_ <? _); lia.
Qed.

Lemma round_quotient_lower a b k :
  0 <= a -> 0 < b -> 0 <= k -> k * b <= a -> a < b * 2 ^ 52 ->
  exponent (round_quotient a b) <= 0
  /\ k * 2 ^ (- exponent (round_quotient a b)) <= mantissa (round_quotient a b).
Proof.
  intros Ha Hb Hk Hle Hlt.
  pose proof (round_quotient_exponent a b 0 Ha Hb ltac:(lia) Hlt) as He.
  split; [lia|]. revert He. unfold round_quotient. cbn [exponent mantissa].
  set (e := if _ <? _ then _ else _). intros He.
  rewrite scale_nonpos by lia. cbn [fst snd].
  pose proof (Z.pow_pos_nonneg 2 (- e) ltac:(lia) ltac:(lia)) as Hp.
  pose proof (round_half_even_bounds (a * 2 ^ (- e)) b Hb) as [Hq _].
  etransitivity; [|exact Hq].
  apply Z.div_le_lower_bound; [lia|]. nia.
Qed.

Lemma round_quotient_upper a b c j :
  0 <= a -> 0 < b -> 0 <= j <= 52 -> a * 2 ^ j <= c * b -> a < b * 2 ^ (52 - j) ->
  exponent (round_quotient a b) <= - j
  /\ mantissa (round_quotient a b)
     <= c * 2 ^ (- j - exponent (round_quotient a b)).
Proof.
  intros Ha Hb Hj Hle Hlt.
  pose proof (round_quotient_exponent a b j Ha Hb Hj Hlt) as He.
  split; [exact He|]. revert He. unfold round_quotient. cbn [exponent mantissa].
  set (e := if _ <? _ then _ else _). intros He.
  rewrite scale_nonpos by lia. cbn [fst snd].
  set (E := 2 ^ (- j - e)).
  assert (HE : 0 < E) by (apply Z.pow_pos_nonneg; lia).
  assert (Hpow : 2 ^ (- e) = 2 ^ j * E).
  { unfold E. rewrite <- Z.pow_add_r by lia. f_equal. lia. }
  rewrite Hpow.
  set (n := a * (2 ^ j * E)).
  assert (Hn : n <= (c * E) * b) by (unfold n; nia).
  pose proof (round_half_even_bounds n b Hb) as [_ Hq].
  destruct (Z.eq_dec n ((c * E) * b)) as [Heq | Hne].
  - rewrite (round_half_even_exact n b (c * E) Hb Heq). lia.
  - assert (n / b < c * E) by (apply Z.div_lt_upper_bound; lia). lia.
Qed.

Lemma round_quotient_nonneg a b :
  0 <= a -> 0 < b -> 0 <= mantissa (round_quotient a b).
Proof.
  intros Ha Hb. unfold round_quotient. cbn [mantissa].
  set (e := if _ <? _ then _ else _).
  assert (0 <= fst (scale a b e) /\ 0 < snd (scale a b e)) as [Hn Hd].
  { unfold scale. destruct (0 <? e) eqn:E; cbn [fst snd].
    - apply Z.ltb_lt in E.
      pose proof (Z.pow_pos_nonneg 2 e ltac:(lia) ltac:(lia)). nia.
    - assert (0 <= 2 ^ (- e)) by (apply Z.pow_nonneg; lia). nia. }
  pose proof (round_half_even_bounds (fst (scale a b e)) _ Hd) as [Hq _].
  pose proof (Z.div_pos _ _ Hn Hd). lia.
Qed.

Lemma float_opp_involutive x : float_opp (float_opp x) = x.
Proof. destruct x. unfold float_opp. cbn [mantissa exponent]. f_equal. lia. Qed.

Lemma round_quotient_zero b : 0 < b -> mantissa (round_quotient 0 b) = 0.
Proof.
  intros Hb.
  pose proof (round_quotient_nonneg 0 b ltac:(lia) Hb) as Hlo.
  assert (Hp : 0 < 2 ^ 52) by reflexivity.
  destruct (round_quotient_upper 0 b 0 0) as [_ Hhi]; lia.
Qed.

Lemma true_divide_opp a b :
  0 < b -> true_divide (- a) b = float_opp (true_divide a b).
Proof.
  intros Hb. unfold true_divide.
  destruct (Z.ltb_spec (- a) 0) as [H1 | H1], (Z.ltb_spec a 0) as [H2 | H2].
  - lia.
  - rewrite Z.opp_involutive. reflexivity.
  - rewrite float_opp_involutive. reflexivity.
  - assert (a = 0) as -> by lia. change (- 0) with 0.
    pose proof (round_quotient_zero b Hb) as Hz.
    destruct (round_quotient 0 b) as [m e]. cbn [mantissa] in Hz. subst m.
    reflexivity.
Qed.

Lemma float_div_opp x y :
  0 < mantissa y -> float_div (float_opp x) y = float_opp (float_div x y).
Proof.
  intros Hy. unfold float_div.
  change (mantissa (float_opp x)) with (- mantissa x).
  change (exponent (float_opp x)) with (exponent x).
  destruct (0 <? _) eqn:E.
  - rewrite <- true_divide_opp by assumption. f_equal. lia.
  - apply Z.ltb_ge in E. rewrite <- true_divide_opp; [reflexivity|].
    pose proof (Z.pow_pos_nonneg 2 (- (exponent x - exponent y))
                  ltac:(lia) ltac:(lia)). nia.
Qed.

Lemma int_of_float_opp x : int_of_float (float_opp x) = - int_of_float x.
Proof.
  unfold int_of_float, float_opp. cbn [mantissa exponent].
  destruct (0 <? exponent x) eqn:E; [lia|].
  apply Z.quot_opp_l. apply Z.ltb_ge in E.
  pose proof (Z.pow_pos_nonneg 2 (- exponent x) ltac:(lia) ltac:(lia)). lia.
Qed.

Lemma timedelta_minutes_opp us : timedelta_minutes (- us) = - timedelta_minutes us.
Proof.
  unfold timedelta_minutes, total_seconds.
  rewrite true_divide_opp by lia.
  rewrite float_div_opp by (cbn; lia).
  apply int_of_float_opp.
Qed.

Lemma true_divide_nonneg a b :
  0 <= a -> true_divide a b = round_quotient a b.
Proof. intros H. unfold true_divide. destruct (Z.ltb_spec a 0); [lia | reflexivity]. Qed.



(** Both divisions of [int(total_seconds() / 60)], between two bounds. *)
Lemma second_division m1 P E1 q :
  0 < P -> 0 < E1 -> 0 <= q ->
  60 * q * (P * E1) <= m1 ->
  m1 <= (60 * (q + 1) * P - 1) * E1 ->
  q * (60 * (P * E1)) <= m1
  /\ m1 * (64 * P) <= ((q + 1) * (64 * P) - 1) * (60 * (P * E1))
  /\ m1 < 60 * (P * E1) * (q + 1).
Proof.
  intros HP HE Hq Hlo Hhi.
  assert (HPE : 0 < P * E1) by nia.
  split; [lia|]. split.
  - apply Z.le_trans with ((60 * (q + 1) * P - 1) * E1 * (64 * P)).
    + apply Z.mul_le_mono_nonneg_r; lia.
    + replace ((60 * (q + 1) * P - 1) * E1 * (64 * P))
        with ((60 * (q + 1) * P - 1) * 64 * (P * E1)) by ring.
      replace (((q + 1) * (64 * P) - 1) * (60 * (P * E1)))
        with (((q + 1) * (64 * P) - 1) * 60 * (P * E1)) by ring.
      apply Z.mul_le_mono_nonneg_r; lia.
  - apply Z.le_lt_trans with ((60 * (q + 1) * P - 1) * E1); [exact Hhi|].
    replace (60 * (P * E1) * (q + 1)) with (60 * (q + 1) * P * E1) by ring.
    apply Z.mul_lt_mono_pos_r; lia.
Qed.

(** The two roundings stay inside the minute that contains [us], when a
    grid of step [2^-j] seconds separates [us] from the next minute. *)
Lemma timedelta_minutes_within j us q :
  0 <= j <= 46 -> 0 <= q ->
  60000000 * q <= us ->
  us * 2 ^ j <= (60 * (q + 1) * 2 ^ j - 1) * 1000000 ->
  q + 1 <= 2 ^ (46 - j) ->
  timedelta_minutes us = q.
Proof.
  intros Hj Hq Hlo Hhi Hb.
  assert (HP : 0 < 2 ^ j) by (apply Z.pow_pos_nonneg; lia).
  assert (HQ : 0 < 2 ^ (46 - j)) by (apply Z.pow_pos_nonneg; lia).
  assert (H52 : 2 ^ (52 - j) = 64 * 2 ^ (46 - j)).
  { replace (52 - j) with (6 + (46 - j)) by lia.
    rewrite Z.pow_add_r by lia. reflexivity. }
  assert (H6 : 2 ^ (j + 6) = 64 * 2 ^ j).
  { rewrite Z.pow_add_r by lia. change (2 ^ 6) with 64. lia. }
  assert (Hle : 2 ^ (46 - j) <= 2 ^ 46) by (apply Z.pow_le_mono_r; lia).
  assert (Hus : 0 <= us) by lia.
  assert (Hlt0 : us * 2 ^ j < 60000000 * (q + 1) * 2 ^ j) by lia.
  assert (Hlt : us < 60000000 * (q + 1)).
  { apply Z.mul_lt_mono_pos_r with (p := 2 ^ j); assumption. }
  assert (Hlt1 : us < 1000000 * 2 ^ (52 - j)) by lia.
  assert (Hlt1' : us < 1000000 * 2 ^ 52).
  { change (2 ^ 52) with (64 * 2 ^ 46). lia. }
  unfold timedelta_minutes, total_seconds, float_div, float_of_int.
  cbn [mantissa exponent]. rewrite (true_divide_nonneg us) by assumption.
  (* first division *)
  pose proof (round_quotient_upper us 1000000 (60 * (q + 1) * 2 ^ j - 1) j
                Hus ltac:(lia) ltac:(lia) Hhi Hlt1) as [He1 Hu1].
  pose proof (round_quotient_lower us 1000000 (60 * q)
                Hus ltac:(lia) ltac:(lia) ltac:(lia) Hlt1') as [_ Hl1].
  set (x := round_quotient us 1000000) in *.
  set (e1 := exponent x) in *. set (m1 := mantissa x) in *.
  assert (HE1 : 0 < 2 ^ (- j - e1)) by (apply Z.pow_pos_nonneg; lia).
  assert (Hp1 : 2 ^ (- e1) = 2 ^ j * 2 ^ (- j - e1)).
  { rewrite <- Z.pow_add_r by lia. f_equal. lia. }
  rewrite Hp1 in Hl1.
  destruct (Z.ltb_spec 0 (e1 - 0)) as [? | _]; [lia|].
  replace (- (e1 - 0)) with (- e1) by lia. rewrite Hp1.
  destruct (second_division m1 (2 ^ j) (2 ^ (- j - e1)) q HP HE1 Hq Hl1 Hu1)
    as (Hlo2 & Hhi2 & Hlt2).
  set (b2 := 60 * (2 ^ j * 2 ^ (- j - e1))) in *.
  assert (Hb2 : 0 < b2) by (unfold b2; nia).
  assert (Hm1 : 0 <= m1) by nia.
  rewrite true_divide_nonneg by assumption.
  (* second division *)
  assert (Hr2 : m1 < b2 * 2 ^ (52 - (j + 6))).
  { replace (52 - (j + 6)) with (46 - j) by lia.
    apply Z.lt_le_trans with (b2 * (q + 1)); [exact Hlt2|].
    apply Z.mul_le_mono_nonneg_l; lia. }
  assert (Hr2' : m1 < b2 * 2 ^ 52).
  { apply Z.lt_le_trans with (b2 * (q + 1)); [exact Hlt2|].
    apply Z.mul_le_mono_nonneg_l; [lia|].
    change (2 ^ 52) with (64 * 2 ^ 46). lia. }
  rewrite <- H6 in Hhi2.
  pose proof (round_quotient_upper m1 b2 ((q + 1) * 2 ^ (j + 6) - 1) (j + 6)
                Hm1 Hb2 ltac:(lia) Hhi2 Hr2) as [He2 Hu2].
  pose proof (round_quotient_lower m1 b2 q Hm1 Hb2 Hq Hlo2 Hr2') as [_ Hl2].
  set (y := round_quotient m1 b2) in *.
  set (e2 := exponent y) in *. set (m2 := mantissa y) in *.
  assert (HE2 : 0 < 2 ^ (- (j + 6) - e2)) by (apply Z.pow_pos_nonneg; lia).
  assert (Hp2 : 2 ^ (- e2) = 2 ^ (j + 6) * 2 ^ (- (j + 6) - e2)).
  { rewrite <- Z.pow_add_r by lia. f_equal. lia. }
  unfold int_of_float. fold e2 m2.
  destruct (Z.ltb_spec 0 e2) as [? | _]; [lia|].
  rewrite Hp2 in *.
  assert (H6' : 0 < 2 ^ (j + 6)) by lia.
  set (A := 2 ^ (j + 6)) in *. set (E2 := 2 ^ (- (j + 6) - e2)) in *.
  assert (HD : 0 < A * E2) by nia.
  assert (Hm2 : m2 < (q + 1) * (A * E2)).
  { apply Z.le_lt_trans with (((q + 1) * A - 1) * E2); [exact Hu2|]. nia. }
  rewrite Z.quot_div_nonneg by nia.
  symmetry. apply Z.div_unique with (r := m2 - q * (A * E2)); lia.
Qed.

Lemma timedelta_minutes_floor us :
  0 <= us < 2 ^ 26 * 60000000 -> timedelta_minutes us = us / 60000000.
Proof.
  intros H. change (2 ^ 26) with 67108864 in H.
  pose proof (Z.div_mod us 60000000 ltac:(lia)) as Hdm.
  pose proof (Z.mod_pos_bound us 60000000 ltac:(lia)) as Hmod.
  assert (Hq : 0 <= us / 60000000) by (apply Z.div_pos; lia).
  assert (Hq' : us / 60000000 < 67108864)
    by (apply Z.div_lt_upper_bound; lia).
  apply (timedelta_minutes_within 20); lia.
Qed.

Lemma timedelta_minutes_whole_seconds s :
  0 <= s < 2 ^ 46 * 60 -> timedelta_minutes (s * 1000000) = s / 60.
Proof.
  intros H. change (2 ^ 46) with 70368744177664 in H.
  pose proof (Z.div_mod s 60 ltac:(lia)) as Hdm.
  pose proof (Z.mod_pos_bound s 60 ltac:(lia)) as Hmod.
  assert (Hq : 0 <= s / 60) by (apply Z.div_pos; lia).
  assert (Hq' : s / 60 < 70368744177664)
    by (apply Z.div_lt_upper_bound; lia).
  apply (timedelta_minutes_within 0); lia.
Qed.

(** ** Calendar arithmetic *)

Ltac Zify.zify_post_hook ::= Z.to_euclidean_division_equations.

Ltac month_cases m :=
  let H := fresh "Hm" in
  assert (H : m = 1 \/ m = 2 \/ m = 3 \/ m = 4 \/ m = 5 \/ m = 6 \/ m = 7
              \/ m = 8 \/ m = 9 \/ m = 10 \/ m = 11 \/ m = 12) by lia;
  repeat (destruct H as [H | H]); subst m.

Lemma is_leap_cases y :
  (is_leap y = true /\ days_before_year (y + 1) = days_before_year y + 366)
  \/ (is_leap y = false /\ days_before_year (y + 1) = days_before_year y + 365).
Proof.
  unfold is_leap, days_before_year.
  replace (y + 1 - 1) with y by lia.
  destruct (y mod 4 =? 0) eqn:E4; destruct (y mod 100 =? 0) eqn:E100;
    destruct (y mod 400 =? 0) eqn:E400; simpl;
    [left | right | left | left | right | right | right | right];
    split; try reflexivity; lia.
Qed.

Lemma days_in_year_bound y m d :
  date_ok y m d ->
  1 <= days_before_month y m + d <= (if is_leap y then 366 else 365).
Proof.
  intros [Hm Hd]. unfold days_before_month, days_in_month in *.
  month_cases m; destruct (is_leap y); simpl in *; lia.
Qed.

Lemma days_before_month_next y m1 m2 d :
  date_ok y m1 d -> m1 < m2 <= 12 ->
  days_before_month y m1 + d <= days_before_month y m2.
Proof.
  intros [Hm Hd] H. unfold days_before_month, days_in_month in *.
  month_cases m1; month_cases m2; try lia; destruct (is_leap y); simpl in *; lia.
Qed.

Lemma days_before_year_mono y1 y2 :
  y1 <= y2 -> days_before_year y1 <= days_before_year y2.
Proof. unfold days_before_year. lia. Qed.

Lemma ymd2ord_year_lt y1 m1 d1 y2 m2 d2 :
  date_ok y1 m1 d1 -> date_ok y2 m2 d2 -> y1 < y2 ->
  ymd2ord y1 m1 d1 < ymd2ord y2 m2 d2.
Proof.
  intros H1 H2 Hy. unfold ymd2ord.
  pose proof (days_in_year_bound _ _ _ H1) as B1.
  pose proof (days_in_year_bound _ _ _ H2) as B2.
  pose proof (days_before_year_mono (y1 + 1) y2 ltac:(lia)) as M.
  destruct (is_leap_cases y1) as [[L E] | [L E]]; rewrite L in B1; lia.
Qed.

Lemma ymd2ord_month_lt y m1 d1 m2 d2 :
  date_ok y m1 d1 -> date_ok y m2 d2 -> m1 < m2 ->
  ymd2ord y m1 d1 < ymd2ord y m2 d2.
Proof.
  intros H1 H2 Hm. unfold ymd2ord.
  pose proof (days_before_month_next y m1 m2 d1 H1 ltac:(destruct H2; lia)).
  destruct H2. lia.
Qed.

Lemma dt_valid_elim d :
  dt_valid d = true ->
  date_ok (year d) (month d) (day d)
  /\ 0 <= hour d <= 23 /\ 0 <= minute d <= 59 /\ 0 <= second d <= 59
  /\ 0 <= microsecond d <= 999999 /\ 1 <= year d <= 9999.
Proof.
  unfold dt_valid, date_ok. rewrite !andb_true_iff, !Z.leb_le. lia.
Qed.

(** The tuple order of CPython is the order of the instants. *)
Lemma to_microseconds_lt a b :
  dt_valid a = true -> dt_valid b = true ->
  dt_lt a b = true -> to_microseconds a < to_microseconds b.
Proof.
  intros Va Vb.
  apply dt_valid_elim in Va as (Da & Ha & Ma & Sa & Ua & _).
  apply dt_valid_elim in Vb as (Db & Hb & Mb & Sb & Ub & _).
  unfold dt_lt, dt_fields, to_microseconds, seconds_of, toordinal. simpl.
  repeat (rewrite orb_true_iff || rewrite andb_true_iff);
    rewrite ?Z.ltb_lt, ?Z.eqb_eq.
  destruct a as [y1 m1 d1 h1 mi1 s1 u1 t1], b as [y2 m2 d2 h2 mi2 s2 u2 t2];
    simpl in *.
  intros [Hy | [Ey [Hm | [Em [Hd | [Ed Hrest]]]]]].
  - pose proof (ymd2ord_year_lt _ _ _ _ _ _ Da Db Hy). lia.
  - subst y2. pose proof (ymd2ord_month_lt _ _ _ _ _ Da Db Hm). lia.
  - subst y2 m2. unfold ymd2ord. lia.
  - subst y2 m2 d2. lia.
Qed.

Lemma dt_lt_total a b :
  dt_lt a b = false -> dt_fields a = dt_fields b \/ dt_lt b a = true.
Proof.
  unfold dt_lt, dt_fields.
  destruct a as [y1 m1 d1 h1 mi1 s1 u1 t1], b as [y2 m2 d2 h2 mi2 s2 u2 t2];
    simpl.
  repeat (rewrite orb_false_iff || rewrite andb_false_iff
          || rewrite orb_true_iff || rewrite andb_true_iff);
    rewrite ?Z.ltb_lt, ?Z.ltb_ge, ?Z.eqb_eq, ?Z.eqb_neq.
  intros H.
  destruct (Z.eq_dec y1 y2); [subst | right; lia].
  destruct (Z.eq_dec m1 m2); [subst | right; lia].
  destruct (Z.eq_dec d1 d2); [subst | right; lia].
  destruct (Z.eq_dec h1 h2); [subst | right; lia].
  destruct (Z.eq_dec mi1 mi2); [subst | right; lia].
  destruct (Z.eq_dec s1 s2); [subst | right; lia].
  destruct (Z.eq_dec u1 u2); [subst | right; lia].
  left; reflexivity.
Qed.

Lemma to_microseconds_fields a b :
  dt_fields a = dt_fields b -> to_microseconds a = to_microseconds b.
Proof.
  unfold dt_fields, to_microseconds, seconds_of, toordinal. intros H.
  injection H as -> -> -> -> -> -> ->. reflexivity.
Qed.

Lemma dt_lt_spec a b :
  dt_valid a = true -> dt_valid b = true ->
  dt_lt a b = (to_microseconds a <? to_microseconds b).
Proof.
  intros Va Vb. destruct (dt_lt a b) eqn:E.
  - symmetry. apply Z.ltb_lt. now apply to_microseconds_lt.
  - symmetry. apply Z.ltb_ge. destruct (dt_lt_total _ _ E) as [F | L].
    + rewrite (to_microseconds_fields _ _ F). lia.
    + pose proof (to_microseconds_lt _ _ Vb Va L). lia.
Qed.

Lemma dt_lt_iff a b :
  dt_valid a = true -> dt_valid b = true ->
  dt_lt a b = true <-> to_microseconds a < to_microseconds b.
Proof. intros Va Vb. rewrite (dt_lt_spec _ _ Va Vb). apply Z.ltb_lt. Qed.

Lemma dt_lt_false_iff a b :
  dt_valid a = true -> dt_valid b = true ->
  dt_lt a b = false <-> to_microseconds b <= to_microseconds a.
Proof. intros Va Vb. rewrite (dt_lt_spec _ _ Va Vb). apply Z.ltb_ge. Qed.

(** A valid value lies between year 1 and year 9999. *)
Lemma toordinal_range d :
  dt_valid d = true -> 1 <= toordinal d <= 3652060.
Proof.
  intros V. apply dt_valid_elim in V as (D & H & M & S & U & Y).
  pose proof (days_in_year_bound _ _ _ D) as B.
  pose proof (days_before_year_mono 1 (year d) ltac:(lia)) as L1.
  pose proof (days_before_year_mono (year d) 9999 ltac:(lia)) as L2.
  change (days_before_year 1) with 0 in L1.
  change (days_before_year 9999) with 3651694 in L2.
  unfold toordinal, ymd2ord.
  destruct (is_leap (year d)); lia.
Qed.

Lemma to_microseconds_range d :
  dt_valid d = true -> 0 <= to_microseconds d < 315538070400000000.
Proof.
  intros V. pose proof (toordinal_range d V) as R.
  apply dt_valid_elim in V as (D & H & M & S & U & Y).
  unfold to_microseconds, seconds_of. lia.
Qed.

(** Where the two float divisions give the whole minutes of the interval:
    both ends on the same fraction of a second, or an interval below 2^26
    minutes (some 127 years). *)
Lemma minutes_between_floor gs ge :
  dt_valid gs = true -> dt_valid ge = true ->
  to_microseconds gs <= to_microseconds ge ->
  microsecond gs = microsecond ge \/ dt_sub ge gs < 2 ^ 26 * 60000000 ->
  minutes_between gs ge = dt_sub ge gs / 60000000.
Proof.
  intros Vs Ve Hle [Hu | Hb]; unfold minutes_between.
  - pose proof (to_microseconds_range gs Vs) as Rs.
    pose proof (to_microseconds_range ge Ve) as Re.
    assert (E : dt_sub ge gs = (seconds_of ge - seconds_of gs) * 1000000).
    { unfold dt_sub, to_microseconds. rewrite Hu. ring. }
    assert (Hs : 0 <= seconds_of ge - seconds_of gs < 2 ^ 46 * 60).
    { change (2 ^ 46) with 70368744177664.
      unfold dt_sub, to_microseconds in *. lia. }
    rewrite E, timedelta_minutes_whole_seconds by exact Hs.
    change 60000000 with (60 * 1000000).
    rewrite Z.div_mul_cancel_r by discriminate. reflexivity.
  - apply timedelta_minutes_floor. unfold dt_sub in *. lia.
Qed.

Lemma dt_min_cases a b : dt_min a b = a \/ dt_min a b = b.
Proof. unfold dt_min. destruct (dt_lt b a); auto. Qed.

Lemma dt_max_cases a b : dt_max a b = a \/ dt_max a b = b.
Proof. unfold dt_max. destruct (dt_lt a b); auto. Qed.

Lemma dt_min_valid a b :
  dt_valid a = true -> dt_valid b = true -> dt_valid (dt_min a b) = true.
Proof. destruct (dt_min_cases a b) as [-> | ->]; auto. Qed.

Lemma dt_max_valid a b :
  dt_valid a = true -> dt_valid b = true -> dt_valid (dt_max a b) = true.
Proof. destruct (dt_max_cases a b) as [-> | ->]; auto. Qed.

Lemma dt_max_to_microseconds a b :
  dt_valid a = true -> dt_valid b = true ->
  to_microseconds (dt_max a b) = Z.max (to_microseconds a) (to_microseconds b).
Proof.
  intros Va Vb. unfold dt_max. destruct (dt_lt a b) eqn:E.
  - apply dt_lt_iff in E; auto. lia.
  - apply dt_lt_false_iff in E; auto. lia.
Qed.

Lemma dt_min_to_microseconds a b :
  dt_valid a = true -> dt_valid b = true ->
  to_microseconds (dt_min a b) = Z.min (to_microseconds a) (to_microseconds b).
Proof.
  intros Va Vb. unfold dt_min. destruct (dt_lt b a) eqn:E.
  - apply dt_lt_iff in E; auto. lia.
  - apply dt_lt_false_iff in E; auto. lia.
Qed.

Lemma strip_tz_fields d : dt_fields (strip_tz d) = dt_fields d.
Proof. unfold strip_tz. destruct (tzinfo d); reflexivity. Qed.

Lemma strip_tz_valid d : dt_valid (strip_tz d) = dt_valid d.
Proof. unfold strip_tz. destruct (tzinfo d); reflexivity. Qed.


Lemma replace_hour_Ok d h d' :
  replace_hour d h = Ok d' ->
  0 <= h <= 23
  /\ d' = mk_datetime (year d) (month d) (day d) h 0 0 (microsecond d) (tzinfo d).
Proof.
  unfold replace_hour. destruct ((0 <=? h) && (h <=? 23)) eqn:E; [|discriminate].
  intros [= <-]. apply andb_true_iff in E. rewrite !Z.leb_le in E. auto.
Qed.

Lemma replace_hour_valid d h d' :
  dt_valid d = true -> replace_hour d h = Ok d' -> dt_valid d' = true.
Proof.
  intros V H. apply replace_hour_Ok in H as [Hh ->].
  apply dt_valid_elim in V as ((? & ?) & ? & ? & ? & ? & ?).
  unfold dt_valid; simpl. rewrite !andb_true_iff, !Z.leb_le. lia.
Qed.

(** ** Sorting the busy periods *)

Lemma insert_by_start_Forall (P : datetime * datetime -> Prop) p l :
  P p -> Forall P l -> Forall P (insert_by_start p l).
Proof.
  intros Hp. induction l as [| q l IH]; simpl; intros Hl.
  - constructor; auto.
  - inversion Hl; subst. destruct (dt_lt (fst q) (fst p)); constructor; auto.
Qed.

Lemma sort_by_start_Forall (P : datetime * datetime -> Prop) l :
  Forall P l -> Forall P (sort_by_start l).
Proof.
  unfold sort_by_start. induction 1; simpl.
  - constructor.
  - apply insert_by_start_Forall; auto.
Qed.

(** ** Order of the slots *)

Lemma StronglySorted_snoc {A : Type} (R : A -> A -> Prop) l x :
  StronglySorted R l -> Forall (fun a => R a x) l -> StronglySorted R (l ++ [x]).
Proof.
  induction 1 as [| a l Hl IH Ha]; simpl; intros Hx.
  - constructor; constructor.
  - inversion Hx; subst. constructor; auto.
    apply Forall_app; split; auto.
Qed.

Lemma seconds_of_le a b :
  dt_valid a = true -> dt_valid b = true ->
  to_microseconds a <= to_microseconds b ->
  seconds_of a <= seconds_of b /\ toordinal a <= toordinal b.
Proof.
  intros Va Vb.
  apply dt_valid_elim in Va as (_ & Ha & Ma & Sa & Ua & _).
  apply dt_valid_elim in Vb as (_ & Hb & Mb & Sb & Ub & _).
  unfold to_microseconds, seconds_of. lia.
Qed.

Lemma start_floor_mono wh wsh a b :
  dt_valid a = true -> dt_valid b = true ->
  to_microseconds a <= to_microseconds b ->
  start_floor wh wsh a <= start_floor wh wsh b.
Proof.
  intros Va Vb H. destruct (seconds_of_le a b Va Vb H).
  unfold start_floor. destruct wh; lia.
Qed.

Lemma adjust_start_floor gs wsh weh gs' :
  dt_valid gs = true ->
  adjust_start gs wsh weh = Ok (Some gs') ->
  dt_valid gs' = true /\ seconds_of gs' = start_floor true wsh gs.
Proof.
  intros V. unfold adjust_start, start_floor.
  pose proof (dt_valid_elim _ V) as (_ & Hh & Hm & Hs & _).
  destruct (hour gs <? wsh) eqn:E1.
  - destruct (replace_hour gs wsh) as [d |] eqn:R; simpl; [|discriminate].
    intros [= <-]. split; [eapply replace_hour_valid; eauto|].
    apply replace_hour_Ok in R as [_ ->]. apply Z.ltb_lt in E1.
    unfold seconds_of, toordinal. simpl. lia.
  - destruct (weh <=? hour gs); [discriminate|].
    intros [= <-]. split; [assumption|]. apply Z.ltb_ge in E1.
    unfold seconds_of. lia.
Qed.

Lemma candidate_start_floor wh wsh weh gs ge gs' ge' :
  dt_valid gs = true ->
  candidate wh wsh weh gs ge = Ok (Some (gs', ge')) ->
  dt_valid gs' = true /\ seconds_of gs' = start_floor wh wsh gs.
Proof.
  intros V. unfold candidate, clip_working_hours. destruct wh.
  - destruct (adjust_start gs wsh weh) as [[gs1 |] | e] eqn:A; simpl;
      try discriminate.
    destruct (adjust_end ge wsh weh) as [[ge1 |] | e]; simpl; try discriminate.
    intros [= <- <-]. eapply adjust_start_floor; eauto.
  - intros [= <- <-]. auto.
Qed.

Lemma emit_cases gs ge m :
  emit gs ge m = []
  \/ (emit gs ge m = [mk_gap gs ge (minutes_between gs ge)]
      /\ dt_lt gs ge = true /\ m <= minutes_between gs ge).
Proof.
  unfold emit. destruct (dt_lt gs ge); [|auto]. cbv zeta.
  destruct (m <=? minutes_between gs ge) eqn:E; [|auto].
  right. apply Z.leb_le in E. auto.
Qed.

Lemma sweep_sorted_emit wh wsh weh st ge0 gs ge m c' :
  sweep_sorted wh wsh st ->
  dt_valid c' = true ->
  to_microseconds (current_time st) <= to_microseconds c' ->
  candidate wh wsh weh (current_time st) ge0 = Ok (Some (gs, ge)) ->
  sweep_sorted wh wsh (mk_state (free_slots st ++ emit gs ge m) c').
Proof.
  intros (Vc & Hall & Hs) Vc' Hle Hc.
  destruct (candidate_start_floor _ _ _ _ _ _ _ Vc Hc) as [Vg Eg].
  pose proof (start_floor_mono wh wsh _ _ Vc Vc' Hle) as Hmono.
  assert (Hall' : Forall (fun g => dt_valid (gap_start g) = true
                    /\ seconds_of (gap_start g) <= start_floor wh wsh c')
                    (free_slots st)).
  { eapply List.Forall_impl; [|exact Hall]. simpl. intros g [? ?]. split; auto. lia. }
  unfold sweep_sorted; simpl.
  destruct (emit_cases gs ge m) as [-> | (-> & _ & _)].
  - rewrite app_nil_r. auto.
  - split; [assumption|]. split.
    + apply Forall_app; split; [assumption|].
      constructor; [|constructor]. simpl. split; [assumption|]. lia.
    + apply StronglySorted_snoc; [assumption|].
      eapply List.Forall_impl; [|exact Hall]. unfold starts_le. simpl.
      intros g [_ ?]. lia.
Qed.

Lemma sweep_sorted_advance wh wsh st c' :
  sweep_sorted wh wsh st ->
  dt_valid c' = true ->
  to_microseconds (current_time st) <= to_microseconds c' ->
  sweep_sorted wh wsh (mk_state (free_slots st) c').
Proof.
  intros (Vc & Hall & Hs) Vc' Hle.
  pose proof (start_floor_mono wh wsh _ _ Vc Vc' Hle) as Hmono.
  unfold sweep_sorted; simpl. repeat split; auto.
  eapply List.Forall_impl; [|exact Hall]. simpl. intros g [? ?]. split; auto. lia.
Qed.

Lemma dt_max_ge a b :
  dt_valid a = true -> dt_valid b = true ->
  to_microseconds a <= to_microseconds (dt_max a b).
Proof. intros Va Vb. rewrite dt_max_to_microseconds; auto. lia. Qed.

Lemma sweep_step_sorted range_end m wh wsh weh st b st' :
  busy_valid b ->
  sweep_sorted wh wsh st ->
  sweep_step range_end m wh wsh weh st b = Ok st' ->
  sweep_sorted wh wsh st'.
Proof.
  destruct b as [bs be]. intros [Vs Ve] Hst. simpl in Vs, Ve.
  pose proof Hst as (Vc & _ & _).
  unfold sweep_step.
  destruct (dt_lt (current_time st) bs).
  - destruct (candidate wh wsh weh (current_time st) (dt_min bs range_end))
      as [[[gs ge] |] | e] eqn:C; simpl; try discriminate.
    + intros [= <-].
      eapply sweep_sorted_emit; eauto using dt_max_valid, dt_max_ge.
    + intros [= <-]. assumption.
  - intros [= <-].
    apply sweep_sorted_advance; auto using dt_max_valid, dt_max_ge.
Qed.

Lemma sweep_sorted_preserved range_end m wh wsh weh busy st st' :
  Forall busy_valid busy ->
  sweep_sorted wh wsh st ->
  sweep range_end m wh wsh weh busy st = Ok st' ->
  sweep_sorted wh wsh st'.
Proof.
  intros Hb. revert st. induction Hb as [| b rest Hv _ IH]; intros st Hst; simpl.
  - intros [= <-]. assumption.
  - destruct (sweep_step range_end m wh wsh weh st b) as [st1 | e] eqn:S;
      simpl; [|discriminate].
    apply IH. eapply sweep_step_sorted; eauto.
Qed.

Lemma last_gap_sorted range_end m wh wsh weh st gs :
  sweep_sorted wh wsh st ->
  last_gap range_end m wh wsh weh st = Ok gs ->
  Forall (fun g => dt_valid (gap_start g) = true) gs
  /\ StronglySorted starts_le gs.
Proof.
  intros Hst. unfold last_gap.
  assert (Hfin : forall st0, sweep_sorted wh wsh st0 ->
            Forall (fun g => dt_valid (gap_start g) = true) (free_slots st0)
            /\ StronglySorted starts_le (free_slots st0)).
  { intros st0 (_ & Hall & Hs). split; [|assumption].
    eapply List.Forall_impl; [|exact Hall]. simpl. tauto. }
  destruct (dt_lt (current_time st) range_end).
  - destruct (candidate wh wsh weh (current_time st) range_end)
      as [[[g1 g2] |] | e] eqn:C; simpl; try discriminate.
    + intros [= <-].
      pose proof Hst as (Vc & _ & _).
      apply (Hfin (mk_state (free_slots st ++ emit g1 g2 m) (current_time st))).
      eapply sweep_sorted_emit; eauto. lia.
    + intros [= <-]. auto.
  - intros [= <-]. auto.
Qed.

(** ** Slots lie in the window *)

Lemma adjust_start_ge gs wsh weh gs' :
  dt_valid gs = true ->
  adjust_start gs wsh weh = Ok (Some gs') ->
  to_microseconds gs <= to_microseconds gs'.
Proof.
  intros V. unfold adjust_start.
  pose proof (dt_valid_elim _ V) as (_ & Hh & Hm & Hs & _).
  destruct (hour gs <? wsh) eqn:E1.
  - destruct (replace_hour gs wsh) as [d |] eqn:R; simpl; [|discriminate].
    intros [= <-]. apply replace_hour_Ok in R as [_ ->]. apply Z.ltb_lt in E1.
    unfold to_microseconds, seconds_of, toordinal. simpl. lia.
  - destruct (weh <=? hour gs); [discriminate|]. intros [= <-]. lia.
Qed.

Lemma adjust_end_le ge wsh weh ge' :
  dt_valid ge = true ->
  adjust_end ge wsh weh = Ok (Some ge') ->
  dt_valid ge' = true /\ to_microseconds ge' <= to_microseconds ge.
Proof.
  intros V. unfold adjust_end.
  pose proof (dt_valid_elim _ V) as (_ & Hh & Hm & Hs & _).
  destruct (weh <=? hour ge) eqn:E1.
  - destruct (replace_hour ge weh) as [d |] eqn:R; simpl; [|discriminate].
    intros [= <-]. split; [eapply replace_hour_valid; eauto|].
    apply replace_hour_Ok in R as [_ ->]. apply Z.leb_le in E1.
    unfold to_microseconds, seconds_of, toordinal. simpl. lia.
  - destruct (hour ge <? wsh); [discriminate|]. intros [= <-]. split; [auto | lia].
Qed.

(** The working-hours adjustment moves the start of a candidate forward and
    its end backward, never outside the candidate. *)
Lemma candidate_bounds wh wsh weh gs ge gs' ge' :
  dt_valid gs = true -> dt_valid ge = true ->
  candidate wh wsh weh gs ge = Ok (Some (gs', ge')) ->
  dt_valid gs' = true /\ dt_valid ge' = true
  /\ to_microseconds gs <= to_microseconds gs'
  /\ to_microseconds ge' <= to_microseconds ge.
Proof.
  intros Vs Ve. unfold candidate, clip_working_hours. destruct wh.
  - destruct (adjust_start gs wsh weh) as [[gs1 |] | e] eqn:A; simpl;
      try discriminate.
    destruct (adjust_end ge wsh weh) as [[ge1 |] | e] eqn:B; simpl;
      try discriminate.
    intros [= <- <-].
    destruct (adjust_start_floor _ _ _ _ Vs A) as [? _].
    pose proof (adjust_start_ge _ _ _ _ Vs A).
    destruct (adjust_end_le _ _ _ _ Ve B) as [? ?]. auto.
  - intros [= <- <-]. repeat split; auto; lia.
Qed.

Lemma emit_slot_ok rs re gs ge m :
  dt_valid gs = true -> dt_valid ge = true ->
  to_microseconds rs <= to_microseconds gs ->
  to_microseconds ge <= to_microseconds re ->
  Forall (slot_ok rs re) (emit gs ge m).
Proof.
  intros Vs Ve Hs He.
  destruct (emit_cases gs ge m) as [-> | (-> & Hlt & _)]; [constructor|].
  constructor; [|constructor]. unfold slot_ok; simpl. auto.
Qed.

Lemma sweep_step_within rs re m wh wsh weh st b st' :
  dt_valid re = true -> busy_valid b ->
  sweep_within rs re st ->
  sweep_step re m wh wsh weh st b = Ok st' ->
  sweep_within rs re st'.
Proof.
  destruct b as [bs be]. intros Vre [Vs Ve] (Vc & Hc & Hall). simpl in Vs, Ve.
  pose proof (dt_max_ge _ _ Vc Ve) as Hmax.
  pose proof (dt_max_valid _ _ Vc Ve) as Vmax.
  unfold sweep_step.
  destruct (dt_lt (current_time st) bs).
  - destruct (candidate wh wsh weh (current_time st) (dt_min bs re))
      as [[[gs ge] |] | e] eqn:C; simpl; try discriminate.
    + intros [= <-].
      apply candidate_bounds in C as (Vgs & Vge & Hgs & Hge);
        auto using dt_min_valid.
      rewrite dt_min_to_microseconds in Hge by assumption.
      unfold sweep_within; simpl. repeat split; auto; [lia|].
      apply Forall_app; split; [assumption|].
      apply emit_slot_ok; auto; lia.
    + intros [= <-]. unfold sweep_within. auto.
  - intros [= <-]. unfold sweep_within; simpl. repeat split; auto. lia.
Qed.

Lemma sweep_within_preserved rs re m wh wsh weh busy st st' :
  dt_valid re = true -> Forall busy_valid busy ->
  sweep_within rs re st ->
  sweep re m wh wsh weh busy st = Ok st' ->
  sweep_within rs re st'.
Proof.
  intros Vre Hb. revert st.
  induction Hb as [| b rest Hv _ IH]; intros st Hst; simpl.
  - intros [= <-]. assumption.
  - destruct (sweep_step re m wh wsh weh st b) as [st1 | e] eqn:S;
      simpl; [|discriminate].
    apply IH. eapply sweep_step_within; eauto.
Qed.

Lemma last_gap_within rs re m wh wsh weh st gs :
  dt_valid re = true ->
  sweep_within rs re st ->
  last_gap re m wh wsh weh st = Ok gs ->
  Forall (slot_ok rs re) gs.
Proof.
  intros Vre (Vc & Hc & Hall). unfold last_gap.
  destruct (dt_lt (current_time st) re).
  - destruct (candidate wh wsh weh (current_time st) re)
      as [[[g1 g2] |] | e] eqn:C; simpl; try discriminate.
    + intros [= <-].
      apply candidate_bounds in C as (Vgs & Vge & Hgs & Hge); auto.
      apply Forall_app; split; [assumption|].
      apply emit_slot_ok; auto; lia.
    + intros [= <-]. assumption.
  - intros [= <-]. assumption.
Qed.

(** ** Slots and busy periods, working hours disabled *)

Lemma insert_by_start_In p b l :
  In b (insert_by_start p l) <-> b = p \/ In b l.
Proof.
  induction l as [| q l IH]; simpl.
  - intuition.
  - destruct (dt_lt (fst q) (fst p)); simpl; rewrite ?IH; intuition.
Qed.

Lemma sort_by_start_In b l : In b (sort_by_start l) <-> In b l.
Proof.
  unfold sort_by_start. induction l as [| p l IH]; simpl; [tauto|].
  rewrite insert_by_start_In, IH. intuition.
Qed.

Lemma insert_by_start_sorted p l :
  busy_valid p -> Forall busy_valid l ->
  StronglySorted start_le l -> StronglySorted start_le (insert_by_start p l).
Proof.
  intros [Vp _] Hv Hs. induction Hs as [| q l Hs IH Hq]; simpl.
  - constructor; constructor.
  - inversion Hv as [| ? ? [Vq _] Hv']; subst.
    destruct (dt_lt (fst q) (fst p)) eqn:E.
    + constructor; [auto|].
      apply insert_by_start_Forall; [|assumption].
      apply dt_lt_iff in E; auto. unfold start_le. lia.
    + apply dt_lt_false_iff in E; auto.
      constructor; [constructor; assumption|].
      constructor; [exact E|].
      eapply List.Forall_impl; [|exact Hq]. unfold start_le. intros; lia.
Qed.

Lemma sort_by_start_sorted l :
  Forall busy_valid l -> StronglySorted start_le (sort_by_start l).
Proof.
  unfold sort_by_start. induction 1 as [| p l Hp Hl IH]; simpl.
  - constructor.
  - apply insert_by_start_sorted; auto.
    apply (sort_by_start_Forall busy_valid l Hl).
Qed.




(** ** Overlapping busy periods, working hours disabled *)

Lemma strip_tz_naive d : tzinfo (strip_tz d) = None.
Proof. unfold strip_tz. destruct (tzinfo d) eqn:E; [reflexivity | exact E]. Qed.

Lemma naive_eq a b :
  dt_valid a = true -> dt_valid b = true ->
  tzinfo a = None -> tzinfo b = None ->
  to_microseconds a = to_microseconds b -> a = b.
Proof.
  intros Va Vb Na Nb H.
  assert (E1 : dt_lt a b = false) by (apply dt_lt_false_iff; auto; lia).
  assert (E2 : dt_lt b a = false) by (apply dt_lt_false_iff; auto; lia).
  destruct (dt_lt_total _ _ E1) as [F | F]; [|congruence].
  destruct a, b; unfold dt_fields in F; simpl in *. congruence.
Qed.

Lemma dt_max_naive a b :
  tzinfo a = None -> tzinfo b = None -> tzinfo (dt_max a b) = None.
Proof. destruct (dt_max_cases a b) as [-> | ->]; auto. Qed.

Lemma dt_max_assoc a b c :
  dt_valid a = true -> dt_valid b = true -> dt_valid c = true ->
  tzinfo a = None -> tzinfo b = None -> tzinfo c = None ->
  dt_max (dt_max a b) c = dt_max a (dt_max b c).
Proof.
  intros Va Vb Vc Na Nb Nc.
  apply naive_eq; auto using dt_max_valid, dt_max_naive.
  rewrite !dt_max_to_microseconds; auto using dt_max_valid. lia.
Qed.

Lemma dt_max_comm a b :
  dt_valid a = true -> dt_valid b = true ->
  tzinfo a = None -> tzinfo b = None ->
  dt_max a b = dt_max b a.
Proof.
  intros Va Vb Na Nb.
  apply naive_eq; auto using dt_max_valid, dt_max_naive.
  rewrite !dt_max_to_microseconds; auto. lia.
Qed.

(** Two busy periods in the order of the sweep, the second starting no
    later than the first ends, are swept like their union. *)
Lemma sweep_merge range_end m wsh weh s1 e1 s2 e2 st :
  dt_valid (current_time st) = true -> tzinfo (current_time st) = None ->
  busy_valid (s1, e1) -> busy_valid (s2, e2) ->
  tzinfo e1 = None -> tzinfo e2 = None ->
  to_microseconds s2 <= to_microseconds e1 ->
  sweep range_end m false wsh weh [(s1, e1); (s2, e2)] st
  = sweep range_end m false wsh weh [(s1, dt_max e1 e2)] st.
Proof.
  intros Vc Nc [Vs1 Ve1] [Vs2 Ve2] N1 N2 H. simpl in Vs1, Ve1, Vs2, Ve2.
  pose proof (dt_max_ge _ _ Vc Ve1) as Hmax.
  pose proof (dt_max_valid _ _ Vc Ve1) as Vmax.
  pose proof (dt_max_to_microseconds _ _ Vc Ve1) as Emax.
  assert (E2 : dt_lt (dt_max (current_time st) e1) s2 = false).
  { apply dt_lt_false_iff; auto. lia. }
  simpl. destruct (dt_lt (current_time st) s1); simpl; rewrite E2; simpl;
    rewrite dt_max_assoc; auto.
Qed.

(** ** The text of a slot boundary *)

Lemma digit_inj a b :
  0 <= a <= 9 -> 0 <= b <= 9 -> digit a = digit b -> a = b.
Proof.
  intros Ha Hb H. unfold digit in H.
  apply (f_equal nat_of_ascii) in H.
  rewrite !nat_ascii_embedding in H by lia. lia.
Qed.

Lemma pad2_inj a b :
  0 <= a <= 99 -> 0 <= b <= 99 -> pad2 a = pad2 b -> a = b.
Proof.
  intros Ha Hb H. unfold pad2 in H. injection H as H1 H2.
  unfold digit in H1, H2.
  apply (f_equal nat_of_ascii) in H1, H2.
  rewrite !nat_ascii_embedding in H1, H2 by lia. lia.
Qed.

Lemma pad4_inj a b :
  0 <= a <= 9999 -> 0 <= b <= 9999 -> pad4 a = pad4 b -> a = b.
Proof.
  intros Ha Hb H. unfold pad4, pad2 in H. injection H as H1 H2 H3 H4.
  unfold digit in H1, H2, H3, H4.
  apply (f_equal nat_of_ascii) in H1, H2, H3, H4.
  rewrite !nat_ascii_embedding in H1, H2, H3, H4 by lia. lia.
Qed.

(** The text written by [strftime] determines the instant to the second. *)
Lemma strftime_inj a b :
  dt_valid a = true -> dt_valid b = true ->
  strftime a = strftime b -> seconds_of a = seconds_of b.
Proof.
  intros Va Vb H.
  apply dt_valid_elim in Va as ((Hma & Hda) & Hha & Hmia & Hsa & _ & Hya).
  apply dt_valid_elim in Vb as ((Hmb & Hdb) & Hhb & Hmib & Hsb & _ & Hyb).
  assert (Hda' : day a <= 31)
    by (unfold days_in_month in Hda; repeat destruct (_ =? _) in Hda;
        try destruct (is_leap _) in Hda; simpl in Hda; lia).
  assert (Hdb' : day b <= 31)
    by (unfold days_in_month in Hdb; repeat destruct (_ =? _) in Hdb;
        try destruct (is_leap _) in Hdb; simpl in Hdb; lia).
  unfold strftime, pad4, pad2 in H. simpl in H.
  injection H as Y1 Y2 Y3 Y4 M1 M2 D1 D2 H1 H2 I1 I2 S1 S2.
  assert (Ey : year a = year b)
    by (apply pad4_inj; [lia | lia | unfold pad4, pad2; congruence]).
  assert (Em : month a = month b)
    by (apply pad2_inj; [lia | lia | unfold pad2; congruence]).
  assert (Ed : day a = day b)
    by (apply pad2_inj; [lia | lia | unfold pad2; congruence]).
  assert (Eh : hour a = hour b)
    by (apply pad2_inj; [lia | lia | unfold pad2; congruence]).
  assert (Ei : minute a = minute b)
    by (apply pad2_inj; [lia | lia | unfold pad2; congruence]).
  assert (Es : second a = second b)
    by (apply pad2_inj; [lia | lia | unfold pad2; congruence]).
  unfold seconds_of, toordinal. congruence.
Qed.

(** [chrono_le] on two written texts is the order of the instants written. *)
Lemma chrono_le_strftime a b :
  dt_valid a = true -> dt_valid b = true ->
  chrono_le (strftime a) (strftime b) <-> seconds_of a <= seconds_of b.
Proof.
  intros Va Vb. split.
  - intros (a' & b' & Va' & Vb' & Ea & Eb & H).
    rewrite <- (strftime_inj _ _ Va' Va Ea), <- (strftime_inj _ _ Vb' Vb Eb).
    exact H.
  - intros H. exists a, b. auto.
Qed.

(** ** The finder *)

Section Properties.
(** [iso] is [datetime.fromisoformat], [ymd] is
    [datetime.strptime(_, "%Y-%m-%d")]. *)
Variables iso ymd : string -> option datetime.

(** *** Window boundaries that do not parse *)

(** C6: when [rangeStart] or [rangeEnd] does not parse, the result is the
    empty list and nothing is raised, whatever the events, the minimum
    duration and the working-hours policy. *)
Theorem find_free_slots_bad_window events time_min time_max m wh wsh weh :
  iso (replace_Z time_min) = None
  \/ iso (replace_Z time_max) = None ->
  find_free_slots iso ymd events time_min time_max m wh wsh weh = Ok [].
Proof.
  intros H. unfold find_free_slots, free_gaps.
  destruct H as [-> | H]; [reflexivity|].
  destruct (iso (replace_Z time_min)); [|reflexivity].
  rewrite H. reflexivity.
Qed.

(** *** Totality *)

Lemma candidate_total wh wsh weh gs ge :
  0 <= wsh <= 23 -> 0 <= weh <= 23 ->
  exists c, candidate wh wsh weh gs ge = Ok c.
Proof.
  intros Hs He. unfold candidate, clip_working_hours, adjust_start, adjust_end,
    replace_hour.
  destruct wh; [|eauto].
  assert (Es : (0 <=? wsh) && (wsh <=? 23) = true)
    by (apply andb_true_iff; rewrite !Z.leb_le; lia).
  assert (Ee : (0 <=? weh) && (weh <=? 23) = true)
    by (apply andb_true_iff; rewrite !Z.leb_le; lia).
  rewrite Es, Ee.
  destruct (hour gs <? wsh), (weh <=? hour gs), (weh <=? hour ge),
    (hour ge <? wsh); simpl; eauto.
Qed.

Lemma sweep_total range_end m wh wsh weh busy st :
  0 <= wsh <= 23 -> 0 <= weh <= 23 ->
  exists st', sweep range_end m wh wsh weh busy st = Ok st'.
Proof.
  intros Hs He. revert st.
  induction busy as [| [bs be] rest IH]; intros st; simpl; [eauto|].
  destruct (dt_lt (current_time st) bs).
  - destruct (candidate_total wh wsh weh (current_time st)
                (dt_min bs range_end) Hs He) as [c ->].
    simpl. destruct c as [[gs ge] |]; apply IH.
  - simpl. apply IH.
Qed.

Lemma last_gap_total range_end m wh wsh weh st :
  0 <= wsh <= 23 -> 0 <= weh <= 23 ->
  exists gs, last_gap range_end m wh wsh weh st = Ok gs.
Proof.
  intros Hs He. unfold last_gap.
  destruct (dt_lt (current_time st) range_end); [|eauto].
  destruct (candidate_total wh wsh weh (current_time st) range_end Hs He)
    as [c ->].
  simpl. destruct c as [[gs ge] |]; eauto.
Qed.

(** C8: with [startHour] and [endHour] in 0..23 the function raises
    nothing: on every list of events, every pair of window texts, every
    minimum duration and either setting of the policy it returns a list. *)
Theorem find_free_slots_total events time_min time_max m wh wsh weh :
  0 <= wsh <= 23 -> 0 <= weh <= 23 ->
  exists slots, find_free_slots iso ymd events time_min time_max m wh wsh weh = Ok slots.
Proof.
  intros Hs He. unfold find_free_slots, free_gaps.
  destruct (iso (replace_Z time_min)) as [rs |]; [|simpl; eauto].
  destruct (iso (replace_Z time_max)) as [re |]; [|simpl; eauto].
  destruct (sweep_total (strip_tz re) m wh wsh weh
              (sort_by_start (busy_periods iso ymd events))
              (mk_state [] (strip_tz rs)) Hs He) as [st ->].
  simpl.
  destruct (last_gap_total (strip_tz re) m wh wsh weh st Hs He) as [gs ->].
  simpl. eauto.
Qed.

(** *** An empty calendar *)

Lemma dt_lt_same_date y mo d h1 mi1 s1 u1 t1 h2 mi2 s2 u2 t2 :
  dt_lt (mk_datetime y mo d h1 mi1 s1 u1 t1) (mk_datetime y mo d h2 mi2 s2 u2 t2)
  = lex_lt [h1; mi1; s1; u1] [h2; mi2; s2; u2].
Proof.
  unfold dt_lt, dt_fields. simpl. rewrite !Z.ltb_irrefl, !Z.eqb_refl.
  reflexivity.
Qed.

Lemma dt_sub_same_date y mo d h1 mi1 s1 u1 t1 h2 mi2 s2 u2 t2 :
  dt_sub (mk_datetime y mo d h2 mi2 s2 u2 t2) (mk_datetime y mo d h1 mi1 s1 u1 t1)
  = ((h2 - h1) * 3600 + (mi2 - mi1) * 60 + (s2 - s1)) * 1000000 + (u2 - u1).
Proof. unfold dt_sub, to_microseconds, seconds_of, toordinal. simpl. ring. Qed.


(** *** A whole day under the 9-17 policy *)

(** C9: a window from 00:00:00 to 23:59:59 of one day, no events, working
    hours 9 to 17 and a minimum of at most 480 minutes give exactly one
    slot, from 09:00 to 17:00 of that day, of 480 minutes. *)
Theorem find_free_slots_working_day time_min time_max y mo d tz1 tz2 m :
  iso (replace_Z time_min) = Some (mk_datetime y mo d 0 0 0 0 tz1) ->
  iso (replace_Z time_max) = Some (mk_datetime y mo d 23 59 59 0 tz2) ->
  m <= 480 ->
  find_free_slots iso ymd [] time_min time_max m true 9 17
  = Ok [mk_FreeSlot (strftime (mk_datetime y mo d 9 0 0 0 None))
          (strftime (mk_datetime y mo d 17 0 0 0 None)) 480].
Proof.
  intros Hs He Hm. unfold find_free_slots, free_gaps.
  rewrite Hs, He. simpl. unfold last_gap, strip_tz. simpl.
  assert (Hlt : forall t1 t2,
    dt_lt (mk_datetime y mo d 0 0 0 0 t1) (mk_datetime y mo d 23 59 59 0 t2)
    = true) by (intros; rewrite dt_lt_same_date; reflexivity).
  assert (E : forall t1 t2,
    emit (mk_datetime y mo d 9 0 0 0 t1) (mk_datetime y mo d 17 0 0 0 t2) m
    = [mk_gap (mk_datetime y mo d 9 0 0 0 t1) (mk_datetime y mo d 17 0 0 0 t2) 480]).
  { intros. unfold emit, minutes_between.
    rewrite dt_lt_same_date, dt_sub_same_date.
    change (lex_lt [9; 0; 0; 0] [17; 0; 0; 0]) with true.
    replace (timedelta_minutes
               (((17 - 9) * 3600 + (0 - 0) * 60 + (0 - 0)) * 1000000 + (0 - 0)))
      with 480 by (vm_compute; reflexivity).
    cbv beta iota zeta. apply Z.leb_le in Hm. rewrite Hm. reflexivity. }
  destruct tz1, tz2; unfold replace_tzinfo_None; simpl;
    rewrite Hlt; simpl; rewrite E; reflexivity.
Qed.

(** *** The duration filter *)

Lemma emit_restrict gs ge m1 m2 :
  m1 <= m2 ->
  emit gs ge m2 = List.filter (long_enough m2) (emit gs ge m1).
Proof.
  intros H. unfold emit, long_enough.
  destruct (dt_lt gs ge); [|reflexivity].
  cbv zeta.
  destruct (m1 <=? minutes_between gs ge) eqn:E1;
    destruct (m2 <=? minutes_between gs ge) eqn:E2; simpl;
    rewrite ?E2; try reflexivity.
  apply Z.leb_le in E2. apply Z.leb_gt in E1. lia.
Qed.

Lemma sweep_step_restrict range_end wh wsh weh m1 m2 st busy :
  m1 <= m2 ->
  sweep_step range_end m2 wh wsh weh (restrict m2 st) busy
  = rmap (restrict m2) (sweep_step range_end m1 wh wsh weh st busy).
Proof.
  intros H. destruct busy as [bs be]. unfold sweep_step. simpl.
  destruct (dt_lt (current_time st) bs); [|reflexivity].
  destruct (candidate wh wsh weh (current_time st) (dt_min bs range_end))
    as [[[gs ge] |] | e]; simpl; try reflexivity.
  unfold restrict. simpl.
  rewrite List.filter_app, <- (emit_restrict gs ge m1 m2 H). reflexivity.
Qed.

Lemma sweep_restrict range_end wh wsh weh m1 m2 busy st :
  m1 <= m2 ->
  sweep range_end m2 wh wsh weh busy (restrict m2 st)
  = rmap (restrict m2) (sweep range_end m1 wh wsh weh busy st).
Proof.
  intros H. revert st. induction busy as [| b rest IH]; intros st; simpl.
  - reflexivity.
  - rewrite (sweep_step_restrict _ _ _ _ m1 m2 _ _ H).
    destruct (sweep_step range_end m1 wh wsh weh st b) as [st' | e]; simpl.
    + apply IH.
    + reflexivity.
Qed.

Lemma last_gap_restrict range_end wh wsh weh m1 m2 st :
  m1 <= m2 ->
  last_gap range_end m2 wh wsh weh (restrict m2 st)
  = rmap (List.filter (long_enough m2)) (last_gap range_end m1 wh wsh weh st).
Proof.
  intros H. unfold last_gap. simpl.
  destruct (dt_lt (current_time st) range_end); [|reflexivity].
  destruct (candidate wh wsh weh (current_time st) range_end)
    as [[[gs ge] |] | e]; simpl; try reflexivity.
  rewrite List.filter_app, <- (emit_restrict gs ge m1 m2 H). reflexivity.
Qed.

Lemma free_gaps_restrict events time_min time_max wh wsh weh m1 m2 :
  m1 <= m2 ->
  free_gaps iso ymd events time_min time_max m2 wh wsh weh
  = rmap (List.filter (long_enough m2))
      (free_gaps iso ymd events time_min time_max m1 wh wsh weh).
Proof.
  intros H. unfold free_gaps.
  destruct (iso (replace_Z time_min)) as [rs |]; [|reflexivity].
  destruct (iso (replace_Z time_max)) as [re |]; [|reflexivity].
  change (mk_state [] (strip_tz rs))
    with (restrict m2 (mk_state [] (strip_tz rs))) at 1.
  rewrite (sweep_restrict _ _ _ _ m1 m2 _ _ H).
  destruct (sweep (strip_tz re) m1 wh wsh weh
              (sort_by_start (busy_periods iso ymd events))
              (mk_state [] (strip_tz rs))) as [st | e]; simpl.
  - apply (last_gap_restrict _ _ _ _ m1 m2 _ H).
  - reflexivity.
Qed.

Lemma filter_slot_of_gap m gs :
  map slot_of_gap (List.filter (long_enough m) gs)
  = List.filter (fun s => m <=? duration_minutes s) (map slot_of_gap gs).
Proof.
  induction gs as [| g gs IH]; simpl; [reflexivity|].
  unfold long_enough at 1. destruct (m <=? duration g); simpl; congruence.
Qed.

(** C4: for [m1 <= m2] the result with minimum [m2] is the result with
    minimum [m1] from which the slots shorter than [m2] are removed, the
    others being kept as they are and in the same order; and no returned
    slot is shorter than the minimum that was asked for. *)
Theorem find_free_slots_min_duration events time_min time_max wh wsh weh m1 m2 :
  m1 <= m2 ->
  find_free_slots iso ymd events time_min time_max m2 wh wsh weh
  = rmap (List.filter (fun s => m2 <=? duration_minutes s))
      (find_free_slots iso ymd events time_min time_max m1 wh wsh weh)
  /\ (forall m slots,
        find_free_slots iso ymd events time_min time_max m wh wsh weh = Ok slots ->
        Forall (fun s => m <= duration_minutes s) slots).
Proof.
  intros H.
  assert (Eq : forall a b, a <= b ->
    find_free_slots iso ymd events time_min time_max b wh wsh weh
    = rmap (List.filter (fun s => b <=? duration_minutes s))
        (find_free_slots iso ymd events time_min time_max a wh wsh weh)).
  { intros a b Hab. unfold find_free_slots.
    rewrite (free_gaps_restrict _ _ _ _ _ _ a b Hab).
    destruct (free_gaps iso ymd events time_min time_max a wh wsh weh)
      as [gs | e]; simpl; [|reflexivity].
    rewrite filter_slot_of_gap. reflexivity. }
  split; [apply Eq, H|].
  intros m slots Hm. specialize (Eq m m (Z.le_refl m)).
  rewrite Hm in Eq. simpl in Eq. injection Eq as Eq.
  apply List.Forall_forall. intros s Hin. rewrite Eq in Hin.
  apply List.filter_In in Hin as [_ Hin]. now apply Z.leb_le.
Qed.

(** *** Malformed records *)

Lemma boundary_missing_no_time o :
  boundary_missing o -> get_event_time o = "".
Proof.
  destruct o as [m |]; simpl; [|reflexivity].
  intros [Hdt Hd]. destruct (decide (m = ∅)); [reflexivity|].
  unfold or_else. destruct Hdt as [-> | ->], Hd as [-> | ->]; reflexivity.
Qed.

Lemma malformed_skipped ev :
  malformed iso ymd ev -> busy_period iso ymd ev = None.
Proof.
  unfold malformed, unparseable, busy_period.
  intros [H | [H | [[Hi Hy] | [Hi Hy]]]].
  - rewrite (boundary_missing_no_time _ H). reflexivity.
  - rewrite (boundary_missing_no_time _ H). simpl. rewrite orb_true_r.
    reflexivity.
  - rewrite Hi, Hy.
    destruct (negb _ || negb _); [reflexivity|].
    destruct (negb (contains_T _)); reflexivity.
  - rewrite Hi, Hy.
    destruct (negb _ || negb _); [reflexivity|].
    destruct (negb (contains_T _)).
    + destruct (ymd (get_event_time (ev !! "start"))); reflexivity.
    + destruct (iso (replace_Z (get_event_time (ev !! "start")))); reflexivity.
Qed.

Lemma busy_periods_skip l1 r l2 :
  busy_period iso ymd r = None ->
  busy_periods iso ymd (l1 ++ r :: l2) = busy_periods iso ymd (l1 ++ l2).
Proof.
  intros H. unfold busy_periods. rewrite !omap_app. simpl. rewrite H.
  reflexivity.
Qed.

(** C7: a malformed record (a missing start or end, or a start or end
    text that does not parse) inserted anywhere in a list of events does
    not change the result. *)
Theorem find_free_slots_malformed_record l1 r l2 time_min time_max m wh wsh weh :
  malformed iso ymd r ->
  find_free_slots iso ymd (l1 ++ r :: l2) time_min time_max m wh wsh weh
  = find_free_slots iso ymd (l1 ++ l2) time_min time_max m wh wsh weh.
Proof.
  intros H. unfold find_free_slots, free_gaps.
  rewrite (busy_periods_skip l1 r l2 (malformed_skipped r H)). reflexivity.
Qed.

(** *** The duration of a slot *)

(** C5, amended: for a candidate whose end is after its start, and whose
    ends carry the same fraction of a second or are less than 2^26 minutes
    apart, the recorded [duration_minutes] is the length of the gap in
    minutes rounded down (the whole minutes it contains, not the nearest
    integer), and the slot is appended if and only if that number is at
    least the minimum.  (For a longer gap with a fraction of a second the
    two float divisions of lines 249 and 280 can give one minute more:
    [long_gap_gains_a_minute].) *)
Theorem emit_whole_minutes gs ge m :
  dt_valid gs = true -> dt_valid ge = true -> dt_lt gs ge = true ->
  microsecond gs = microsecond ge \/ dt_sub ge gs < 2 ^ 26 * 60000000 ->
  let d := dt_sub ge gs / 60000000 in
  0 <= d
  /\ d * 60000000 <= dt_sub ge gs < (d + 1) * 60000000
  /\ (m <= d -> emit gs ge m = [mk_gap gs ge d])
  /\ (d < m -> emit gs ge m = []).
Proof.
  intros Vs Ve Hlt Hex d.
  assert (Hpos : 0 < dt_sub ge gs).
  { apply dt_lt_iff in Hlt; auto. unfold dt_sub. lia. }
  assert (Hq : minutes_between gs ge = d).
  { apply minutes_between_floor; auto. unfold dt_sub in Hpos. lia. }
  unfold emit. rewrite Hlt, Hq. cbv zeta.
  repeat split; try (subst d; lia).
  - intros Hm. apply Z.leb_le in Hm. rewrite Hm. reflexivity.
  - intros Hm. apply Z.leb_gt in Hm. rewrite Hm. reflexivity.
Qed.

(** *** Validity of the parsed values *)

(** Every [datetime] object satisfies the invariant of its constructor. *)
Hypothesis iso_valid : forall s d, iso s = Some d -> dt_valid d = true.
Hypothesis ymd_valid : forall s d, ymd s = Some d -> dt_valid d = true.

Lemma busy_period_valid ev b :
  busy_period iso ymd ev = Some b -> busy_valid b.
Proof.
  unfold busy_period, busy_valid.
  destruct (negb _ || negb _); [discriminate|].
  destruct (negb (contains_T _)).
  - destruct (ymd (get_event_time (ev !! "start"))) as [s |] eqn:Es; [|discriminate].
    destruct (ymd (get_event_time (ev !! "end"))) as [e |] eqn:Ee; [|discriminate].
    intros [= <-]. simpl. rewrite !strip_tz_valid. eauto.
  - destruct (iso (replace_Z (get_event_time (ev !! "start")))) as [s |] eqn:Es;
      [|discriminate].
    destruct (iso (replace_Z (get_event_time (ev !! "end")))) as [e |] eqn:Ee;
      [|discriminate].
    intros [= <-]. simpl. rewrite !strip_tz_valid. eauto.
Qed.

Lemma busy_periods_valid events :
  Forall busy_valid (busy_periods iso ymd events).
Proof.
  unfold busy_periods. induction events as [| ev rest IH]; simpl.
  - constructor.
  - destruct (busy_period iso ymd ev) as [b |] eqn:E; simpl; auto.
    constructor; eauto using busy_period_valid.
Qed.

(** *** Order of the result *)

Lemma free_gaps_sorted events time_min time_max m wh wsh weh gs :
  free_gaps iso ymd events time_min time_max m wh wsh weh = Ok gs ->
  Forall (fun g => dt_valid (gap_start g) = true) gs
  /\ StronglySorted starts_le gs.
Proof.
  unfold free_gaps.
  destruct (iso (replace_Z time_min)) as [rs |] eqn:Es;
    [|intros [= <-]; split; constructor].
  destruct (iso (replace_Z time_max)) as [re |] eqn:Ee;
    [|intros [= <-]; split; constructor].
  destruct (sweep (strip_tz re) m wh wsh weh
              (sort_by_start (busy_periods iso ymd events))
              (mk_state [] (strip_tz rs))) as [st | e] eqn:S;
    simpl; [|discriminate].
  apply last_gap_sorted.
  eapply sweep_sorted_preserved; [| |exact S].
  - apply sort_by_start_Forall, busy_periods_valid.
  - unfold sweep_sorted; simpl. rewrite strip_tz_valid.
    repeat split; eauto; constructor.
Qed.

(** C3: the slots are returned in chronological order of their [start]:
    the start of a slot is never later than the start of any slot that
    follows it in the list. *)
Theorem find_free_slots_chronological events time_min time_max m wh wsh weh slots :
  find_free_slots iso ymd events time_min time_max m wh wsh weh = Ok slots ->
  StronglySorted (fun a b => chrono_le (slot_start a) (slot_start b)) slots.
Proof.
  unfold find_free_slots. intros H.
  apply rmap_Ok in H as (gs & Hgs & ->).
  apply free_gaps_sorted in Hgs as [Hv Hs].
  induction Hs as [| g gs Hs IH Hg]; simpl; [constructor|].
  inversion Hv as [| ? ? Vg Vgs]; subst.
  constructor; [apply IH; assumption|].
  apply List.Forall_forall. intros s Hin.
  apply List.in_map_iff in Hin as (g' & <- & Hin).
  rewrite List.Forall_forall in Hg, Vgs.
  exists (gap_start g), (gap_start g'). simpl.
  repeat split; auto. apply (Hg g' Hin).
Qed.

(** *** Slots and the window *)



(** *** Overlapping events *)

Lemma busy_period_naive ev b :
  busy_period iso ymd ev = Some b -> tzinfo (fst b) = None /\ tzinfo (snd b) = None.
Proof.
  unfold busy_period.
  destruct (negb _ || negb _); [discriminate|].
  destruct (if negb (contains_T _) then _ else _) as [[s e] |];
    [|discriminate].
  intros [= <-]. simpl. auto using strip_tz_naive.
Qed.

(** X22.  C2 when the working-hours policy is disabled: two events whose busy
    periods overlap give the same result as one event whose busy period is
    their union. *)
Lemma overlap_merge_without_working_hours
    ev1 ev2 evu s1 e1 s2 e2 time_min time_max m wsh weh :
  busy_period iso ymd ev1 = Some (s1, e1) ->
  busy_period iso ymd ev2 = Some (s2, e2) ->
  busy_period iso ymd evu = Some (dt_min s1 s2, dt_max e1 e2) ->
  dt_lt e2 s1 = false -> dt_lt e1 s2 = false ->
  find_free_slots iso ymd [ev1; ev2] time_min time_max m false wsh weh
  = find_free_slots iso ymd [evu] time_min time_max m false wsh weh.
Proof.
  intros B1 B2 Bu O1 O2.
  destruct (busy_period_valid _ _ B1) as [Vs1 Ve1].
  destruct (busy_period_valid _ _ B2) as [Vs2 Ve2].
  destruct (busy_period_naive _ _ B1) as [_ N1].
  destruct (busy_period_naive _ _ B2) as [_ N2].
  simpl in *.
  apply dt_lt_false_iff in O1; auto. apply dt_lt_false_iff in O2; auto.
  unfold find_free_slots, free_gaps, busy_periods. simpl.
  rewrite B1, B2, Bu. simpl.
  destruct (iso (replace_Z time_min)) as [rs |] eqn:Es; [|reflexivity].
  destruct (iso (replace_Z time_max)) as [re |] eqn:Ee; [|reflexivity].
  assert (Vrs : dt_valid (strip_tz rs) = true)
    by (rewrite strip_tz_valid; eauto).
  assert (Hsweep :
    sweep (strip_tz re) m false wsh weh
      (if dt_lt s2 s1 then [(s2, e2); (s1, e1)] else [(s1, e1); (s2, e2)])
      (mk_state [] (strip_tz rs))
    = sweep (strip_tz re) m false wsh weh [(dt_min s1 s2, dt_max e1 e2)]
        (mk_state [] (strip_tz rs))).
  { unfold dt_min. destruct (dt_lt s2 s1) eqn:E.
    - apply dt_lt_iff in E; auto.
      rewrite (dt_max_comm e1 e2) by auto.
      apply sweep_merge; simpl; auto using strip_tz_naive;
        try (split; assumption).
    - apply sweep_merge; simpl; auto using strip_tz_naive;
        try (split; assumption). }
  destruct (dt_lt s2 s1); rewrite Hsweep; reflexivity.
Qed.

End Properties.

(** ** The reference parsers *)

Lemma rfc3339_checked_valid d d' :
  Rfc3339.checked d = Some d' -> dt_valid d' = true.
Proof.
  unfold Rfc3339.checked. destruct (dt_valid d) eqn:E; [|discriminate].
  intros [= <-]. exact E.
Qed.

Lemma rfc3339_strptime_ymd_valid s d :
  Rfc3339.strptime_ymd s = Some d -> dt_valid d = true.
Proof.
  unfold Rfc3339.strptime_ymd.
  destruct (Nat.eqb _ _); [|discriminate].
  destruct (Rfc3339.parse_date s) as [[[y m] d0] |]; simpl; [|discriminate].
  apply rfc3339_checked_valid.
Qed.

Lemma rfc3339_fromisoformat_valid s d :
  Rfc3339.fromisoformat s = Some d -> dt_valid d = true.
Proof.
  unfold Rfc3339.fromisoformat.
  destruct (Nat.eqb _ _); [apply rfc3339_strptime_ymd_valid|].
  destruct (_ && _); [|discriminate].
  destruct (Rfc3339.parse_date s) as [[[y m] d0] |]; simpl; [|discriminate].
  destruct (Rfc3339.field s 11 2); simpl; [|discriminate].
  destruct (Rfc3339.field s 14 2); simpl; [|discriminate].
  destruct (Rfc3339.field s 17 2); simpl; [|discriminate].
  destruct (Rfc3339.parse_offset _); simpl; [|discriminate].
  apply rfc3339_checked_valid.
Qed.

(** ** The repository's tests (tests/test_calendar_utils.py, lines 317-417) *)

Example test_find_free_slots_no_events :
  Rfc3339.find_free_slots [] "2024-01-15T09:00:00Z" "2024-01-15T17:00:00Z"
    30 false 9 17
  = Ok [mk_FreeSlot "2024-01-15T09:00:00Z" "2024-01-15T17:00:00Z" 480].
Proof. vm_compute. reflexivity. Qed.

Example test_find_free_slots_with_event :
  Rfc3339.find_free_slots
    [timed_event "2024-01-15T12:00:00Z" "2024-01-15T13:00:00Z"]
    "2024-01-15T09:00:00Z" "2024-01-15T17:00:00Z" 30 false 9 17
  = Ok [mk_FreeSlot "2024-01-15T09:00:00Z" "2024-01-15T12:00:00Z" 180;
        mk_FreeSlot "2024-01-15T13:00:00Z" "2024-01-15T17:00:00Z" 240].
Proof. vm_compute. reflexivity. Qed.

Example test_find_free_slots_min_duration_filter :
  Rfc3339.find_free_slots
    [timed_event "2024-01-15T10:00:00Z" "2024-01-15T10:15:00Z"]
    "2024-01-15T09:00:00Z" "2024-01-15T11:00:00Z" 60 false 9 17
  = Ok [mk_FreeSlot "2024-01-15T09:00:00Z" "2024-01-15T10:00:00Z" 60].
Proof. vm_compute. reflexivity. Qed.

Example test_find_free_slots_all_day_event :
  Rfc3339.find_free_slots [all_day_event "2024-01-15" "2024-01-16"]
    "2024-01-15T09:00:00Z" "2024-01-15T17:00:00Z" 30 false 9 17
  = Ok [].
Proof. vm_compute. reflexivity. Qed.

(** ** Inputs on which the code and the specification part *)


(** C5, as stated, fails: a gap of 100 seconds is recorded as 1 minute,
    which is not the nearest number of minutes (2 is); and with a minimum
    of 2 minutes the gap is not returned although its rounded length is 2. *)
Lemma duration_is_not_rounded :
  let gs := mk_datetime 2024 1 15 9 0 0 0 None in
  let ge := mk_datetime 2024 1 15 9 1 40 0 None in
  Rfc3339.free_gaps [] "2024-01-15T09:00:00Z" "2024-01-15T09:01:40Z"
    1 false 9 17 = Ok [mk_gap gs ge 1]
  /\ dt_sub ge gs = 100000000
  /\ ~ nearest_minute (dt_sub ge gs) 1
  /\ nearest_minute (dt_sub ge gs) 2
  /\ Rfc3339.free_gaps [] "2024-01-15T09:00:00Z" "2024-01-15T09:01:40Z"
       2 false 9 17 = Ok [].
Proof.
  cbv zeta. repeat split; try (vm_compute; reflexivity).
  - unfold nearest_minute. vm_compute. intros H. apply H. reflexivity.
  - unfold nearest_minute. vm_compute. discriminate.
Qed.

(** C1, as stated, fails for a second reason: the UTC offsets of the
    boundaries are dropped, not applied.  A window from 09:00+00:00 to
    08:00-05:00 ends 240 minutes after it starts and yields no slot, and a
    window from 09:00+05:00 to 17:00Z lasts 780 minutes and yields a slot
    of 480. *)
Lemma window_offsets_are_dropped :
  let rs := mk_datetime 2024 1 15 9 0 0 0 (Some 0) in
  let re := mk_datetime 2024 1 15 8 0 0 0 (Some (-300)) in
  let rs' := mk_datetime 2024 1 15 9 0 0 0 (Some 300) in
  let re' := mk_datetime 2024 1 15 17 0 0 0 (Some 0) in
  Rfc3339.fromisoformat (replace_Z "2024-01-15T09:00:00+00:00") = Some rs
  /\ Rfc3339.fromisoformat (replace_Z "2024-01-15T08:00:00-05:00") = Some re
  /\ dt_sub_aware re rs = Some (240 * 60000000)
  /\ Rfc3339.find_free_slots [] "2024-01-15T09:00:00+00:00"
       "2024-01-15T08:00:00-05:00" 0 false 9 17 = Ok []
  /\ Rfc3339.fromisoformat (replace_Z "2024-01-15T09:00:00+05:00") = Some rs'
  /\ Rfc3339.fromisoformat (replace_Z "2024-01-15T17:00:00Z") = Some re'
  /\ dt_sub_aware re' rs' = Some (780 * 60000000)
  /\ Rfc3339.find_free_slots [] "2024-01-15T09:00:00+05:00"
       "2024-01-15T17:00:00Z" 0 false 9 17
     = Ok [mk_FreeSlot "2024-01-15T09:00:00Z" "2024-01-15T17:00:00Z" 480].
Proof. cbv zeta. repeat split; vm_compute; reflexivity. Qed.

(** The hypothesis of C5 on long gaps is needed: from one microsecond
    after midnight of 1400-01-01 to midnight of 2024-01-01 there are
    328191839 whole minutes and 59.999999 seconds; [total_seconds()]
    rounds to 19691510400.0 and the recorded duration is 328191840, so
    that the slot passes a minimum of 328191840 minutes. *)
Lemma long_gap_gains_a_minute :
  let gs := mk_datetime 1400 1 1 0 0 0 1 None in
  let ge := mk_datetime 2024 1 1 0 0 0 0 None in
  dt_sub ge gs = 19691510399999999
  /\ dt_sub ge gs / 60000000 = 328191839
  /\ total_seconds (dt_sub ge gs) = mk_float 5162011302297600 (-18)
  /\ int_of_float (total_seconds (dt_sub ge gs)) = 19691510400
  /\ minutes_between gs ge = 328191840
  /\ emit gs ge 328191840 = [mk_gap gs ge 328191840].
Proof. cbv zeta. repeat split; vm_compute; reflexivity. Qed.

(** The rounding of [true_divide] on quotients whose binary64 value is
    known: 1/10 is 0x1.999999999999ap-4, 1/3 is 0x1.5555555555555p-2 and
    100/60 is 0x1.aaaaaaaaaaaabp+0 ([float.hex] in CPython). *)
Lemma true_divide_known_values :
  true_divide 1 10 = mk_float 7205759403792794 (-56)
  /\ true_divide 1 3 = mk_float 6004799503160661 (-54)
  /\ true_divide 100 60 = mk_float 7505999378950827 (-52)
  /\ true_divide (-1) 10 = mk_float (-7205759403792794) (-56).
Proof. repeat split; vm_compute; reflexivity. Qed.

(** C2 on the code: with working hours 9-17 and a window over the whole
    day, the overlapping events 08:00-12:00 and 10:00-13:00 give the slots
    09:00-10:00 and 13:00-17:00, while their union 08:00-13:00 gives the
    single slot 09:00-17:00. *)
Theorem overlapping_events_differ_from_union :
  Rfc3339.find_free_slots
    [timed_event "2024-01-15T08:00:00Z" "2024-01-15T12:00:00Z";
     timed_event "2024-01-15T10:00:00Z" "2024-01-15T13:00:00Z"]
    "2024-01-15T00:00:00Z" "2024-01-15T23:59:59Z" 30 true 9 17
  = Ok [mk_FreeSlot "2024-01-15T09:00:00Z" "2024-01-15T10:00:00Z" 60;
        mk_FreeSlot "2024-01-15T13:00:00Z" "2024-01-15T17:00:00Z" 240]
  /\ Rfc3339.find_free_slots
       [timed_event "2024-01-15T08:00:00Z" "2024-01-15T13:00:00Z"]
       "2024-01-15T00:00:00Z" "2024-01-15T23:59:59Z" 30 true 9 17
     = Ok [mk_FreeSlot "2024-01-15T09:00:00Z" "2024-01-15T17:00:00Z" 480].
Proof. split; vm_compute; reflexivity. Qed.

(** C10 on the code: with working hours 9-17 and a window over the whole
    day, the single event 08:00-13:00 gives the slot 09:00-17:00, which
    contains the hours 09:00-13:00 of the event. *)
Theorem slot_overlaps_busy_period :
  let busy := (mk_datetime 2024 1 15 8 0 0 0 None,
               mk_datetime 2024 1 15 13 0 0 0 None) in
  let g := mk_gap (mk_datetime 2024 1 15 9 0 0 0 None)
             (mk_datetime 2024 1 15 17 0 0 0 None) 480 in
  busy_periods Rfc3339.fromisoformat Rfc3339.strptime_ymd
    [timed_event "2024-01-15T08:00:00Z" "2024-01-15T13:00:00Z"] = [busy]
  /\ Rfc3339.free_gaps
       [timed_event "2024-01-15T08:00:00Z" "2024-01-15T13:00:00Z"]
       "2024-01-15T00:00:00Z" "2024-01-15T23:59:59Z" 30 true 9 17 = Ok [g]
  /\ overlaps g busy = true.
Proof. cbv zeta. repeat split; vm_compute; reflexivity. Qed.

(** ** The theorems at the inputs of the tests *)


Lemma find_free_slots_chronological_witness :
  StronglySorted (fun a b => chrono_le (slot_start a) (slot_start b))
    [mk_FreeSlot "2024-01-15T09:00:00Z" "2024-01-15T12:00:00Z" 180;
     mk_FreeSlot "2024-01-15T13:00:00Z" "2024-01-15T17:00:00Z" 240].
Proof.
  apply (find_free_slots_chronological Rfc3339.fromisoformat
           Rfc3339.strptime_ymd rfc3339_fromisoformat_valid
           rfc3339_strptime_ymd_valid
           [timed_event "2024-01-15T12:00:00Z" "2024-01-15T13:00:00Z"]
           "2024-01-15T09:00:00Z" "2024-01-15T17:00:00Z" 30 false 9 17).
  vm_compute. reflexivity.
Defined.

Lemma find_free_slots_min_duration_witness :
  30 <= 60
  /\ Rfc3339.find_free_slots
       [timed_event "2024-01-15T10:00:00Z" "2024-01-15T10:15:00Z"]
       "2024-01-15T09:00:00Z" "2024-01-15T11:00:00Z" 60 false 9 17
     = rmap (List.filter (fun s => 60 <=? duration_minutes s))
         (Rfc3339.find_free_slots
            [timed_event "2024-01-15T10:00:00Z" "2024-01-15T10:15:00Z"]
            "2024-01-15T09:00:00Z" "2024-01-15T11:00:00Z" 30 false 9 17).
Proof.
  assert (H : 30 <= 60) by lia.
  split; [exact H|].
  exact (proj1 (find_free_slots_min_duration Rfc3339.fromisoformat
                  Rfc3339.strptime_ymd
                  [timed_event "2024-01-15T10:00:00Z" "2024-01-15T10:15:00Z"]
                  "2024-01-15T09:00:00Z" "2024-01-15T11:00:00Z" false 9 17
                  30 60 H)).
Defined.

Lemma emit_whole_minutes_witness :
  let gs := mk_datetime 2024 1 15 9 0 0 0 None in
  let ge := mk_datetime 2024 1 15 9 1 40 0 None in
  emit gs ge 1 = [mk_gap gs ge 1] /\ emit gs ge 2 = [].
Proof.
  intros gs ge.
  assert (Vs : dt_valid gs = true) by (vm_compute; reflexivity).
  assert (Ve : dt_valid ge = true) by (vm_compute; reflexivity).
  assert (Hlt : dt_lt gs ge = true) by (vm_compute; reflexivity).
  assert (Hex : microsecond gs = microsecond ge
                \/ dt_sub ge gs < 2 ^ 26 * 60000000) by (left; reflexivity).
  destruct (emit_whole_minutes gs ge 1 Vs Ve Hlt Hex) as (_ & _ & H1 & _).
  destruct (emit_whole_minutes gs ge 2 Vs Ve Hlt Hex) as (_ & _ & _ & H2).
  split.
  - apply H1. vm_compute. discriminate.
  - apply H2. vm_compute. reflexivity.
Defined.

Lemma find_free_slots_bad_window_witness :
  Rfc3339.fromisoformat (replace_Z "invalid") = None
  /\ Rfc3339.find_free_slots
       [timed_event "2024-01-15T12:00:00Z" "2024-01-15T13:00:00Z"]
       "invalid" "invalid" 30 true 9 17 = Ok [].
Proof.
  assert (H : Rfc3339.fromisoformat (replace_Z "invalid") = None)
    by (vm_compute; reflexivity).
  split; [exact H|].
  apply (find_free_slots_bad_window Rfc3339.fromisoformat Rfc3339.strptime_ymd).
  left. exact H.
Defined.

Lemma find_free_slots_malformed_record_witness :
  let good := timed_event "2024-01-15T12:00:00Z" "2024-01-15T13:00:00Z" in
  let no_end : event := {[ "start" := {[ "dateTime" := "2024-01-15T10:00:00Z" ]} ]} in
  let bad_text := timed_event "2024-01-15T10:00:00Z" "soon" in
  Rfc3339.find_free_slots [no_end; good]
    "2024-01-15T09:00:00Z" "2024-01-15T17:00:00Z" 30 false 9 17
  = Rfc3339.find_free_slots [good]
      "2024-01-15T09:00:00Z" "2024-01-15T17:00:00Z" 30 false 9 17
  /\ Rfc3339.find_free_slots [good; bad_text]
       "2024-01-15T09:00:00Z" "2024-01-15T17:00:00Z" 30 false 9 17
     = Rfc3339.find_free_slots [good]
         "2024-01-15T09:00:00Z" "2024-01-15T17:00:00Z" 30 false 9 17.
Proof.
  intros good no_end bad_text. split.
  - apply (find_free_slots_malformed_record Rfc3339.fromisoformat
             Rfc3339.strptime_ymd [] no_end [good]).
    right. left. vm_compute. exact I.
  - apply (find_free_slots_malformed_record Rfc3339.fromisoformat
             Rfc3339.strptime_ymd [good] bad_text []).
    right. right. right. vm_compute. split; reflexivity.
Defined.

Lemma find_free_slots_total_witness :
  exists slots,
    Rfc3339.find_free_slots
      [timed_event "2024-01-15T12:00:00Z" "2024-01-15T13:00:00Z"]
      "2024-01-15T00:00:00Z" "2024-01-15T23:59:59Z" 30 true 9 17 = Ok slots.
Proof.
  apply (find_free_slots_total Rfc3339.fromisoformat Rfc3339.strptime_ymd);
    lia.
Defined.

Lemma find_free_slots_working_day_witness :
  Rfc3339.find_free_slots [] "2024-01-15T00:00:00Z" "2024-01-15T23:59:59Z"
    30 true 9 17
  = Ok [mk_FreeSlot "2024-01-15T09:00:00Z" "2024-01-15T17:00:00Z" 480].
Proof.
  apply (find_free_slots_working_day Rfc3339.fromisoformat Rfc3339.strptime_ymd
           "2024-01-15T00:00:00Z" "2024-01-15T23:59:59Z" 2024 1 15
           (Some 0) (Some 0) 30).
  - vm_compute. reflexivity.
  - vm_compute. reflexivity.
  - lia.
Defined.

(** The overlapping events of the example above, with working hours
    disabled, give the result of their union. *)
Example overlap_merge_example :
  Rfc3339.find_free_slots
    [timed_event "2024-01-15T08:00:00Z" "2024-01-15T12:00:00Z";
     timed_event "2024-01-15T10:00:00Z" "2024-01-15T13:00:00Z"]
    "2024-01-15T00:00:00Z" "2024-01-15T23:59:59Z" 30 false 9 17
  = Rfc3339.find_free_slots
      [timed_event "2024-01-15T08:00:00Z" "2024-01-15T13:00:00Z"]
      "2024-01-15T00:00:00Z" "2024-01-15T23:59:59Z" 30 false 9 17.
Proof.
  apply (overlap_merge_without_working_hours Rfc3339.fromisoformat
           Rfc3339.strptime_ymd rfc3339_fromisoformat_valid
           rfc3339_strptime_ymd_valid _ _ _
           (mk_datetime 2024 1 15 8 0 0 0 None)
           (mk_datetime 2024 1 15 12 0 0 0 None)
           (mk_datetime 2024 1 15 10 0 0 0 None)
           (mk_datetime 2024 1 15 13 0 0 0 None));
    vm_compute; reflexivity.
Defined.

(** * Properties of the other functions of [calendar_utils.py] *)

(** ** Texts *)

Lemma contains_T_truthy s : contains_T s = true -> str_truthy s = true.
Proof. destruct s; simpl; [discriminate | reflexivity]. Qed.

Lemma str_truthy_false s : str_truthy s = false <-> s = "".
Proof. destruct s; simpl; split; congruence. Qed.

Lemma string_app_assoc (a b c : string) :
  ((a ++ b) ++ c = a ++ (b ++ c))%string.
Proof.
  induction a as [| x a IH]; [reflexivity|].
  change (String x ((a ++ b) ++ c) = String x (a ++ (b ++ c)))%string.
  now rewrite IH.
Qed.

Lemma string_app_length (a b : string) :
  String.length (a ++ b)%string = (String.length a + String.length b)%nat.
Proof.
  induction a as [| x a IH]; [reflexivity|].
  change (S (String.length (a ++ b)%string)
          = S (String.length a + String.length b)%nat).
  now rewrite IH.
Qed.

Lemma last_char_append s t :
  t <> "" -> last_char (s ++ t)%string = last_char t.
Proof.
  intros Ht. induction s as [| c s IH]; [reflexivity|].
  change (last_char (String c (s ++ t)%string) = last_char t).
  rewrite <- IH. destruct (s ++ t)%string eqn:E; [|reflexivity].
  destruct s; [contradiction | discriminate].
Qed.

Lemma last_char_Some_nonempty s c : last_char s = Some c -> s <> "".
Proof. destruct s; simpl; [discriminate | discriminate]. Qed.

Lemma last_char_append_Some s t c :
  last_char t = Some c -> last_char (s ++ t)%string = Some c.
Proof.
  intros H. rewrite last_char_append; [exact H|].
  eapply last_char_Some_nonempty; eauto.
Qed.

Lemma concat_app_nonempty sep (l1 l2 : list string) :
  l1 <> [] -> l2 <> [] ->
  String.concat sep (l1 ++ l2)
  = (String.concat sep l1 ++ sep ++ String.concat sep l2)%string.
Proof.
  intros H1 H2. induction l1 as [| a l1 IH]; [contradiction|].
  destruct l1 as [| b l1].
  - simpl. destruct l2 as [| c l2]; [contradiction | reflexivity].
  - change (String.concat sep ((a :: b :: l1) ++ l2))
      with (a ++ sep ++ String.concat sep ((b :: l1) ++ l2))%string.
    rewrite IH by discriminate.
    change (String.concat sep (a :: b :: l1))
      with (a ++ sep ++ String.concat sep (b :: l1))%string.
    rewrite !string_app_assoc. reflexivity.
Qed.

Lemma last_char_concat sep (l : list string) c :
  l <> [] -> Forall (fun s => last_char s = Some c) l ->
  last_char (String.concat sep l) = Some c.
Proof.
  intros Hl Hall. induction Hall as [| a l Ha Hall IH]; [contradiction|].
  destruct l as [| b l]; [exact Ha|].
  change (String.concat sep (a :: b :: l))
    with (a ++ (sep ++ String.concat sep (b :: l)))%string.
  assert (Hb : last_char (String.concat sep (b :: l)) = Some c)
    by (apply IH; discriminate).
  rewrite last_char_append.
  - rewrite last_char_append; [exact Hb|]. eapply last_char_Some_nonempty; eauto.
  - intros E. apply (f_equal last_char) in E.
    rewrite last_char_append in E
      by (eapply last_char_Some_nonempty; eauto).
    rewrite Hb in E. discriminate.
Qed.

(** ** Attendees *)

Lemma format_attendee_last a : last_char (format_attendee a) = Some ")"%char.
Proof.
  unfold format_attendee. cbv zeta.
  destruct (str_truthy _); repeat apply last_char_append_Some; reflexivity.
Qed.

(** X1: the placeholder "No attendees" is returned for an empty list and
    for no list only: the text of a list with at least one attendee ends
    with a closing parenthesis. *)
Theorem format_attendees_placeholder l :
  format_attendees (Some l) = "No attendees" <-> l = [].
Proof.
  split; [|intros ->; reflexivity].
  destruct l as [| a l]; [reflexivity|]. unfold format_attendees.
  intros H. apply (f_equal last_char) in H.
  rewrite (last_char_concat ", " (map format_attendee (a :: l)) ")"%char) in H.
  - discriminate.
  - discriminate.
  - apply List.Forall_forall. intros s Hin.
    apply List.in_map_iff in Hin as (x & <- & _). apply format_attendee_last.
Qed.

(** X2: the text of two lists of attendees put end to end is the two
    texts joined by a comma and a space, when neither list is empty. *)
Theorem format_attendees_app l1 l2 :
  l1 <> [] -> l2 <> [] ->
  format_attendees (Some (l1 ++ l2))
  = (format_attendees (Some l1) ++ ", " ++ format_attendees (Some l2))%string.
Proof.
  intros H1 H2. unfold format_attendees.
  destruct l1 as [| a l1]; [contradiction|].
  destruct l2 as [| b l2]; [contradiction|].
  change (String.concat ", " (map format_attendee ((a :: l1) ++ b :: l2))
          = (String.concat ", " (map format_attendee (a :: l1)) ++ ", "
             ++ String.concat ", " (map format_attendee (b :: l2)))%string).
  rewrite List.map_app. apply concat_app_nonempty; discriminate.
Qed.

(** X3: the name of an attendee is the empty text only for an attendee
    without a display name whose ["email"] entry is present and empty; an
    attendee with neither entry is named "Unknown". *)
Theorem parse_attendee_name_empty a :
  parse_attendee_name a = ""
  <-> truthy_entry a "displayName" = None /\ a !! "email" = Some "".
Proof.
  unfold parse_attendee_name, truthy_entry, get_or.
  destruct (a !! "displayName") as [n |].
  - destruct (str_truthy n) eqn:E.
    + split; [intros ->; discriminate | intros [[=] _]].
    + destruct (a !! "email") as [e |]; split;
        try (intros [_ [=]]; congruence); try discriminate;
        intros ->; auto.
  - destruct (a !! "email") as [e |]; split;
      try (intros [_ [=]]; congruence); try discriminate;
      intros ->; auto.
Qed.

(** ** Durations and display of event times *)

Lemma dt_sub_aware_swap a b :
  dt_sub_aware a b = Z.opp <$> dt_sub_aware b a.
Proof.
  unfold dt_sub_aware, dt_sub.
  destruct (tzinfo a), (tzinfo b); simpl; try reflexivity; f_equal; lia.
Qed.

Lemma month_name_nonempty m : month_name m <> "".
Proof. unfold month_name. repeat destruct (_ =? _); discriminate. Qed.

Lemma strftime_at_nonempty d : strftime_at d <> "".
Proof.
  unfold strftime_at. pose proof (month_name_nonempty (month d)).
  destruct (month_name (month d)); [contradiction | discriminate].
Qed.

Lemma strftime_all_day_nonempty d : strftime_all_day d <> "".
Proof.
  unfold strftime_all_day. pose proof (month_name_nonempty (month d)).
  destruct (month_name (month d)); [contradiction | discriminate].
Qed.

Lemma truthy_entry_nonempty m k s : truthy_entry m k = Some s -> s <> "".
Proof.
  unfold truthy_entry. destruct (m !! k) as [t |]; [|discriminate].
  destruct t; simpl; [discriminate|]. intros [= <-]. discriminate.
Qed.

(** [get_event_time] through [truthy_entry]. *)
Lemma get_event_time_entries m :
  get_event_time (Some m)
  = match truthy_entry m "dateTime" with
    | Some s => s
    | None => match truthy_entry m "date" with
              | Some s => s
              | None => ""
              end
    end.
Proof.
  unfold get_event_time, truthy_entry, or_else.
  destruct (decide (m = ∅)) as [-> | _]; [reflexivity|].
  destruct (m !! "dateTime") as [s |]; [destruct (str_truthy s)|];
    try reflexivity;
    destruct (m !! "date") as [t |]; try destruct (str_truthy t); reflexivity.
Qed.

Section UtilsProperties.
Variables iso ymd : string -> option datetime.

(** X4: without a time text [format_event_time] returns "No time
    specified"; a time text that neither parser accepts is returned as it
    is. *)
Theorem format_event_time_fallback o :
  (get_event_time o = "" -> format_event_time iso ymd o = "No time specified")
  /\ (get_event_time o <> "" -> unparseable iso ymd (get_event_time o) ->
      format_event_time iso ymd o = get_event_time o).
Proof.
  unfold format_event_time, unparseable.
  destruct o as [m |]; [|split; [reflexivity | intros []; reflexivity]].
  rewrite get_event_time_entries. simpl.
  destruct (bool_decide (m = ∅)) eqn:E; simpl.
  - apply bool_decide_eq_true in E. subst m. unfold truthy_entry.
    rewrite !lookup_empty. split; [reflexivity | intros []; reflexivity].
  - destruct (truthy_entry m "dateTime") as [s |] eqn:Edt.
    + split.
      * intros ->. apply truthy_entry_nonempty in Edt. contradiction.
      * intros _ [Hi _]. rewrite Hi. destruct (contains_T s); reflexivity.
    + destruct (truthy_entry m "date") as [s |] eqn:Ed.
      * split.
        -- intros ->. apply truthy_entry_nonempty in Ed. contradiction.
        -- intros _ [_ Hy]. rewrite Hy. reflexivity.
      * split; [reflexivity | intros []; reflexivity].
Qed.

(** X5: [format_event_time] never returns the empty text. *)
Theorem format_event_time_nonempty o : format_event_time iso ymd o <> "".
Proof.
  unfold format_event_time.
  destruct (negb (dict_truthy o)); [discriminate|].
  destruct o as [m |]; [|discriminate].
  destruct (truthy_entry m "dateTime") as [s |] eqn:Edt.
  - pose proof (truthy_entry_nonempty _ _ _ Edt).
    destruct (contains_T s); [|assumption].
    destruct (iso (replace_Z s)); [apply strftime_at_nonempty | assumption].
  - destruct (truthy_entry m "date") as [s |] eqn:Ed; [|discriminate].
    pose proof (truthy_entry_nonempty _ _ _ Ed).
    destruct (ymd s); [apply strftime_all_day_nonempty | assumption].
Qed.

(** X6: an event for which [get_event_duration_minutes] gives a number is
    an event [find_free_slots] counts as busy: its record is not among the
    skipped ones. *)
Theorem duration_implies_busy (ev : event) n :
  get_event_duration_minutes iso ymd (ev !! "start") (ev !! "end") = Some n ->
  exists b, busy_period iso ymd ev = Some b.
Proof.
  unfold get_event_duration_minutes, busy_period.
  destruct (negb (dict_truthy _) || negb (dict_truthy _)); [discriminate|].
  destruct (negb (str_truthy _) || negb (str_truthy _)); [discriminate|].
  destruct (contains_T (get_event_time (ev !! "start"))); simpl.
  - destruct (iso (replace_Z (get_event_time (ev !! "start")))); [|discriminate].
    destruct (iso (replace_Z (get_event_time (ev !! "end")))); [|discriminate].
    eauto.
  - destruct (ymd (get_event_time (ev !! "start"))); [|discriminate].
    destruct (ymd (get_event_time (ev !! "end"))); [|discriminate].
    eauto.
Qed.

(** X7: for two timed boundaries, exchanging start and end changes the
    sign of the duration and nothing else: an end before the start gives a
    negative number of minutes, not [None]. *)
Theorem timed_duration_swap start end_ :
  contains_T (get_event_time start) = true ->
  contains_T (get_event_time end_) = true ->
  get_event_duration_minutes iso ymd end_ start
  = Z.opp <$> get_event_duration_minutes iso ymd start end_.
Proof.
  intros Hs He. unfold get_event_duration_minutes.
  rewrite Hs, He, (contains_T_truthy _ Hs), (contains_T_truthy _ He).
  assert (Ds : dict_truthy start = true).
  { destruct start as [m |]; simpl in *; [|discriminate].
    destruct (decide (m = ∅)) as [-> | ?]; [discriminate|].
    now rewrite bool_decide_eq_false_2. }
  assert (De : dict_truthy end_ = true).
  { destruct end_ as [m |]; simpl in *; [|discriminate].
    destruct (decide (m = ∅)) as [-> | ?]; [discriminate|].
    now rewrite bool_decide_eq_false_2. }
  rewrite Ds, De. simpl.
  destruct (iso (replace_Z (get_event_time start))) as [s |];
    destruct (iso (replace_Z (get_event_time end_))) as [e |];
    try reflexivity.
  rewrite (dt_sub_aware_swap s e).
  destruct (dt_sub_aware e s) as [d |]; simpl; [|reflexivity].
  f_equal. apply timedelta_minutes_opp.
Qed.

(** [strptime] with the format [%Y-%m-%d] gives a naive midnight, and,
    as every [datetime] object, one that satisfies the invariant of the
    constructor (the float divisions of line 71 are exact on the whole
    days between two such values). *)
Hypothesis ymd_midnight : forall s d,
  ymd s = Some d ->
  hour d = 0 /\ minute d = 0 /\ second d = 0 /\ microsecond d = 0
  /\ tzinfo d = None.
Hypothesis ymd_valid : forall s d, ymd s = Some d -> dt_valid d = true.

(** X8: for two all-day boundaries the duration, when there is one, is
    1440 minutes for each day from the start date to the end date, and the
    end date is not before the start date (an earlier end date gives
    [None]). *)
Theorem all_day_duration start end_ n :
  contains_T (get_event_time start) = false ->
  get_event_duration_minutes iso ymd start end_ = Some n ->
  exists ds de,
    ymd (get_event_time start) = Some ds
    /\ ymd (get_event_time end_) = Some de
    /\ toordinal ds <= toordinal de
    /\ n = 1440 * (toordinal de - toordinal ds).
Proof.
  intros HT. unfold get_event_duration_minutes. rewrite HT.
  destruct (negb (dict_truthy _) || negb (dict_truthy _)); [discriminate|].
  destruct (negb (str_truthy _) || negb (str_truthy _)); [discriminate|].
  destruct (ymd (get_event_time start)) as [ds |] eqn:Es; [|discriminate].
  destruct (ymd (get_event_time end_)) as [de |] eqn:Ee; [|discriminate].
  destruct (ymd_midnight _ _ Es) as (Hh & Hm & Hs & Hu & Ht).
  destruct (ymd_midnight _ _ Ee) as (Hh' & Hm' & Hs' & Hu' & Ht').
  unfold dt_sub_aware. rewrite Ht, Ht'.
  assert (Ed : dt_sub de ds = (toordinal de - toordinal ds) * 86400000000).
  { unfold dt_sub, to_microseconds, seconds_of.
    rewrite Hh, Hm, Hs, Hu, Hh', Hm', Hs', Hu'. ring. }
  rewrite Ed. unfold timedelta_days.
  rewrite Z.div_mul by discriminate.
  destruct (0 <=? toordinal de - toordinal ds) eqn:E; [|discriminate].
  apply Z.leb_le in E. intros [= <-].
  exists ds, de. repeat split; auto; [lia|].
  pose proof (toordinal_range _ (ymd_valid _ _ Es)) as Rs.
  pose proof (toordinal_range _ (ymd_valid _ _ Ee)) as Re.
  replace ((toordinal de - toordinal ds) * 86400000000)
    with (86400 * (toordinal de - toordinal ds) * 1000000) by ring.
  rewrite timedelta_minutes_whole_seconds
    by (change (2 ^ 46) with 70368744177664; lia).
  lia.
Qed.

End UtilsProperties.

(** ** Whole events *)

Lemma times_of_start ev : times_of ev !! "start" = ev_start ev.
Proof.
  unfold times_of. destruct (ev_start ev), (ev_end ev); by simplify_map_eq.
Qed.

Lemma times_of_end ev : times_of ev !! "end" = ev_end ev.
Proof.
  unfold times_of. destruct (ev_start ev), (ev_end ev); by simplify_map_eq.
Qed.

Lemma get_event_time_default o :
  get_event_time o
  = or_else (default ∅ o !! "dateTime") (or_else (default ∅ o !! "date") "").
Proof.
  destruct o as [m |]; simpl; [|reflexivity].
  destruct (decide (m = ∅)) as [-> | _]; reflexivity.
Qed.

(** X9: the summary of an event made by the server follows the
    conventions of [calendar_utils]: its start and end texts are those of
    [get_event_time], and its all-day flag is that of [is_all_day_event]. *)
Theorem event_to_summary_agrees ev calendar_id :
  es_start (event_to_summary ev calendar_id) = get_event_time (ev_start ev)
  /\ es_end (event_to_summary ev calendar_id) = get_event_time (ev_end ev)
  /\ es_is_all_day (event_to_summary ev calendar_id)
     = is_all_day_event (times_of ev).
Proof.
  unfold event_to_summary, is_all_day_event. simpl.
  rewrite !get_event_time_default, times_of_start.
  repeat split.
Qed.

Lemma substring_length_le n s : (String.length (substring 0 n s) <= n)%nat.
Proof.
  revert s. induction n as [| n IH]; intros s.
  - destruct s; simpl; lia.
  - destruct s as [| c s]; simpl; [lia|]. specialize (IH s). lia.
Qed.

Lemma clip_description_length d :
  (String.length (clip_description d) <= 2003)%nat.
Proof.
  unfold clip_description. destruct (2000 <? String.length d)%nat eqn:E.
  - rewrite string_app_length. pose proof (substring_length_le 2000 d).
    simpl. lia.
  - apply Nat.ltb_ge in E. lia.
Qed.

Lemma concat_insert_length sep (l1 l2 : list string) d :
  l1 <> [] ->
  (String.length (String.concat sep (l1 ++ d :: l2))
   = String.length (String.concat sep (l1 ++ l2))
     + String.length sep + String.length d)%nat.
Proof.
  intros H1. destruct l2 as [| b l2].
  - rewrite app_nil_r.
    rewrite (concat_app_nonempty sep l1 [d]) by (assumption || discriminate).
    rewrite !string_app_length. simpl. lia.
  - rewrite (concat_app_nonempty sep l1 (d :: b :: l2))
      by (assumption || discriminate).
    rewrite (concat_app_nonempty sep l1 (b :: l2))
      by (assumption || discriminate).
    change (String.concat sep (d :: b :: l2))
      with (d ++ sep ++ String.concat sep (b :: l2))%string.
    rewrite !string_app_length. lia.
Qed.

Section SummaryProperties.
Variables iso ymd : string -> option datetime.

(** X10: the description adds at most 2017 characters to the summary
    text of an event (a line feed, the 13 characters of "Description: ",
    at most 2000 characters of the description and three dots), however
    long the description is. *)
Theorem summary_text_description_bound ev :
  (String.length (get_event_summary_text iso ymd ev)
   <= String.length (get_event_summary_text iso ymd (without_description ev))
      + 2017)%nat.
Proof.
  unfold get_event_summary_text, without_description.
  cbn [ev_id ev_summary ev_description ev_location ev_status ev_html_link
       ev_start ev_end ev_attendees default]. cbv zeta.
  set (title := ("Title: " ++ default "Untitled Event" (ev_summary ev))%string).
  set (time := ("Time: " ++ _ ++ " to " ++ _)%string).
  set (loc := if str_truthy (default "" (ev_location ev)) then _ else _).
  set (att := match default [] (ev_attendees ev) with [] => [] | _ :: _ => _ end).
  change (str_truthy "") with false. cbv iota.
  destruct (str_truthy (default "" (ev_description ev))); [|simpl; lia].
  replace ([title; time] ++ loc ++ [] ++ att)
    with (([title; time] ++ loc) ++ att)
    by (rewrite <- !app_assoc; reflexivity).
  replace ([title; time] ++ loc
           ++ [("Description: "
                ++ clip_description (default "" (ev_description ev)))%string]
           ++ att)
    with (([title; time] ++ loc)
          ++ ("Description: "
              ++ clip_description (default "" (ev_description ev)))%string
          :: att)
    by (rewrite <- !app_assoc; reflexivity).
  rewrite concat_insert_length by discriminate.
  rewrite string_app_length.
  pose proof (clip_description_length (default "" (ev_description ev))).
  simpl. lia.
Qed.

End SummaryProperties.

(** * Properties of the free-time service *)

Lemma filter_all_true {A : Type} (f : A -> bool) (l : list A) :
  Forall (fun x => f x = true) l -> List.filter f l = l.
Proof.
  induction 1 as [| x l Hx _ IH]; simpl; [reflexivity|].
  rewrite Hx, IH. reflexivity.
Qed.

Lemma filter_all_false {A : Type} (f : A -> bool) (l : list A) :
  Forall (fun x => f x = false) l -> List.filter f l = [].
Proof.
  induction 1 as [| x l Hx _ IH]; simpl; [reflexivity|].
  rewrite Hx, IH. reflexivity.
Qed.

Lemma filter_sublist {A : Type} (f : A -> bool) (l : list A) :
  sublist (List.filter f l) l.
Proof.
  induction l as [| x l IH]; simpl; [constructor|].
  destruct (f x); [apply sublist_skip | apply sublist_cons]; exact IH.
Qed.

Lemma valid_slots_long_enough slots d :
  Forall (fun s => d <= duration_minutes s) (valid_slots slots d).
Proof.
  apply List.Forall_forall. intros s Hin.
  apply List.filter_In in Hin as [_ H]. now apply Z.leb_le.
Qed.

Section FreeTimeProperties.
Variable generate : string -> string -> Z -> outcome string.

(** X11: when no slot lasts the required duration the answer carries no
    suggestion and does not depend on the provider or on the preferences:
    the model is not called. *)
Theorem find_free_time_without_valid_slot slots d :
  Forall (fun s => duration_minutes s < d) slots ->
  exists reasoning,
    forall gen preferences,
      find_free_time gen slots d preferences = Done (NoSuggestion reasoning).
Proof.
  intros H. destruct slots as [| s slots].
  - eexists. intros gen p. reflexivity.
  - assert (E : valid_slots (s :: slots) d = []).
    { unfold valid_slots. apply filter_all_false.
      eapply List.Forall_impl; [|exact H]. simpl. intros a Ha.
      apply Z.leb_gt. exact Ha. }
    eexists. intros gen p. unfold find_free_time. rewrite E. reflexivity.
Qed.

(** X12: the slots returned with a suggestion are at most five, there is
    at least one, each lasts the required duration, and they are slots of
    the input in the order of the input. *)
Theorem find_free_time_available_slots slots d preferences av text dr :
  find_free_time generate slots d preferences = Done (Suggestion av text dr) ->
  dr = d /\ av <> [] /\ (length av <= 5)%nat
  /\ Forall (fun s => d <= duration_minutes s) av
  /\ sublist av slots.
Proof.
  unfold find_free_time. destruct slots as [| s0 slots]; [discriminate|].
  pose proof (valid_slots_long_enough (s0 :: slots) d) as Hall.
  pose proof (filter_sublist (fun slot => d <=? duration_minutes slot)
                (s0 :: slots)) as Hsub.
  fold (valid_slots (s0 :: slots) d) in Hsub.
  destruct (valid_slots (s0 :: slots) d) as [| v valid]; [discriminate|].
  destruct (generate _ _ _) as [response | e]; [|discriminate].
  intros [= <- <- <-]. split; [reflexivity|]. split; [discriminate|].
  split.
  { assert (L : (length (take 5 (v :: valid)) <= 5)%nat)
      by (rewrite length_take; lia).
    exact L. }
  split.
  - change (Forall (fun s => d <= duration_minutes s) (take 5 (v :: valid))).
    apply Forall_take, Hall.
  - etransitivity; [apply (sublist_take (v :: valid) 5) | exact Hsub].
Qed.

End FreeTimeProperties.

(** ** The endpoint *)

Section EndpointProperties.
Variables iso ymd : string -> option datetime.
Variable list_events : string -> string -> string -> outcome (list event).
Variable generate : string -> string -> Z -> outcome string.

Lemma find_free_slots_office_hours events time_min time_max m wh :
  exists slots,
    find_free_slots iso ymd events time_min time_max m wh 9 17 = Ok slots.
Proof.
  unfold find_free_slots, free_gaps.
  destruct (iso (replace_Z time_min)) as [rs |]; [|simpl; eauto].
  destruct (iso (replace_Z time_max)) as [re |]; [|simpl; eauto].
  destruct (sweep_total (strip_tz re) m wh 9 17
              (sort_by_start (busy_periods iso ymd events))
              (mk_state [] (strip_tz rs))) as [st ->]; [lia | lia |].
  simpl.
  destruct (last_gap_total (strip_tz re) m wh 9 17 st) as [gs ->];
    [lia | lia |].
  simpl. eauto.
Qed.

Lemma find_free_slots_long_enough events time_min time_max m wh wsh weh slots :
  find_free_slots iso ymd events time_min time_max m wh wsh weh = Ok slots ->
  Forall (fun s => (m <=? duration_minutes s) = true) slots.
Proof.
  unfold find_free_slots. intros H.
  apply rmap_Ok in H as (gs & Hgs & ->).
  pose proof (free_gaps_restrict iso ymd events time_min time_max wh wsh weh
                m m (Z.le_refl m)) as E.
  rewrite Hgs in E. simpl in E. injection E as E.
  apply List.Forall_forall. intros s Hin.
  apply List.in_map_iff in Hin as (g & <- & Hin).
  rewrite E in Hin. apply List.filter_In in Hin as [_ Hin]. exact Hin.
Qed.

(** X13: at the call of the endpoint the duration filter of
    [find_free_time] removes nothing, because [find_free_slots] was given
    the same duration as minimum: the slots returned to the client are the
    first five slots found. *)
Theorem endpoint_returns_first_slots request events slots av text dr :
  list_events (req_calendar_id request) (req_time_min request)
    (req_time_max request) = Done events ->
  find_free_slots iso ymd events (req_time_min request) (req_time_max request)
    (req_duration_minutes request) (req_working_hours_only request) 9 17
  = Ok slots ->
  resp_data (find_free_time_endpoint iso ymd list_events generate request)
  = Some (Suggestion av text dr) ->
  av = take 5 slots.
Proof.
  intros Hl Hs. unfold find_free_time_endpoint. rewrite Hl, Hs.
  pose proof (find_free_slots_long_enough _ _ _ _ _ _ _ _ Hs) as Hall.
  unfold find_free_time.
  destruct slots as [| s0 slots]; [discriminate|].
  unfold valid_slots. rewrite (filter_all_true _ _ Hall).
  destruct (generate _ _ _); simpl; [|discriminate].
  intros [= <- _ _]. reflexivity.
Qed.

(** X14: when the events are fetched and the model answers, the endpoint
    reports success: the hours 9 and 17 it leaves to [find_free_slots] are
    valid, so the search itself never fails. *)
Theorem endpoint_succeeds request events :
  list_events (req_calendar_id request) (req_time_min request)
    (req_time_max request) = Done events ->
  (forall system_prompt prompt max_tokens,
      exists text, generate system_prompt prompt max_tokens = Done text) ->
  resp_success (find_free_time_endpoint iso ymd list_events generate request)
  = true
  /\ resp_error (find_free_time_endpoint iso ymd list_events generate request)
     = None.
Proof.
  intros Hl Hg. unfold find_free_time_endpoint. rewrite Hl.
  destruct (find_free_slots_office_hours events (req_time_min request)
              (req_time_max request) (req_duration_minutes request)
              (req_working_hours_only request)) as [slots ->].
  unfold find_free_time.
  destruct slots as [| s0 slots]; [split; reflexivity|].
  destruct (valid_slots (s0 :: slots) (req_duration_minutes request))
    as [| v valid]; [split; reflexivity|].
  destruct (Hg FIND_FREE_TIME_SYSTEM_PROMPT
              (free_time_prompt (v :: valid) (req_duration_minutes request)
                 (if bool_decide (request_preferences request = ∅)
                  then None else Some (request_preferences request)))
              512) as [text ->].
  split; reflexivity.
Qed.

End EndpointProperties.

(** * Properties of the bulk operations *)

Section BulkProperties.
Variable calendar : Type.
Variable delete_event :
  calendar -> string -> string -> option string -> calendar * option service_exn.
Variable update_event :
  calendar -> string -> string -> gmap string string -> option string ->
  calendar * option service_exn.
Variable patch_event :
  calendar -> string -> string -> gmap string string -> option string ->
  calendar * option service_exn.

Lemma count_success_snoc l r :
  count_success (l ++ [r])
  = count_success l + (if res_success r then 1 else 0).
Proof.
  unfold count_success. rewrite List.filter_app, length_app. simpl.
  destruct (res_success r); simpl; lia.
Qed.

(** One iteration appends exactly one result, for the event and the
    operation of the request, and counts it once. *)
Lemma bulk_step_result c st op c' st' :
  bulk_step calendar delete_event update_event patch_event c st op = (c', st') ->
  exists r,
    results st' = results st ++ [r]
    /\ res_event_id r = op_event_id op
    /\ res_operation r = operation_value (op_operation op)
    /\ success_count st' = success_count st + (if res_success r then 1 else 0)
    /\ error_count st' = error_count st + (if res_success r then 0 else 1).
Proof.
  assert (Hcall : forall raised,
    exists r,
      results (record_call op st raised) = results st ++ [r]
      /\ res_event_id r = op_event_id op
      /\ res_operation r = operation_value (op_operation op)
      /\ success_count (record_call op st raised)
         = success_count st + (if res_success r then 1 else 0)
      /\ error_count (record_call op st raised)
         = error_count st + (if res_success r then 0 else 1)).
  { intros [e |]; eexists; simpl; repeat split; simpl; lia. }
  assert (Hno :
    exists r,
      results (record_no_data op st) = results st ++ [r]
      /\ res_event_id r = op_event_id op
      /\ res_operation r = operation_value (op_operation op)
      /\ success_count (record_no_data op st)
         = success_count st + (if res_success r then 1 else 0)
      /\ error_count (record_no_data op st)
         = error_count st + (if res_success r then 0 else 1)).
  { eexists; simpl; repeat split; simpl; lia. }
  unfold bulk_step.
  destruct (op_operation op); try destruct (op_updates op) as [data |];
    try destruct (bool_decide (data = ∅));
    try destruct (delete_event _ _ _ _) as [c1 raised];
    try destruct (update_event _ _ _ _ _) as [c1 raised];
    try destruct (patch_event _ _ _ _ _) as [c1 raised];
    intros [= <- <-]; auto.
Qed.

Lemma bulk_loop_results operations :
  forall c st c' st',
    bulk_loop calendar delete_event update_event patch_event c st operations
    = (c', st') ->
    map res_event_id (results st')
    = map res_event_id (results st) ++ map op_event_id operations
    /\ map res_operation (results st')
       = map res_operation (results st)
         ++ map (fun op => operation_value (op_operation op)) operations
    /\ success_count st' + error_count st'
       = success_count st + error_count st + Z.of_nat (length operations)
    /\ success_count st' - count_success (results st')
       = success_count st - count_success (results st).
Proof.
  induction operations as [| op rest IH]; intros c st c' st'; simpl.
  - intros [= <- <-]. rewrite !app_nil_r. repeat split; lia.
  - destruct (bulk_step calendar delete_event update_event patch_event c st op)
      as [c1 st1] eqn:S.
    intros H. apply IH in H as (H1 & H2 & H3 & H4).
    apply bulk_step_result in S as (r & Er & Eid & Eop & Esc & Eec).
    rewrite Er in H1, H2, H4. rewrite count_success_snoc in H4.
    rewrite List.map_app in H1, H2. simpl in H1, H2.
    rewrite <- app_assoc in H1, H2. simpl in H1, H2.
    rewrite Eid in H1. rewrite Eop in H2.
    repeat split; auto; destruct (res_success r); lia.
Qed.

(** X15: once the client is obtained, [bulk_actions] answers every
    operation, in the order of the request: as many results as
    operations, each for the event and the operation asked; the two
    counters add up to the number of operations, and [success_count] is
    the number of results marked successful.  A failed operation does not
    stop the following ones. *)
Theorem bulk_actions_accounts_for_all c operations c' response :
  bulk_actions calendar delete_event update_event patch_event None c operations
  = (c', response) ->
  bulk_success response = true
  /\ map res_event_id (bulk_results response) = map op_event_id operations
  /\ map res_operation (bulk_results response)
     = map (fun op => operation_value (op_operation op)) operations
  /\ bulk_success_count response + bulk_error_count response
     = Z.of_nat (length operations)
  /\ bulk_success_count response = count_success (bulk_results response).
Proof.
  unfold bulk_actions.
  destruct (bulk_loop calendar delete_event update_event patch_event c
              (mk_bulk_state [] 0 0) operations) as [c1 st] eqn:L.
  intros [= <- <-]. simpl.
  apply bulk_loop_results in L as (H1 & H2 & H3 & H4). simpl in *.
  unfold count_success in H4 at 2. simpl in H4.
  repeat split; auto; lia.
Qed.

Lemma bulk_step_no_client c st op :
  reaches_client op = false ->
  fst (bulk_step calendar delete_event update_event patch_event c st op) = c.
Proof.
  unfold reaches_client, no_updates, bulk_step.
  destruct (op_operation op); try discriminate;
    destruct (op_updates op) as [data |]; try reflexivity;
    destruct (bool_decide (data = ∅)); try discriminate; reflexivity.
Qed.

Lemma bulk_step_calendar c st1 st2 op :
  fst (bulk_step calendar delete_event update_event patch_event c st1 op)
  = fst (bulk_step calendar delete_event update_event patch_event c st2 op).
Proof.
  unfold bulk_step.
  destruct (op_operation op); try destruct (op_updates op) as [data |];
    try destruct (bool_decide (data = ∅));
    try destruct (delete_event _ _ _ _);
    try destruct (update_event _ _ _ _ _);
    try destruct (patch_event _ _ _ _ _); reflexivity.
Qed.

Lemma bulk_loop_calendar operations :
  forall c st1 st2,
    fst (bulk_loop calendar delete_event update_event patch_event c st1
           operations)
    = fst (bulk_loop calendar delete_event update_event patch_event c st2
             (List.filter reaches_client operations)).
Proof.
  induction operations as [| op rest IH]; intros c st1 st2; simpl;
    [reflexivity|].
  destruct (bulk_step calendar delete_event update_event patch_event c st1 op)
    as [c1 st1'] eqn:S1.
  destruct (reaches_client op) eqn:R; simpl.
  - destruct (bulk_step calendar delete_event update_event patch_event c st2 op)
      as [c2 st2'] eqn:S2.
    assert (c1 = c2).
    { pose proof (bulk_step_calendar c st1 st2 op) as E.
      rewrite S1, S2 in E. exact E. }
    subst c2. apply IH.
  - pose proof (bulk_step_no_client c st1 op R) as E. rewrite S1 in E.
    simpl in E. subst c1. apply IH.
Qed.

(** X16: an update or a patch without data never reaches the client: the
    calendar after a request is the calendar after the same request
    without those operations. *)
Theorem bulk_actions_skips_empty_updates client c operations :
  fst (bulk_actions calendar delete_event update_event patch_event client c
         operations)
  = fst (bulk_actions calendar delete_event update_event patch_event client c
           (List.filter reaches_client operations)).
Proof.
  unfold bulk_actions. destruct client as [e |]; [reflexivity|].
  pose proof (bulk_loop_calendar operations c (mk_bulk_state [] 0 0)
                (mk_bulk_state [] 0 0)) as E.
  destruct (bulk_loop calendar delete_event update_event patch_event c
              (mk_bulk_state [] 0 0) operations) as [c1 st1].
  destruct (bulk_loop calendar delete_event update_event patch_event c
              (mk_bulk_state [] 0 0) (List.filter reaches_client operations))
    as [c2 st2].
  exact E.
Qed.

End BulkProperties.

(** * The new theorems at concrete inputs *)

Lemma rfc3339_strptime_ymd_midnight s d :
  Rfc3339.strptime_ymd s = Some d ->
  hour d = 0 /\ minute d = 0 /\ second d = 0 /\ microsecond d = 0
  /\ tzinfo d = None.
Proof.
  unfold Rfc3339.strptime_ymd, Rfc3339.checked.
  destruct (Nat.eqb _ _); [|discriminate].
  destruct (Rfc3339.parse_date s) as [[[y m] d0] |]; simpl; [|discriminate].
  destruct (dt_valid _); [|discriminate].
  intros [= <-]. simpl. auto.
Qed.

(** The tests of tests/test_calendar_utils.py, lines 56-144. *)
Example test_format_event_time_datetime_utc :
  format_event_time Rfc3339.fromisoformat Rfc3339.strptime_ymd
    (Some {[ "dateTime" := "2024-01-15T10:00:00Z" ]})
  = "January 15, 2024 at 10:00 AM".
Proof. vm_compute. reflexivity. Qed.

Example test_format_event_time_all_day :
  format_event_time Rfc3339.fromisoformat Rfc3339.strptime_ymd
    (Some {[ "date" := "2024-01-15" ]})
  = "January 15, 2024 (all day)".
Proof. vm_compute. reflexivity. Qed.

Example test_get_event_duration_minutes_timed_event :
  get_event_duration_minutes Rfc3339.fromisoformat Rfc3339.strptime_ymd
    (Some {[ "dateTime" := "2024-01-15T10:00:00Z" ]})
    (Some {[ "dateTime" := "2024-01-15T11:30:00Z" ]})
  = Some 90.
Proof. vm_compute. reflexivity. Qed.

Example test_get_event_duration_minutes_with_timezone :
  get_event_duration_minutes Rfc3339.fromisoformat Rfc3339.strptime_ymd
    (Some {[ "dateTime" := "2024-01-15T10:00:00-05:00" ]})
    (Some {[ "dateTime" := "2024-01-15T11:00:00-05:00" ]})
  = Some 60.
Proof. vm_compute. reflexivity. Qed.

Example test_get_event_duration_minutes_invalid_format :
  get_event_duration_minutes Rfc3339.fromisoformat Rfc3339.strptime_ymd
    (Some {[ "dateTime" := "invalid" ]}) (Some {[ "dateTime" := "invalid" ]})
  = None.
Proof. vm_compute. reflexivity. Qed.

Lemma format_attendees_app_witness :
  let alice : attendee :=
    {[ "email" := "alice@example.com"; "displayName" := "Alice Smith";
       "responseStatus" := "accepted" ]} in
  let bob : attendee :=
    {[ "email" := "bob@example.com"; "responseStatus" := "tentative" ]} in
  format_attendees (Some [alice; bob])
  = "Alice Smith <alice@example.com> (accepted), bob@example.com (tentative)".
Proof.
  intros alice bob.
  change (format_attendees (Some ([alice] ++ [bob]))
          = "Alice Smith <alice@example.com> (accepted), bob@example.com (tentative)").
  rewrite (format_attendees_app [alice] [bob]) by discriminate.
  vm_compute. reflexivity.
Defined.

Lemma format_event_time_fallback_witness :
  format_event_time Rfc3339.fromisoformat Rfc3339.strptime_ymd
    (Some {[ "dateTime" := "not-a-date" ]}) = "not-a-date"
  /\ format_event_time Rfc3339.fromisoformat Rfc3339.strptime_ymd (Some ∅)
     = "No time specified".
Proof.
  split.
  - transitivity (get_event_time (Some {[ "dateTime" := "not-a-date" ]}));
      [|vm_compute; reflexivity].
    apply (proj2 (format_event_time_fallback Rfc3339.fromisoformat
                    Rfc3339.strptime_ymd
                    (Some {[ "dateTime" := "not-a-date" ]}))).
    + vm_compute. discriminate.
    + vm_compute. split; reflexivity.
  - apply (proj1 (format_event_time_fallback Rfc3339.fromisoformat
                    Rfc3339.strptime_ymd (Some ∅))).
    reflexivity.
Defined.

Lemma duration_implies_busy_witness :
  exists b,
    busy_period Rfc3339.fromisoformat Rfc3339.strptime_ymd
      (all_day_event "2024-01-15" "2024-01-16") = Some b.
Proof.
  apply (duration_implies_busy Rfc3339.fromisoformat Rfc3339.strptime_ymd
           (all_day_event "2024-01-15" "2024-01-16") 1440).
  vm_compute. reflexivity.
Defined.

Lemma timed_duration_swap_witness :
  get_event_duration_minutes Rfc3339.fromisoformat Rfc3339.strptime_ymd
    (Some {[ "dateTime" := "2024-01-15T11:30:00Z" ]})
    (Some {[ "dateTime" := "2024-01-15T10:00:00Z" ]})
  = Some (-90).
Proof.
  rewrite (timed_duration_swap Rfc3339.fromisoformat Rfc3339.strptime_ymd
             (Some {[ "dateTime" := "2024-01-15T10:00:00Z" ]})
             (Some {[ "dateTime" := "2024-01-15T11:30:00Z" ]}));
    vm_compute; reflexivity.
Defined.

Lemma all_day_duration_witness :
  exists ds de,
    Rfc3339.strptime_ymd (get_event_time (Some {[ "date" := "2024-01-15" ]}))
    = Some ds
    /\ Rfc3339.strptime_ymd (get_event_time (Some {[ "date" := "2024-01-17" ]}))
       = Some de
    /\ toordinal ds <= toordinal de
    /\ 2880 = 1440 * (toordinal de - toordinal ds).
Proof.
  apply (all_day_duration Rfc3339.fromisoformat Rfc3339.strptime_ymd
           rfc3339_strptime_ymd_midnight rfc3339_strptime_ymd_valid
           (Some {[ "date" := "2024-01-15" ]})
           (Some {[ "date" := "2024-01-17" ]}) 2880);
    vm_compute; reflexivity.
Defined.

Lemma find_free_time_without_valid_slot_witness :
  exists reasoning,
    forall gen preferences,
      find_free_time gen
        [mk_FreeSlot "2024-01-15T09:00:00Z" "2024-01-15T09:20:00Z" 20] 30
        preferences
      = Done (NoSuggestion reasoning).
Proof.
  apply find_free_time_without_valid_slot.
  constructor; [simpl; lia | constructor].
Defined.

Lemma find_free_time_available_slots_witness :
  let slots :=
    [mk_FreeSlot "2024-01-15T09:00:00Z" "2024-01-15T09:20:00Z" 20;
     mk_FreeSlot "2024-01-15T10:00:00Z" "2024-01-15T12:00:00Z" 120] in
  let av := [mk_FreeSlot "2024-01-15T10:00:00Z" "2024-01-15T12:00:00Z" 120] in
  30 = 30 /\ av <> [] /\ (length av <= 5)%nat
  /\ Forall (fun s => 30 <= duration_minutes s) av
  /\ sublist av slots.
Proof.
  intros slots av.
  apply (find_free_time_available_slots (answer_always "Take the second one.")
           slots 30 None av "Take the second one." 30).
  vm_compute. reflexivity.
Defined.

Lemma endpoint_returns_first_slots_witness :
  let request :=
    mk_FindFreeTimeRequest "primary" "2024-01-15T09:00:00Z"
      "2024-01-15T17:00:00Z" 30 false 0 false false in
  let events := [timed_event "2024-01-15T12:00:00Z" "2024-01-15T13:00:00Z"] in
  [mk_FreeSlot "2024-01-15T09:00:00Z" "2024-01-15T12:00:00Z" 180;
   mk_FreeSlot "2024-01-15T13:00:00Z" "2024-01-15T17:00:00Z" 240]
  = take 5
      [mk_FreeSlot "2024-01-15T09:00:00Z" "2024-01-15T12:00:00Z" 180;
       mk_FreeSlot "2024-01-15T13:00:00Z" "2024-01-15T17:00:00Z" 240].
Proof.
  intros request events.
  apply (endpoint_returns_first_slots Rfc3339.fromisoformat
           Rfc3339.strptime_ymd (events_always events)
           (answer_always "Morning.") request events _ _ "Morning." 30);
    vm_compute; reflexivity.
Defined.

Lemma endpoint_succeeds_witness :
  let request :=
    mk_FindFreeTimeRequest "primary" "2024-01-15T09:00:00Z"
      "2024-01-15T17:00:00Z" 30 true 15 true false in
  let events := [timed_event "2024-01-15T12:00:00Z" "2024-01-15T13:00:00Z"] in
  resp_success
    (find_free_time_endpoint Rfc3339.fromisoformat Rfc3339.strptime_ymd
       (events_always events) (answer_always "Morning.") request) = true
  /\ resp_error
       (find_free_time_endpoint Rfc3339.fromisoformat Rfc3339.strptime_ymd
          (events_always events) (answer_always "Morning.") request) = None.
Proof.
  intros request events.
  apply (endpoint_succeeds Rfc3339.fromisoformat Rfc3339.strptime_ymd
           (events_always events) (answer_always "Morning.") request events).
  - reflexivity.
  - intros sp p mt. exists "Morning.". reflexivity.
Defined.

Lemma bulk_actions_accounts_for_all_witness :
  let operations :=
    [mk_BulkOperation DELETE "e1" "primary" None None;
     mk_BulkOperation UPDATE "e2" "primary" None None;
     mk_BulkOperation PATCH "e3" "primary"
       (Some {[ "summary" := "Moved" ]}) None] in
  let run :=
    bulk_actions (list string) log_delete log_write log_write None []
      operations in
  fst run = ["e1"; "e3"]
  /\ map res_event_id (bulk_results (snd run)) = ["e1"; "e2"; "e3"]
  /\ bulk_success_count (snd run) + bulk_error_count (snd run) = 3
  /\ bulk_success_count (snd run) = 1.
Proof.
  intros operations run.
  destruct (bulk_actions_accounts_for_all (list string) log_delete log_write
              log_write [] operations (fst run) (snd run))
    as (_ & H1 & _ & H2 & H3).
  - vm_compute. reflexivity.
  - split; [vm_compute; reflexivity|].
    split; [exact H1|]. split; [exact H2|].
    rewrite H3. vm_compute. reflexivity.
Defined.

(** * Further properties of the finder *)

(** ** A busy period that covers the window *)

Lemma emit_not_before gs ge m :
  dt_valid gs = true -> dt_valid ge = true ->
  to_microseconds ge <= to_microseconds gs -> emit gs ge m = [].
Proof.
  intros Vs Ve H. unfold emit.
  rewrite (proj2 (dt_lt_false_iff gs ge Vs Ve) H). reflexivity.
Qed.

Lemma sweep_blocked_step rs re b m wh wsh weh done st b' rest st' :
  dt_valid re = true ->
  busy_valid b -> busy_valid b' ->
  to_microseconds (fst b) <= to_microseconds rs ->
  to_microseconds re <= to_microseconds (snd b) ->
  In b (done ++ b' :: rest) ->
  Forall (start_le b') rest ->
  sweep_blocked rs re b done st ->
  sweep_step re m wh wsh weh st b' = Ok st' ->
  sweep_blocked rs re b (done ++ [b']) st'.
Proof.
  intros Vre [Vb1 Vb2] [Vs Ve] Hb1 Hb2 Hin Hsorted (Hslots & Vc & Hrs & Hdone).
  destruct b' as [s' e']. simpl in Vs, Ve.
  pose proof (dt_max_ge _ _ Vc Ve) as Hmax.
  pose proof (dt_max_valid _ _ Vc Ve) as Vmax.
  pose proof (dt_max_to_microseconds _ _ Vc Ve) as Emax.
  unfold sweep_step.
  destruct (dt_lt (current_time st) s') eqn:E.
  - apply dt_lt_iff in E; auto.
    assert (Hd : In b done).
    { apply List.in_app_or in Hin as [Hin | [<- | Hin]]; [assumption | |].
      - simpl in Hb1. lia.
      - rewrite List.Forall_forall in Hsorted. specialize (Hsorted b Hin).
        unfold start_le in Hsorted. simpl in Hsorted. lia. }
    specialize (Hdone Hd).
    destruct (candidate wh wsh weh (current_time st) (dt_min s' re))
      as [[[gs ge] |] | e] eqn:C; simpl; try discriminate.
    + intros [= <-].
      apply candidate_bounds in C as (Vgs & Vge & Hgs & Hge);
        auto using dt_min_valid.
      rewrite dt_min_to_microseconds in Hge by assumption.
      rewrite emit_not_before by (auto; lia).
      unfold sweep_blocked; simpl. rewrite Hslots.
      repeat split; auto; lia.
    + intros [= <-]. unfold sweep_blocked.
      repeat split; auto.
  - intros [= <-]. unfold sweep_blocked; simpl.
    repeat split; auto; [lia|].
    intros Hin'. apply List.in_app_or in Hin' as [Hin' | [<- | []]].
    + specialize (Hdone Hin'). lia.
    + simpl in Hb2. lia.
Qed.

Lemma sweep_blocked_preserved rs re b m wh wsh weh rest :
  dt_valid re = true -> busy_valid b ->
  to_microseconds (fst b) <= to_microseconds rs ->
  to_microseconds re <= to_microseconds (snd b) ->
  forall done st st',
    In b (done ++ rest) ->
    Forall busy_valid rest ->
    StronglySorted start_le rest ->
    sweep_blocked rs re b done st ->
    sweep re m wh wsh weh rest st = Ok st' ->
    sweep_blocked rs re b (done ++ rest) st'.
Proof.
  intros Vre Vb Hb1 Hb2.
  induction rest as [| b' rest IH]; intros done st st' Hin Hv Hs Hst; simpl.
  - intros [= <-]. rewrite app_nil_r. assumption.
  - destruct (sweep_step re m wh wsh weh st b') as [st1 | e] eqn:S;
      simpl; [|discriminate].
    inversion Hv as [| ? ? Vb' Hv']; subst.
    inversion Hs as [| ? ? Hs' Hle]; subst.
    intros H.
    replace (done ++ b' :: rest) with ((done ++ [b']) ++ rest)
      by (rewrite <- app_assoc; reflexivity).
    apply (IH (done ++ [b']) st1 st'); auto.
    + rewrite <- app_assoc. exact Hin.
    + eapply sweep_blocked_step; eauto.
Qed.

Section FinderProperties.
Variables iso ymd : string -> option datetime.
Hypothesis iso_valid : forall s d, iso s = Some d -> dt_valid d = true.
Hypothesis ymd_valid : forall s d, ymd s = Some d -> dt_valid d = true.

(** X17: when one event covers the whole window (its busy period starts
    at or before the start of the window and ends at or after its end),
    [find_free_slots] returns no slot, whatever the other events, the
    minimum duration and the working-hours policy. *)
Theorem covering_event_blocks_window
    events time_min time_max rs re b m wh wsh weh slots :
  iso (replace_Z time_min) = Some rs ->
  iso (replace_Z time_max) = Some re ->
  In b (busy_periods iso ymd events) ->
  dt_lt (strip_tz rs) (fst b) = false ->
  dt_lt (snd b) (strip_tz re) = false ->
  find_free_slots iso ymd events time_min time_max m wh wsh weh = Ok slots ->
  slots = [].
Proof.
  intros Es Ee Hin Hb1 Hb2. unfold find_free_slots, free_gaps.
  rewrite Es, Ee.
  assert (Vrs : dt_valid (strip_tz rs) = true)
    by (rewrite strip_tz_valid; eauto).
  assert (Vre : dt_valid (strip_tz re) = true)
    by (rewrite strip_tz_valid; eauto).
  pose proof (busy_periods_valid iso ymd iso_valid ymd_valid events) as Hv.
  assert (Vb : busy_valid b)
    by (rewrite List.Forall_forall in Hv; apply Hv, Hin).
  destruct Vb as [Vb1 Vb2].
  apply dt_lt_false_iff in Hb1; auto. apply dt_lt_false_iff in Hb2; auto.
  set (busy := sort_by_start (busy_periods iso ymd events)).
  destruct (sweep (strip_tz re) m wh wsh weh busy (mk_state [] (strip_tz rs)))
    as [st | e] eqn:S; simpl; [|discriminate].
  assert (Hst : sweep_blocked (strip_tz rs) (strip_tz re) b ([] ++ busy) st).
  { eapply sweep_blocked_preserved; try exact S; auto.
    - split; assumption.
    - simpl. apply sort_by_start_In. exact Hin.
    - apply sort_by_start_Forall. exact Hv.
    - apply sort_by_start_sorted. exact Hv.
    - unfold sweep_blocked; simpl. repeat split; auto; [lia|]. intros []. }
  destruct Hst as (Hslots & Vc & Hrs & Hdone).
  specialize (Hdone (proj2 (sort_by_start_In b _) Hin)).
  unfold last_gap.
  rewrite (proj2 (dt_lt_false_iff _ _ Vc Vre) Hdone). simpl.
  rewrite Hslots. intros [= <-]. reflexivity.
Qed.

End FinderProperties.

(** ** The order of the events *)

Lemma tie_equiv_cons q l l' : tie_equiv l l' -> tie_equiv (q :: l) (q :: l').
Proof.
  induction 1 as [l | l1 x y l2 H | l1 l2 l3 _ IH1 _ IH2].
  - apply tie_refl.
  - apply (tie_swap (q :: l1) x y l2 H).
  - eapply tie_trans; eauto.
Qed.

Lemma tie_equiv_Permutation l l' : tie_equiv l l' -> Permutation l l'.
Proof.
  induction 1 as [l | l1 x y l2 H | l1 l2 l3 _ IH1 _ IH2].
  - reflexivity.
  - apply Permutation_app_head. apply perm_swap.
  - etransitivity; eauto.
Qed.

Lemma tie_equiv_insert x l l' :
  tie_equiv l l' -> tie_equiv (insert_by_start x l) (insert_by_start x l').
Proof.
  induction 1 as [l | l1 a b l2 H | l1 l2 l3 _ IH1 _ IH2].
  - apply tie_refl.
  - induction l1 as [| q l1 IH]; simpl.
    + rewrite <- H. destruct (dt_lt (fst a) (fst x)).
      * apply (tie_swap [] a b _ H).
      * apply (tie_swap [x] a b l2 H).
    + destruct (dt_lt (fst q) (fst x)).
      * apply tie_equiv_cons, IH.
      * apply (tie_swap (x :: q :: l1) a b l2 H).
  - eapply tie_trans; eauto.
Qed.

Lemma insert_by_start_comm x y l :
  busy_proper x -> busy_proper y -> Forall busy_valid l ->
  tie_equiv (insert_by_start y (insert_by_start x l))
    (insert_by_start x (insert_by_start y l)).
Proof.
  intros ([Vx _] & Nx & _) ([Vy _] & Ny & _) Hl.
  assert (Htie : to_microseconds (fst y) = to_microseconds (fst x) ->
                 fst y = fst x) by (apply naive_eq; auto).
  induction Hl as [| q l [Vq _] Hl IH]; simpl.
  - destruct (dt_lt (fst x) (fst y)) eqn:E1;
      destruct (dt_lt (fst y) (fst x)) eqn:E2; try apply tie_refl.
    + apply dt_lt_iff in E1; auto. apply dt_lt_iff in E2; auto. lia.
    + apply dt_lt_false_iff in E1; auto. apply dt_lt_false_iff in E2; auto.
      apply (tie_swap [] y x []). apply Htie. lia.
  - destruct (dt_lt (fst q) (fst x)) eqn:Qx;
      destruct (dt_lt (fst q) (fst y)) eqn:Qy; simpl; rewrite ?Qx, ?Qy.
    + apply tie_equiv_cons, IH.
    + assert (Eyx : dt_lt (fst y) (fst x) = true).
      { apply dt_lt_iff in Qx; auto. apply dt_lt_false_iff in Qy; auto.
        apply dt_lt_iff; auto. lia. }
      rewrite Eyx. simpl. rewrite ?Qx. apply tie_refl.
    + assert (Exy : dt_lt (fst x) (fst y) = true).
      { apply dt_lt_iff in Qy; auto. apply dt_lt_false_iff in Qx; auto.
        apply dt_lt_iff; auto. lia. }
      rewrite Exy. simpl. rewrite ?Qy. apply tie_refl.
    + destruct (dt_lt (fst x) (fst y)) eqn:E1;
        destruct (dt_lt (fst y) (fst x)) eqn:E2; simpl; rewrite ?Qx, ?Qy;
        try apply tie_refl.
      * apply dt_lt_iff in E1; auto. apply dt_lt_iff in E2; auto. lia.
      * apply dt_lt_false_iff in E1; auto. apply dt_lt_false_iff in E2; auto.
        apply (tie_swap [] y x). apply Htie. lia.
Qed.

Lemma sort_by_start_tie_equiv l l' :
  Permutation l l' -> Forall busy_proper l ->
  tie_equiv (sort_by_start l) (sort_by_start l').
Proof.
  induction 1 as [| x l l' Hp IH | x y l | l1 l2 l3 Hp1 IH1 Hp2 IH2];
    intros Hall.
  - apply tie_refl.
  - inversion Hall; subst. simpl. apply tie_equiv_insert, IH. assumption.
  - inversion Hall as [| ? ? Hy Hall']; subst.
    inversion Hall' as [| ? ? Hx Hl]; subst. simpl.
    apply insert_by_start_comm; auto.
    apply sort_by_start_Forall.
    eapply List.Forall_impl; [|exact Hl]. intros b Hb. apply Hb.
  - eapply tie_trans; [apply IH1; assumption|]. apply IH2.
    eapply Permutation_Forall; eauto.
Qed.

Lemma sweep_app range_end m wh wsh weh l1 l2 st :
  sweep range_end m wh wsh weh (l1 ++ l2) st
  = rbind (sweep range_end m wh wsh weh l1 st) (sweep range_end m wh wsh weh l2).
Proof.
  revert st. induction l1 as [| b l1 IH]; intros st; simpl; [reflexivity|].
  destruct (sweep_step range_end m wh wsh weh st b) as [st1 | e]; simpl;
    [apply IH | reflexivity].
Qed.

Lemma sweep_step_cursor range_end m wh wsh weh st b st' :
  busy_proper b ->
  dt_valid (current_time st) = true -> tzinfo (current_time st) = None ->
  sweep_step range_end m wh wsh weh st b = Ok st' ->
  dt_valid (current_time st') = true /\ tzinfo (current_time st') = None.
Proof.
  destruct b as [bs be]. intros ([_ Ve] & _ & Ne & _) Vc Nc. simpl in Ve, Ne.
  unfold sweep_step.
  destruct (dt_lt (current_time st) bs).
  - destruct (candidate wh wsh weh (current_time st) (dt_min bs range_end))
      as [[[gs ge] |] | e]; simpl; try discriminate; intros [= <-]; simpl;
      auto using dt_max_valid, dt_max_naive.
  - intros [= <-]. simpl. auto using dt_max_valid, dt_max_naive.
Qed.

Lemma sweep_cursor range_end m wh wsh weh l :
  Forall busy_proper l ->
  forall st st',
    dt_valid (current_time st) = true -> tzinfo (current_time st) = None ->
    sweep range_end m wh wsh weh l st = Ok st' ->
    dt_valid (current_time st') = true /\ tzinfo (current_time st') = None.
Proof.
  induction 1 as [| b l Hb _ IH]; intros st st' Vc Nc; simpl.
  - intros [= <-]. auto.
  - destruct (sweep_step range_end m wh wsh weh st b) as [st1 | e] eqn:S;
      simpl; [|discriminate].
    destruct (sweep_step_cursor _ _ _ _ _ _ _ _ Hb Vc Nc S) as [V1 N1].
    apply IH; assumption.
Qed.

(** Two busy periods with the same start, each ending no earlier than it
    starts, can be swept in either order. *)
Lemma sweep_step_tie range_end m wh wsh weh st s ex ey :
  busy_proper (s, ex) -> busy_proper (s, ey) ->
  dt_valid (current_time st) = true -> tzinfo (current_time st) = None ->
  rbind (sweep_step range_end m wh wsh weh st (s, ex))
    (fun st1 => sweep_step range_end m wh wsh weh st1 (s, ey))
  = rbind (sweep_step range_end m wh wsh weh st (s, ey))
      (fun st1 => sweep_step range_end m wh wsh weh st1 (s, ex)).
Proof.
  intros ([Vs Vx] & _ & Nx & Hx) ([_ Vy] & _ & Ny & Hy) Vc Nc.
  simpl in Vs, Vx, Vy, Nx, Ny, Hx, Hy.
  assert (Emax : dt_max (dt_max (current_time st) ex) ey
                 = dt_max (dt_max (current_time st) ey) ex).
  { rewrite !dt_max_assoc by assumption. f_equal. apply dt_max_comm; assumption. }
  assert (Ex : dt_lt (dt_max (current_time st) ex) s = false).
  { apply dt_lt_false_iff; auto using dt_max_valid.
    rewrite dt_max_to_microseconds by assumption. lia. }
  assert (Ey : dt_lt (dt_max (current_time st) ey) s = false).
  { apply dt_lt_false_iff; auto using dt_max_valid.
    rewrite dt_max_to_microseconds by assumption. lia. }
  unfold sweep_step.
  destruct (dt_lt (current_time st) s) eqn:E.
  - destruct (candidate wh wsh weh (current_time st) (dt_min s range_end))
      as [[[gs ge] |] | e] eqn:C; simpl.
    + rewrite Ex, Ey, Emax. reflexivity.
    + rewrite E, C. reflexivity.
    + reflexivity.
  - simpl. rewrite Ex, Ey, Emax. reflexivity.
Qed.

Lemma tie_equiv_sweep range_end m wh wsh weh l l' :
  tie_equiv l l' -> Forall busy_proper l ->
  forall st,
    dt_valid (current_time st) = true -> tzinfo (current_time st) = None ->
    sweep range_end m wh wsh weh l st = sweep range_end m wh wsh weh l' st.
Proof.
  induction 1 as [l | l1 x y l2 H | l1 l2 l3 H1 IH1 H2 IH2];
    intros Hall st Vc Nc.
  - reflexivity.
  - rewrite !sweep_app.
    apply Forall_app in Hall as [Hall1 Hall2].
    destruct (sweep range_end m wh wsh weh l1 st) as [st1 | e] eqn:S;
      simpl; [|reflexivity].
    destruct (sweep_cursor _ _ _ _ _ _ Hall1 _ _ Vc Nc S) as [V1 N1].
    inversion Hall2 as [| ? ? Hx Hall3]; subst.
    inversion Hall3 as [| ? ? Hy _]; subst.
    destruct x as [s ex], y as [s' ey]. simpl in H. subst s'.
    pose proof (sweep_step_tie range_end m wh wsh weh st1 s ex ey Hx Hy V1 N1)
      as T.
    destruct (sweep_step range_end m wh wsh weh st1 (s, ex)) as [sa | ea];
      destruct (sweep_step range_end m wh wsh weh st1 (s, ey)) as [sb | eb];
      simpl in *.
    + rewrite T. reflexivity.
    + rewrite T. reflexivity.
    + rewrite <- T. reflexivity.
    + congruence.
  - rewrite IH1 by assumption. apply IH2; try assumption.
    eapply Permutation_Forall; [apply tie_equiv_Permutation; exact H1|].
    exact Hall.
Qed.

Section OrderProperties.
Variables iso ymd : string -> option datetime.
Hypothesis iso_valid : forall s d, iso s = Some d -> dt_valid d = true.
Hypothesis ymd_valid : forall s d, ymd s = Some d -> dt_valid d = true.

Lemma busy_periods_naive events :
  Forall (fun b => tzinfo (fst b) = None /\ tzinfo (snd b) = None)
    (busy_periods iso ymd events).
Proof.
  unfold busy_periods. induction events as [| ev rest IH]; simpl.
  - constructor.
  - destruct (busy_period iso ymd ev) as [b |] eqn:E; simpl; auto.
    constructor; [|exact IH].
    unfold busy_period in E.
    destruct (negb _ || negb _); [discriminate|].
    destruct (if negb (contains_T _) then _ else _) as [[s e] |];
      [|discriminate].
    injection E as <-. simpl. auto using strip_tz_naive.
Qed.

(** X18: the result of [find_free_slots] does not depend on the order in
    which the events are given, as long as no event ends before it
    starts. *)
Theorem find_free_slots_order_independent
    events events' time_min time_max m wh wsh weh :
  Permutation events events' ->
  Forall (fun b => dt_lt (snd b) (fst b) = false) (busy_periods iso ymd events) ->
  find_free_slots iso ymd events time_min time_max m wh wsh weh
  = find_free_slots iso ymd events' time_min time_max m wh wsh weh.
Proof.
  intros Hp Hprop. unfold find_free_slots, free_gaps.
  destruct (iso (replace_Z time_min)) as [rs |] eqn:Es; [|reflexivity].
  destruct (iso (replace_Z time_max)) as [re |] eqn:Ee; [|reflexivity].
  assert (Hperm : Permutation (busy_periods iso ymd events)
                    (busy_periods iso ymd events')).
  { unfold busy_periods. apply omap_Permutation. exact Hp. }
  assert (Hall : Forall busy_proper (busy_periods iso ymd events)).
  { pose proof (busy_periods_valid iso ymd iso_valid ymd_valid events) as Hv.
    pose proof (busy_periods_naive events) as Hn.
    rewrite List.Forall_forall in Hv, Hn, Hprop.
    apply List.Forall_forall. intros b Hin.
    destruct (Hv b Hin) as [V1 V2]. destruct (Hn b Hin) as [N1 N2].
    specialize (Hprop b Hin). apply dt_lt_false_iff in Hprop; auto.
    unfold busy_proper, busy_valid. auto. }
  rewrite (tie_equiv_sweep (strip_tz re) m wh wsh weh _ _
             (sort_by_start_tie_equiv _ _ Hperm Hall)).
  - reflexivity.
  - apply sort_by_start_Forall. exact Hall.
  - simpl. rewrite strip_tz_valid. eauto.
  - simpl. apply strip_tz_naive.
Qed.

End OrderProperties.

(** ** UTC offsets *)

Lemma strip_tz_same_fields d d' :
  dt_fields d = dt_fields d' -> strip_tz d = strip_tz d'.
Proof.
  destruct d as [y mo da h mi s u t], d' as [y' mo' da' h' mi' s' u' t'].
  unfold dt_fields, strip_tz, replace_tzinfo_None. simpl.
  intros [= -> -> -> -> -> -> ->]. destruct t, t'; reflexivity.
Qed.

Section OffsetProperties.
Variables iso ymd : string -> option datetime.

(** X19: the UTC offset of the window boundaries is dropped, not
    applied: two pairs of boundary texts that read the same calendar
    fields (year to microsecond) give the same result, whatever their
    offsets. *)
Theorem find_free_slots_ignores_window_offset
    events time_min time_max time_min' time_max' rs re rs' re' m wh wsh weh :
  iso (replace_Z time_min) = Some rs ->
  iso (replace_Z time_max) = Some re ->
  iso (replace_Z time_min') = Some rs' ->
  iso (replace_Z time_max') = Some re' ->
  dt_fields rs = dt_fields rs' ->
  dt_fields re = dt_fields re' ->
  find_free_slots iso ymd events time_min time_max m wh wsh weh
  = find_free_slots iso ymd events time_min' time_max' m wh wsh weh.
Proof.
  intros Es Ee Es' Ee' Fs Fe. unfold find_free_slots, free_gaps.
  rewrite Es, Ee, Es', Ee'.
  rewrite (strip_tz_same_fields _ _ Fs), (strip_tz_same_fields _ _ Fe).
  reflexivity.
Qed.

End OffsetProperties.

(** ** The further theorems at concrete inputs *)

Lemma covering_event_blocks_window_witness :
  exists slots,
    Rfc3339.find_free_slots [all_day_event "2024-01-15" "2024-01-16"]
      "2024-01-15T09:00:00Z" "2024-01-15T17:00:00Z" 30 true 9 17 = Ok slots
    /\ slots = [].
Proof.
  eexists. split; [vm_compute; reflexivity|].
  apply (covering_event_blocks_window Rfc3339.fromisoformat
           Rfc3339.strptime_ymd rfc3339_fromisoformat_valid
           rfc3339_strptime_ymd_valid
           [all_day_event "2024-01-15" "2024-01-16"]
           "2024-01-15T09:00:00Z" "2024-01-15T17:00:00Z"
           (mk_datetime 2024 1 15 9 0 0 0 (Some 0))
           (mk_datetime 2024 1 15 17 0 0 0 (Some 0))
           (mk_datetime 2024 1 15 0 0 0 0 None,
            mk_datetime 2024 1 16 0 0 0 0 None) 30 true 9 17).
  - vm_compute. reflexivity.
  - vm_compute. reflexivity.
  - vm_compute. left. reflexivity.
  - vm_compute. reflexivity.
  - vm_compute. reflexivity.
  - vm_compute. reflexivity.
Defined.

Lemma find_free_slots_order_independent_witness :
  let lunch := timed_event "2024-01-15T12:00:00Z" "2024-01-15T13:00:00Z" in
  let standup := timed_event "2024-01-15T09:30:00Z" "2024-01-15T10:00:00Z" in
  Rfc3339.find_free_slots [lunch; standup]
    "2024-01-15T09:00:00Z" "2024-01-15T17:00:00Z" 30 true 9 17
  = Rfc3339.find_free_slots [standup; lunch]
      "2024-01-15T09:00:00Z" "2024-01-15T17:00:00Z" 30 true 9 17.
Proof.
  intros lunch standup.
  apply (find_free_slots_order_independent Rfc3339.fromisoformat
           Rfc3339.strptime_ymd rfc3339_fromisoformat_valid
           rfc3339_strptime_ymd_valid [lunch; standup] [standup; lunch]).
  - apply perm_swap.
  - vm_compute. repeat constructor.
Defined.

Lemma find_free_slots_ignores_window_offset_witness :
  Rfc3339.find_free_slots
    [timed_event "2024-01-15T12:00:00Z" "2024-01-15T13:00:00Z"]
    "2024-01-15T09:00:00Z" "2024-01-15T17:00:00Z" 30 false 9 17
  = Rfc3339.find_free_slots
      [timed_event "2024-01-15T12:00:00Z" "2024-01-15T13:00:00Z"]
      "2024-01-15T09:00:00+05:00" "2024-01-15T17:00:00-08:00" 30 false 9 17.
Proof.
  apply (find_free_slots_ignores_window_offset Rfc3339.fromisoformat
           Rfc3339.strptime_ymd _ "2024-01-15T09:00:00Z" "2024-01-15T17:00:00Z"
           "2024-01-15T09:00:00+05:00" "2024-01-15T17:00:00-08:00"
           (mk_datetime 2024 1 15 9 0 0 0 (Some 0))
           (mk_datetime 2024 1 15 17 0 0 0 (Some 0))
           (mk_datetime 2024 1 15 9 0 0 0 (Some 300))
           (mk_datetime 2024 1 15 17 0 0 0 (Some (-480))));
    vm_compute; reflexivity.
Defined.



(** ** Slots do not overlap each other *)

Lemma sweep_apart_emit wh wsh weh st ge0 gs ge m c' :
  sweep_apart st ->
  dt_valid ge0 = true -> dt_valid c' = true ->
  to_microseconds (current_time st) <= to_microseconds c' ->
  to_microseconds ge0 <= to_microseconds c' ->
  candidate wh wsh weh (current_time st) ge0 = Ok (Some (gs, ge)) ->
  sweep_apart (mk_state (free_slots st ++ emit gs ge m) c').
Proof.
  intros (Vc & Hall & Hs) V0 Vc' Hle H0 C.
  apply candidate_bounds in C as (Vgs & Vge & Hgs & Hge); auto.
  assert (Hall' : Forall (fun g => to_microseconds (gap_end g)
                            <= to_microseconds c') (free_slots st)).
  { eapply List.Forall_impl; [|exact Hall]. simpl. intros; lia. }
  unfold sweep_apart; simpl.
  destruct (emit_cases gs ge m) as [-> | (-> & _ & _)].
  - rewrite app_nil_r. auto.
  - split; [assumption|]. split.
    + apply Forall_app; split; [assumption|].
      constructor; [simpl; lia | constructor].
    + apply StronglySorted_snoc; [assumption|].
      eapply List.Forall_impl; [|exact Hall]. unfold ends_before. simpl.
      intros; lia.
Qed.

Lemma sweep_step_apart range_end m wh wsh weh st b st' :
  dt_valid range_end = true -> busy_proper b ->
  sweep_apart st ->
  sweep_step range_end m wh wsh weh st b = Ok st' ->
  sweep_apart st'.
Proof.
  destruct b as [bs be]. intros Vre ([Vs Ve] & _ & _ & Hp) Hst.
  simpl in Vs, Ve, Hp. pose proof Hst as (Vc & Hall & Hsorted).
  pose proof (dt_max_valid _ _ Vc Ve) as Vmax.
  pose proof (dt_max_to_microseconds _ _ Vc Ve) as Emax.
  pose proof (dt_min_valid _ _ Vs Vre) as Vmin.
  pose proof (dt_min_to_microseconds _ _ Vs Vre) as Emin.
  unfold sweep_step.
  destruct (dt_lt (current_time st) bs).
  - destruct (candidate wh wsh weh (current_time st) (dt_min bs range_end))
      as [[[gs ge] |] | e] eqn:C; simpl; try discriminate.
    + intros [= <-].
      apply (sweep_apart_emit wh wsh weh st (dt_min bs range_end));
        auto; lia.
    + intros [= <-]. assumption.
  - intros [= <-]. unfold sweep_apart; simpl. repeat split; auto.
    eapply List.Forall_impl; [|exact Hall]. simpl. intros; lia.
Qed.

Lemma sweep_apart_preserved range_end m wh wsh weh busy :
  dt_valid range_end = true -> Forall busy_proper busy ->
  forall st st',
    sweep_apart st ->
    sweep range_end m wh wsh weh busy st = Ok st' ->
    sweep_apart st'.
Proof.
  intros Vre Hb. induction Hb as [| b rest Hv _ IH]; intros st st' Hst; simpl.
  - intros [= <-]. assumption.
  - destruct (sweep_step range_end m wh wsh weh st b) as [st1 | e] eqn:S;
      simpl; [|discriminate].
    apply IH. eapply sweep_step_apart; eauto.
Qed.

Lemma last_gap_apart range_end m wh wsh weh st gs :
  dt_valid range_end = true ->
  sweep_apart st ->
  last_gap range_end m wh wsh weh st = Ok gs ->
  StronglySorted ends_before gs.
Proof.
  intros Vre Hst. pose proof Hst as (Vc & Hall & Hsorted). unfold last_gap.
  destruct (dt_lt (current_time st) range_end) eqn:L.
  - apply dt_lt_iff in L; auto.
    destruct (candidate wh wsh weh (current_time st) range_end)
      as [[[g1 g2] |] | e] eqn:C; simpl; try discriminate.
    + intros [= <-].
      destruct (sweep_apart_emit wh wsh weh st range_end g1 g2 m range_end
                  Hst Vre Vre) as (_ & _ & H); auto; lia.
    + intros [= <-]. assumption.
  - intros [= <-]. assumption.
Qed.

Section ApartProperties.
Variables iso ymd : string -> option datetime.
Hypothesis iso_valid : forall s d, iso s = Some d -> dt_valid d = true.
Hypothesis ymd_valid : forall s d, ymd s = Some d -> dt_valid d = true.

(** X23: when no event ends before it starts, the returned slots do not
    overlap each other, under either working-hours policy: each slot ends
    no later than every slot after it in the result starts. *)
Theorem free_gaps_do_not_overlap events time_min time_max m wh wsh weh gs :
  Forall (fun b => dt_lt (snd b) (fst b) = false) (busy_periods iso ymd events) ->
  free_gaps iso ymd events time_min time_max m wh wsh weh = Ok gs ->
  StronglySorted (fun a b => dt_lt (gap_start b) (gap_end a) = false) gs.
Proof.
  intros Hprop. unfold free_gaps.
  destruct (iso (replace_Z time_min)) as [rs |] eqn:Es;
    [|intros [= <-]; constructor].
  destruct (iso (replace_Z time_max)) as [re |] eqn:Ee;
    [|intros [= <-]; constructor].
  assert (Vrs : dt_valid (strip_tz rs) = true)
    by (rewrite strip_tz_valid; eauto).
  assert (Vre : dt_valid (strip_tz re) = true)
    by (rewrite strip_tz_valid; eauto).
  pose proof (busy_periods_valid iso ymd iso_valid ymd_valid events) as Hv.
  assert (Hall : Forall busy_proper (busy_periods iso ymd events)).
  { pose proof (busy_periods_naive iso ymd events) as Hn.
    rewrite List.Forall_forall in Hv, Hn, Hprop.
    apply List.Forall_forall. intros b Hin.
    destruct (Hv b Hin) as [V1 V2]. destruct (Hn b Hin) as [N1 N2].
    specialize (Hprop b Hin). apply dt_lt_false_iff in Hprop; auto.
    unfold busy_proper, busy_valid. auto. }
  destruct (sweep (strip_tz re) m wh wsh weh
              (sort_by_start (busy_periods iso ymd events))
              (mk_state [] (strip_tz rs))) as [st | e] eqn:S;
    simpl; [|discriminate].
  intros L.
  assert (Hst : sweep_apart st).
  { eapply sweep_apart_preserved; [exact Vre | | | exact S].
    - apply sort_by_start_Forall. exact Hall.
    - unfold sweep_apart; simpl. repeat split; auto; constructor. }
  assert (Hw : sweep_within (strip_tz rs) (strip_tz re) st).
  { eapply sweep_within_preserved; [exact Vre | | | exact S].
    - apply sort_by_start_Forall. exact Hv.
    - unfold sweep_within; simpl. repeat split; auto. lia. }
  pose proof (last_gap_within _ _ _ _ _ _ _ _ Vre Hw L) as Hok.
  pose proof (last_gap_apart _ _ _ _ _ _ _ Vre Hst L) as Hs.
  clear - Hok Hs. induction Hs as [| a l Hs IH Ha]; [constructor|].
  inversion Hok as [| ? ? (Va1 & Va2 & _) Hl]; subst.
  constructor; [apply IH; assumption|].
  rewrite List.Forall_forall in Ha, Hl. apply List.Forall_forall.
  intros b Hin. destruct (Hl b Hin) as (Vb1 & Vb2 & _).
  apply dt_lt_false_iff; auto. apply (Ha b Hin).
Qed.

End ApartProperties.

(** ** The slots cover the free time *)





Section CoverProperties.
Variables iso ymd : string -> option datetime.
Hypothesis iso_valid : forall s d, iso s = Some d -> dt_valid d = true.
Hypothesis ymd_valid : forall s d, ymd s = Some d -> dt_valid d = true.


End CoverProperties.

(** ** The theorems on the slots at concrete inputs *)

Lemma free_gaps_do_not_overlap_witness :
  StronglySorted (fun a b => dt_lt (gap_start b) (gap_end a) = false)
    [mk_gap (mk_datetime 2024 1 15 9 0 0 0 None)
       (mk_datetime 2024 1 15 12 0 0 0 None) 180;
     mk_gap (mk_datetime 2024 1 15 13 0 0 0 None)
       (mk_datetime 2024 1 15 17 0 0 0 None) 240].
Proof.
  apply (free_gaps_do_not_overlap Rfc3339.fromisoformat Rfc3339.strptime_ymd
           rfc3339_fromisoformat_valid rfc3339_strptime_ymd_valid
           [timed_event "2024-01-15T12:00:00Z" "2024-01-15T13:00:00Z"]
           "2024-01-15T00:00:00Z" "2024-01-15T23:59:59Z" 30 true 9 17).
  - vm_compute. constructor; [reflexivity | constructor].
  - vm_compute. reflexivity.
Defined.

